(** * AuditBoard bulk-deletion scripts: a shallow embedding

    The Python scripts under [scripts/] are sequential orchestration code over
    a REST API.  They are embedded here as functions in a small state and
    exception monad over an explicit [world]: the HTTP requests issued so far,
    the [time.sleep] calls, the console, and an oracle for what the remote
    API answers.

    Conventions of the embedding:
    - JSON data and Python objects are [value]s; JSON numbers are integers
      (the API's ids), floats are not modelled;
    - durations ([retry_delay], [rate_limit_delay], ...) are exact integers
      in one unit, so [retry_delay * (retry_count + 1)] is exact;
    - [logger.*] calls only write log lines; they are dropped, except that
      the evaluation of an argument that can raise (a slice [x[:60]] of a
      value that is no string) is kept;
    - a keyboard interrupt is modelled where the source handles it: at
      [input()] and during the countdown sleep;
    - text is a string of bytes (UTF-8); [upper] and [lower] map the ASCII
      letters, and what is proved of the case mapping of arbitrary text is
      proved of ASCII text. *)

From Stdlib Require Import ZArith List String Ascii Bool Lia RelationClasses Permutation.
From Stdlib Require Import DecimalString.
From Equations Require Import Equations.
Import ListNotations.

Local Open Scope string_scope.
Local Open Scope Z_scope.

Set Warnings "-register-all".

(** ** Python values *)

Inductive value : Type :=
| VNone
| VBool (b : bool)
| VInt (n : Z)
| VStr (s : string)
| VList (l : list value)
| VDict (d : list (string * value)).

(** Exceptions the scripts can meet.  [TransportError] stands for the
    [requests.RequestException]s that [requests.request] itself raises
    (connection errors, timeouts); [HTTPError] is what
    [Response.raise_for_status] raises. *)
Inductive exn : Type :=
| HTTPError (status : Z)
| TransportError
| JSONDecodeError
| TypeError
| AttributeError
| KeyError
| IndexError
| ZeroDivisionError
| ValueError
| EOFError
| KeyboardInterrupt
| SystemExit (code : Z).

(** [except requests.RequestException] *)
Definition is_RequestException (e : exn) : bool :=
  match e with
  | HTTPError _ | TransportError => true
  | _ => false
  end.

(** [except requests.HTTPError] *)
Definition is_HTTPError (e : exn) : bool :=
  match e with
  | HTTPError _ => true
  | _ => false
  end.

(** [except Exception]: everything but [SystemExit] and
    [KeyboardInterrupt], which derive from [BaseException] only. *)
Definition is_Exception (e : exn) : bool :=
  match e with
  | SystemExit _ | KeyboardInterrupt => false
  | _ => true
  end.

Inductive result (A : Type) : Type :=
| Ok (a : A)
| Raise (e : exn).
Arguments Ok {A} a.
Arguments Raise {A} e.

(** *** Dictionaries *)

Fixpoint lookup (k : string) (d : list (string * value)) : option value :=
  match d with
  | [] => None
  | (k', v) :: r => if String.eqb k k' then Some v else lookup k r
  end.

(** [k in d] *)
Definition has_key (k : string) (d : list (string * value)) : bool :=
  match lookup k d with Some _ => true | None => false end.

(** [d.get(k, default)]; only a dict has the method. *)
Definition py_get (v : value) (k : string) (default : value) : result value :=
  match v with
  | VDict d => Ok (match lookup k d with Some x => x | None => default end)
  | _ => Raise AttributeError
  end.

(** [k in v] for a string [k]: a key of a dict, an element of a list, a
    substring of a string; other values are not containers. *)
Definition py_contains (v : value) (k : string) : result bool :=
  match v with
  | VDict d => Ok (has_key k d)
  | VList l => Ok (existsb (fun x => match x with VStr s => String.eqb s k | _ => false end) l)
  | VStr s => Ok (match index 0 k s with Some _ => true | None => false end)
  | _ => Raise TypeError
  end.

(** *** Truth value, equality, membership *)

Definition truthy (v : value) : bool :=
  match v with
  | VNone => false
  | VBool b => b
  | VInt n => negb (n =? 0)
  | VStr s => negb (String.eqb s "")
  | VList l => match l with [] => false | _ => true end
  | VDict d => match d with [] => false | _ => true end
  end.

(** Python's [==]: [bool] is a subtype of [int] ([True == 1]), lists are
    compared element by element, dicts key by key whatever the order. *)
Fixpoint py_eq (a b : value) {struct a} : bool :=
  match a, b with
  | VNone, VNone => true
  | VBool x, VBool y => Bool.eqb x y
  | VBool x, VInt n => Z.b2z x =? n
  | VInt n, VBool x => n =? Z.b2z x
  | VInt m, VInt n => m =? n
  | VStr s, VStr t => String.eqb s t
  | VList l, VList l' =>
      (fix go (l l' : list value) {struct l} : bool :=
         match l, l' with
         | [], [] => true
         | x :: xs, y :: ys => py_eq x y && go xs ys
         | _, _ => false
         end) l l'
  | VDict d, VDict d' =>
      Nat.eqb (List.length d) (List.length d') &&
      (fix go (d : list (string * value)) {struct d} : bool :=
         match d with
         | [] => true
         | (k, v) :: r =>
             match lookup k d' with
             | Some v' => py_eq v v'
             | None => false
             end && go r
         end) d
  | _, _ => false
  end.

(** [x in xs] for a list [xs] *)
Definition py_in (x : value) (xs : list value) : bool :=
  existsb (fun y => py_eq y x) xs.

(** Iterating a value ([for x in v], a comprehension over [v]). *)
Fixpoint chars (s : string) : list value :=
  match s with
  | EmptyString => []
  | String c r => VStr (String c EmptyString) :: chars r
  end.

Definition py_iter (v : value) : result (list value) :=
  match v with
  | VList l => Ok l
  | VDict d => Ok (map (fun kv => VStr (fst kv)) d)
  | VStr s => Ok (chars s)
  | _ => Raise TypeError
  end.

(** [v[0]] *)
Definition py_index0 (v : value) : result value :=
  match v with
  | VList (x :: _) => Ok x
  | VStr (String c _) => Ok (VStr (String c EmptyString))
  | VList [] | VStr EmptyString => Raise IndexError
  | VDict _ => Raise KeyError
  | _ => Raise TypeError
  end.

(** [v[:n]] is evaluated for log lines only: what matters is whether it
    raises.  Strings and lists can be sliced; [None], numbers and dicts
    cannot (a [TypeError]; for a dict, a [KeyError] from Python 3.12 on). *)
Definition sliceable (v : value) : bool :=
  match v with
  | VStr _ | VList _ => true
  | _ => false
  end.

Definition py_slice (v : value) : result unit :=
  if sliceable v then Ok tt else Raise TypeError.

(** [hash(v)], as [set(...)] needs it. *)
Definition hashable (v : value) : bool :=
  match v with
  | VList _ | VDict _ => false
  | _ => true
  end.

(** [str(n)] for an integer *)
Definition str_of_Z (n : Z) : string := NilZero.string_of_int (Z.to_int n).

(** [s.upper()] and [s.lower()].  A string is the sequence of the bytes
    of its UTF-8 encoding, and the two functions map the ASCII letters
    only: they are Python's on ASCII text, while Python also maps the
    letters of other scripts.  The properties that depend on the case
    mapping of arbitrary text are stated for ASCII text ([is_ascii]). *)
Definition upper_ascii (c : ascii) : ascii :=
  let n := nat_of_ascii c in
  if andb (Nat.leb 97 n) (Nat.leb n 122) then ascii_of_nat (n - 32)%nat else c.

Definition lower_ascii (c : ascii) : ascii :=
  let n := nat_of_ascii c in
  if andb (Nat.leb 65 n) (Nat.leb n 90) then ascii_of_nat (n + 32)%nat else c.

Fixpoint upper (s : string) : string :=
  match s with
  | EmptyString => EmptyString
  | String c r => String (upper_ascii c) (upper r)
  end.

Fixpoint lower (s : string) : string :=
  match s with
  | EmptyString => EmptyString
  | String c r => String (lower_ascii c) (lower r)
  end.

(** ** The world: remote API, clock and console *)

Inductive method : Type := GET | POST | DELETE.

(** An endpoint is a collection (['controls']) or one of its items
    ([f'controls/{control_id}']). *)
Inductive endpoint : Type :=
| Collection (resource : string)
| Item (resource : string) (id : value).

Record request : Type := { rq_method : method; rq_endpoint : endpoint }.

(** A response: its status code and its body when that is JSON. *)
Record response : Type := { status_code : Z; body : option value }.

(** What [requests.request] does: it raises (connection error, timeout)
    or hands back a response. *)
Inductive outcome : Type :=
| Fails
| Replies (r : response).

(** What the operator does at an [input()]. *)
Inductive input_event : Type :=
| Line (s : string)
| EndOfFile
| CtrlC.

(** One constructor for each [print] call of the confirmation prompts. *)
Inductive print_event : Type :=
| PrintWarning (item_count : Z) (item_type : string)
| PrintCannotBeUndone
| PrintPrompt (confirmation_text : string)
| PrintConfirmationFailed
| PrintCancelled.

(** [remote n r] is the remote API's answer to request [r] when [n]
    requests were issued before it; [abort_countdown] says whether the
    operator presses Ctrl+C during the countdown.  The other fields are
    traces, oldest entry first. *)
Record world : Type := {
  remote : nat -> request -> outcome;
  abort_countdown : bool;
  stdin : list input_event;
  sent : list request;
  slept : list Z;
  printed : list print_event
}.

Definition record_request (r : request) (w : world) : world :=
  {| remote := remote w; abort_countdown := abort_countdown w; stdin := stdin w;
     sent := sent w ++ [r]; slept := slept w; printed := printed w |}.

Definition record_sleep (d : Z) (w : world) : world :=
  {| remote := remote w; abort_countdown := abort_countdown w; stdin := stdin w;
     sent := sent w; slept := slept w ++ [d]; printed := printed w |}.

Definition record_print (p : print_event) (w : world) : world :=
  {| remote := remote w; abort_countdown := abort_countdown w; stdin := stdin w;
     sent := sent w; slept := slept w; printed := printed w ++ [p] |}.

Definition set_stdin (i : list input_event) (w : world) : world :=
  {| remote := remote w; abort_countdown := abort_countdown w; stdin := i;
     sent := sent w; slept := slept w; printed := printed w |}.

(** ** The monad of the scripts: state and exceptions *)

Definition M (A : Type) : Type := world -> result A * world.

Definition ret {A} (a : A) : M A := fun w => (Ok a, w).

Definition raise {A} (e : exn) : M A := fun w => (Raise e, w).

Definition bind {A B} (m : M A) (f : A -> M B) : M B :=
  fun w =>
    match m w with
    | (Ok a, w') => f a w'
    | (Raise e, w') => (Raise e, w')
    end.

Definition lift {A} (r : result A) : M A := fun w => (r, w).

(** [try: body except <catches> as e: handler e] *)
Definition try_except {A} (body : M A) (catches : exn -> bool) (handler : exn -> M A) : M A :=
  fun w =>
    match body w with
    | (Ok a, w') => (Ok a, w')
    | (Raise e, w') => if catches e then handler e w' else (Raise e, w')
    end.

Declare Scope py_scope.
Delimit Scope py_scope with py.
Notation "x <- m ;; k" := (bind m (fun x => k))
  (at level 61, m at next level, right associativity) : py_scope.
Notation "m ;; k" := (bind m (fun _ => k))
  (at level 61, right associativity) : py_scope.
Local Open Scope py_scope.

(** [time.sleep(d)]: a negative duration is a [ValueError]. *)
Definition sleep (d : Z) : M unit :=
  fun w => if d <? 0 then (Raise ValueError, w) else (Ok tt, record_sleep d w).

(** [print(...)] *)
Definition print (p : print_event) : M unit :=
  fun w => (Ok tt, record_print p w).

(** [input()]: the next thing the operator does; a closed stdin is an
    end of file. *)
Definition input : M string :=
  fun w =>
    match stdin w with
    | Line s :: rest => (Ok s, set_stdin rest w)
    | EndOfFile :: rest => (Raise EOFError, set_stdin rest w)
    | CtrlC :: rest => (Raise KeyboardInterrupt, set_stdin rest w)
    | [] => (Raise EOFError, w)
    end.

(** [for x in xs: body x] *)
Fixpoint for_each {A} (xs : list A) (body : A -> M unit) : M unit :=
  match xs with
  | [] => ret tt
  | x :: r => body x ;; for_each r body
  end.

(** [[x for x in xs if keep x]] where the test may raise *)
Fixpoint filterM {A} (keep : A -> result bool) (xs : list A) : result (list A) :=
  match xs with
  | [] => Ok []
  | x :: r =>
      match keep x with
      | Raise e => Raise e
      | Ok b =>
          match filterM keep r with
          | Raise e => Raise e
          | Ok r' => Ok (if b then x :: r' else r')
          end
      end
  end.

(** [[f x for x in xs]] where [f] may raise *)
Fixpoint mapM {A B} (f : A -> result B) (xs : list A) : result (list B) :=
  match xs with
  | [] => Ok []
  | x :: r =>
      match f x with
      | Raise e => Raise e
      | Ok y =>
          match mapM f r with
          | Raise e => Raise e
          | Ok r' => Ok (y :: r')
          end
      end
  end.

(** ** core/api_client.py *)

Record AuditBoardClient : Type := {
  max_retries : Z;
  retry_delay : Z
}.

(** [requests.request(method, url, ...)] *)
Definition requests_request (m : method) (ep : endpoint) : M response :=
  fun w =>
    let r := {| rq_method := m; rq_endpoint := ep |} in
    match remote w (List.length (sent w)) r with
    | Fails => (Raise TransportError, record_request r w)
    | Replies resp => (Ok resp, record_request r w)
    end.

(** [AuditBoardClient._make_request].  Both recursive calls are as in the
    source: the first one stands inside the [try] block, so a
    [RequestException] that it raises is handled by this frame's [except]
    clause. *)
Equations? _make_request (c : AuditBoardClient) (m : method) (ep : endpoint)
    (retry_count : Z) (w : world) : result response * world
    by wf (Z.to_nat (max_retries c - retry_count)) lt :=
  _make_request c m ep retry_count w :=
    try_except
      (response <- requests_request m ep ;;
       if 500 <=? status_code response then
         match Z_lt_dec retry_count (max_retries c) with
         | left _ =>
             sleep (retry_delay c * (retry_count + 1)) ;;
             (fun w' => _make_request c m ep (retry_count + 1) w')
         | right _ => ret response
         end
       else ret response)
      is_RequestException
      (fun e =>
         match Z_lt_dec retry_count (max_retries c) with
         | left _ =>
             sleep (retry_delay c * (retry_count + 1)) ;;
             (fun w' => _make_request c m ep (retry_count + 1) w')
         | right _ => raise e
         end)
      w.
Proof. all: lia. Qed.

(** [Response.raise_for_status()] *)
Definition raise_for_status (r : response) : M unit :=
  if (400 <=? status_code r) && (status_code r <? 600)
  then raise (HTTPError (status_code r))
  else ret tt.

(** [Response.json()] *)
Definition json (r : response) : M value :=
  match body r with
  | Some v => ret v
  | None => raise JSONDecodeError
  end.

(** [AuditBoardClient.get] *)
Definition get (c : AuditBoardClient) (ep : endpoint) : M value :=
  response <- _make_request c GET ep 0 ;;
  raise_for_status response ;;
  json response.

(** [AuditBoardClient.delete] *)
Definition delete (c : AuditBoardClient) (ep : endpoint) : M bool :=
  response <- _make_request c DELETE ep 0 ;;
  if (status_code response =? 200) || (status_code response =? 204) then ret true
  else (raise_for_status response ;; ret false).

(** The list accessors [get_controls], [get_processes], ...:
    [data = self.get(resource, params); return data.get(resource, [])]. *)
Definition get_all (resource : string) (c : AuditBoardClient) : M value :=
  data <- get c (Collection resource) ;;
  lift (py_get data resource (VList [])).

Definition get_controls := get_all "controls".
Definition get_processes := get_all "processes".
Definition get_subprocesses := get_all "subprocesses".
Definition get_entities := get_all "entities".
Definition get_regions := get_all "regions".
Definition get_auditable_entities := get_all "auditable_entities".

(** The per-id accessors share one body, with the resource name as the
    only difference:
    [try: data = self.get(f'{resource}/{id}'); xs = data.get(resource, []);
          return xs[0] if xs else None
     except requests.HTTPError: return None]. *)
Definition get_by_id (resource : string) (c : AuditBoardClient) (id : value) : M value :=
  try_except
    (data <- get c (Item resource id) ;;
     xs <- lift (py_get data resource (VList [])) ;;
     if truthy xs then lift (py_index0 xs) else ret VNone)
    is_HTTPError
    (fun _ => ret VNone).

Definition get_control := get_by_id "controls".
Definition get_process := get_by_id "processes".
Definition get_subprocess := get_by_id "subprocesses".
Definition get_entity := get_by_id "entities".
Definition get_region := get_by_id "regions".
Definition get_auditable_entity := get_by_id "auditable_entities".

(** The per-id accessors with the JSON key each one reads. *)
Definition per_id_accessors : list (string * (AuditBoardClient -> value -> M value)) :=
  [ ("controls", get_control); ("processes", get_process);
    ("subprocesses", get_subprocess); ("entities", get_entity);
    ("regions", get_region); ("auditable_entities", get_auditable_entity) ].

Definition delete_control (c : AuditBoardClient) (id : value) : M bool :=
  delete c (Item "controls" id).
Definition delete_subprocess (c : AuditBoardClient) (id : value) : M bool :=
  delete c (Item "subprocesses" id).
Definition delete_process (c : AuditBoardClient) (id : value) : M bool :=
  delete c (Item "processes" id).
Definition delete_entity (c : AuditBoardClient) (id : value) : M bool :=
  delete c (Item "entities" id).
(** [AuditBoardClient.delete_region] *)
Definition client_delete_region (c : AuditBoardClient) (id : value) : M bool :=
  delete c (Item "regions" id).

(** ** core/safety.py *)

Record SafetyChecker : Type := { dry_run : bool }.

(** [SafetyChecker.confirm_deletion] *)
Definition confirm_deletion (self : SafetyChecker) (item_type : string) (item_count : Z)
    (confirmation_text : option string) (skip_confirm : bool) : M bool :=
  if dry_run self then ret true
  else if skip_confirm then ret true
  else
    let confirmation_text :=
      match confirmation_text with
      | None => "DELETE " ++ str_of_Z item_count ++ " " ++ upper item_type
      | Some t => t
      end in
    print (PrintWarning item_count item_type) ;;
    print PrintCannotBeUndone ;;
    print (PrintPrompt confirmation_text) ;;
    try_except
      (user_input <- input ;;
       if String.eqb user_input confirmation_text then ret true
       else (print PrintConfirmationFailed ;; ret false))
      (fun e => match e with EOFError | KeyboardInterrupt => true | _ => false end)
      (fun _ => print PrintCancelled ;; ret false).

(** [SafetyChecker.countdown_warning]: [sys.exit(0)] when the sleep is
    interrupted. *)
Definition countdown_warning (self : SafetyChecker) (seconds : Z) : M unit :=
  if dry_run self then ret tt
  else
    try_except
      (fun w => if abort_countdown w then (Raise KeyboardInterrupt, w) else sleep seconds w)
      (fun e => match e with KeyboardInterrupt => true | _ => false end)
      (fun _ => raise (SystemExit 0)).

(** [is_dry_run], as a function of [sys.argv] and of the environment
    variable [DRY_RUN] ([None] when unset). *)
Definition is_dry_run (argv : list string) (DRY_RUN : option string) : bool :=
  if existsb (String.eqb "--dry-run") argv then true
  else if existsb (String.eqb "--live") argv then false
  else
    let dry_run_env := lower (match DRY_RUN with Some v => v | None => "true" end) in
    existsb (String.eqb dry_run_env) ["true"; "1"; "yes"].

(** ** core/config.py *)

Record AuditBoardConfig : Type := {
  timeout : Z;
  cfg_max_retries : Z;
  cfg_retry_delay : Z
}.

Record SafetyConfig : Type := {
  dry_run_default : bool;
  require_confirmation : bool;
  rate_limit_delay : Z;
  countdown_seconds : Z
}.

Record DeletionConfig : Type := {
  batch_size : Z;
  pause_every_n : Z;
  save_results : bool;
  results_dir : string
}.

Record Config : Type := {
  auditboard : AuditBoardConfig;
  safety : SafetyConfig;
  deletion : DeletionConfig
}.

(** ** deletion/delete_controls.py *)

(** An entry of the [deleted] and [failed] lists:
    [{'id': .., 'uid': .., 'name': ..}], with ['error': str(e)] when the
    delete call raised. *)
Record ResultItem : Type := {
  item_id : value;
  item_uid : value;
  item_name : value;
  item_error : option exn
}.

(** The results dict of [delete_controls_bulk]. *)
Record DeletionResults : Type := {
  timestamp : string;
  res_dry_run : bool;
  total_controls : Z;
  deleted : list ResultItem;
  failed : list ResultItem
}.

(** [results['deleted'].append(item)] and [results['failed'].append(item)] *)
Definition append_deleted (item : ResultItem) (r : DeletionResults) : DeletionResults :=
  {| timestamp := timestamp r; res_dry_run := res_dry_run r;
     total_controls := total_controls r;
     deleted := deleted r ++ [item]; failed := failed r |}.

Definition append_failed (item : ResultItem) (r : DeletionResults) : DeletionResults :=
  {| timestamp := timestamp r; res_dry_run := res_dry_run r;
     total_controls := total_controls r;
     deleted := deleted r; failed := failed r ++ [item] |}.

(** One turn of [for i, ctrl in enumerate(controls, 1)]. *)
Definition delete_one (client : AuditBoardClient) (config : Config) (dry_run : bool)
    (total : Z) (i : Z) (ctrl : value) (results : DeletionResults) : M DeletionResults :=
  ctrl_id <- lift (py_get ctrl "id" VNone) ;;
  ctrl_uid <- lift (py_get ctrl "uid" VNone) ;;
  ctrl_name <- lift (py_get ctrl "name" (VStr "N/A")) ;;
  lift (py_slice ctrl_name) ;;   (* logger.info(f"... {ctrl_name[:60]}") *)
  let item := {| item_id := ctrl_id; item_uid := ctrl_uid; item_name := ctrl_name;
                 item_error := None |} in
  results <-
    (if dry_run then ret (append_deleted item results)
     else
       try_except
         (success <- delete_control client ctrl_id ;;
          if success then ret (append_deleted item results)
          else ret (append_failed item results))
         is_Exception
         (fun e =>
            ret (append_failed
                   {| item_id := ctrl_id; item_uid := ctrl_uid; item_name := ctrl_name;
                      item_error := Some e |} results))) ;;
  (* rate limiting: [not dry_run and i % pause_every_n == 0 and i < total] *)
  (if dry_run then ret tt
   else if pause_every_n (deletion config) =? 0 then raise ZeroDivisionError
   else if (i mod pause_every_n (deletion config) =? 0) && (i <? total)
        then sleep (rate_limit_delay (safety config))
        else ret tt) ;;
  ret results.

Fixpoint delete_loop (client : AuditBoardClient) (config : Config) (dry_run : bool)
    (total : Z) (i : Z) (controls : list value) (results : DeletionResults)
    : M DeletionResults :=
  match controls with
  | [] => ret results
  | ctrl :: rest =>
      results <- delete_one client config dry_run total i ctrl results ;;
      delete_loop client config dry_run total (i + 1) rest results
  end.

(** [delete_controls_bulk]; [now] is [datetime.now().isoformat()]. *)
Definition delete_controls_bulk (controls : list value) (client : AuditBoardClient)
    (config : Config) (dry_run : bool) (now : string) : M DeletionResults :=
  let safety_checker := {| dry_run := dry_run |} in
  match controls with
  | [] =>
      ret {| timestamp := now; res_dry_run := dry_run; total_controls := 0;
             deleted := []; failed := [] |}
  | _ =>
      let total := Z.of_nat (List.length controls) in
      (if negb dry_run then
         confirmed <- confirm_deletion safety_checker "controls" total
                        (Some ("DELETE " ++ str_of_Z total ++ " CONTROLS")) false ;;
         (if negb confirmed then raise (SystemExit 0) else ret tt) ;;
         countdown_warning safety_checker (countdown_seconds (safety config))
       else ret tt) ;;
      delete_loop client config dry_run total 1 controls
        {| timestamp := now; res_dry_run := dry_run; total_controls := total;
           deleted := []; failed := [] |}
  end.

(** ** discovery/find_dependencies.py *)

(** [len(v)] *)
Definition py_len (v : value) : result Z :=
  match v with
  | VList l => Ok (Z.of_nat (List.length l))
  | VDict d => Ok (Z.of_nat (List.length d))
  | VStr s => Ok (Z.of_nat (String.length s))
  | _ => Raise TypeError
  end.

(** [[x for x in all if x.get(fk) in ids]] *)
Definition select_in (all : value) (fk : string) (ids : list value) : result (list value) :=
  match py_iter all with
  | Raise e => Raise e
  | Ok xs =>
      filterM (fun x => match py_get x fk VNone with
                        | Ok v => Ok (py_in v ids)
                        | Raise e => Raise e
                        end) xs
  end.

(** [[x for x in all if x.get(fk) == id]] *)
Definition select_eq (all : value) (fk : string) (id : value) : result (list value) :=
  match py_iter all with
  | Raise e => Raise e
  | Ok xs =>
      filterM (fun x => match py_get x fk VNone with
                        | Ok v => Ok (py_eq v id)
                        | Raise e => Raise e
                        end) xs
  end.

(** The log line of one record: [x.get('name', 'N/A')[:n]]. *)
Definition log_name (x : value) : M unit :=
  name <- lift (py_get x "name" (VStr "N/A")) ;;
  lift (py_slice name).

Module FindDependencies.

(** The report of the entity, process and subprocess checkers.  The dict
    keys are [<type>_ids], [has_dependencies], the child collection's name
    ([processes_data], [subprocesses], [controls]) and [<children>_count]. *)
Record DependencyReport : Type := {
  checked_ids : list value;
  has_dependencies : bool;
  children : list value;
  children_count : Z
}.

(** [check_entity_dependencies] *)
Definition check_entity_dependencies (entity_ids : list value) (client : AuditBoardClient)
    : M DependencyReport :=
  processes_data <- get client (Collection "processes_data") ;;
  all_pd <- lift (py_get processes_data "processes_data" (VList [])) ;;
  lift (py_len all_pd) ;;   (* logger.info(f"... {len(all_pd)}") *)
  entity_pd <- lift (select_in all_pd "entity_id" entity_ids) ;;
  ret {| checked_ids := entity_ids;
         has_dependencies := 0 <? Z.of_nat (List.length entity_pd);
         children := entity_pd;
         children_count := Z.of_nat (List.length entity_pd) |}.

(** [check_process_dependencies] *)
Definition check_process_dependencies (process_ids : list value) (client : AuditBoardClient)
    : M DependencyReport :=
  all_subprocesses <- get_subprocesses client ;;
  process_subprocesses <- lift (select_in all_subprocesses "process_id" process_ids) ;;
  ret {| checked_ids := process_ids;
         has_dependencies := 0 <? Z.of_nat (List.length process_subprocesses);
         children := process_subprocesses;
         children_count := Z.of_nat (List.length process_subprocesses) |}.

(** [check_subprocess_dependencies]; the warning lines slice the names of
    the first ten controls. *)
Definition check_subprocess_dependencies (subprocess_ids : list value)
    (client : AuditBoardClient) : M DependencyReport :=
  all_controls <- get_controls client ;;
  subprocess_controls <- lift (select_in all_controls "subprocess_id" subprocess_ids) ;;
  let results :=
    {| checked_ids := subprocess_ids;
       has_dependencies := 0 <? Z.of_nat (List.length subprocess_controls);
       children := subprocess_controls;
       children_count := Z.of_nat (List.length subprocess_controls) |} in
  for_each (firstn 10 subprocess_controls) log_name ;;
  ret results.

(** The report of the region checker. *)
Record RegionDependencyReport : Type := {
  checked_region_id : Z;
  region_has_dependencies : bool;
  dep_entities : list value;
  entities_count : Z;
  dep_processes : list value;
  processes_count : Z
}.

(** [check_region_dependencies]; the warning lines slice the names of
    the first five entities and processes. *)
Definition check_region_dependencies (region_id : Z) (client : AuditBoardClient)
    : M RegionDependencyReport :=
  all_entities <- get_entities client ;;
  region_entities <- lift (select_eq all_entities "region_id" (VInt region_id)) ;;
  all_processes <- get_processes client ;;
  region_processes <- lift (select_eq all_processes "region_id" (VInt region_id)) ;;
  let results :=
    {| checked_region_id := region_id;
       region_has_dependencies :=
         (0 <? Z.of_nat (List.length region_entities))
         || (0 <? Z.of_nat (List.length region_processes));
       dep_entities := region_entities;
       entities_count := Z.of_nat (List.length region_entities);
       dep_processes := region_processes;
       processes_count := Z.of_nat (List.length region_processes) |} in
  for_each (firstn 5 region_entities) log_name ;;
  for_each (firstn 5 region_processes) log_name ;;
  ret results.

End FindDependencies.

Import FindDependencies.

(** ** deletion/delete_region.py *)

(** The value of an ["error"] key: a literal, or [str(e)]. *)
Inductive error_text : Type :=
| Text (s : string)
| StrOf (e : exn).

Module DeleteRegion.

(** [check_region_dependencies]: the pair [(safe, dependencies)], the
    dependencies being the lists under the keys ["entities"] and
    ["processes"]. *)
Definition check_region_dependencies (region_id : Z) (client : AuditBoardClient)
    : M (bool * (list value * list value)) :=
  all_entities <- get_entities client ;;
  entities <- lift (select_eq all_entities "region_id" (VInt region_id)) ;;
  all_processes <- get_processes client ;;
  processes <- lift (select_eq all_processes "region_id" (VInt region_id)) ;;
  let has_dependencies :=
    (0 <? Z.of_nat (List.length entities)) || (0 <? Z.of_nat (List.length processes)) in
  if has_dependencies then ret (false, (entities, processes))
  else ret (true, (entities, processes)).

(** The dicts [delete_region] returns; a key that a dict lacks is [None]
    here. *)
Record RegionDeletion : Type := {
  rd_timestamp : string;
  rd_dry_run : bool;
  rd_region_id : option Z;
  rd_region_name : option value;
  rd_success : bool;
  rd_error : option error_text;
  rd_dependencies : option (list value * list value)
}.

(** [delete_region] *)
Definition delete_region (region_id : Z) (client : AuditBoardClient) (config : Config)
    (dry_run : bool) (force : bool) (now : string) : M RegionDeletion :=
  let safety_checker := {| dry_run := dry_run |} in
  region <- get_region client (VInt region_id) ;;
  if negb (truthy region) then
    ret {| rd_timestamp := now; rd_dry_run := dry_run; rd_region_id := None;
           rd_region_name := None; rd_success := false;
           rd_error := Some (Text "Region not found"); rd_dependencies := None |}
  else
    region_name <- lift (py_get region "name" VNone) ;;
    blocked <-
      (if negb force then
         r <- check_region_dependencies region_id client ;;
         let '(safe, dependencies) := r in
         if negb safe then ret (Some dependencies) else ret None
       else ret None) ;;
    match blocked with
    | Some dependencies =>
        ret {| rd_timestamp := now; rd_dry_run := dry_run; rd_region_id := None;
               rd_region_name := None; rd_success := false;
               rd_error := Some (Text "Dependencies exist");
               rd_dependencies := Some dependencies |}
    | None =>
        (if negb dry_run then
           confirmed <- confirm_deletion safety_checker "region" 1
                          (Some ("DELETE REGION " ++ str_of_Z region_id)) false ;;
           (if negb confirmed then raise (SystemExit 0) else ret tt) ;;
           countdown_warning safety_checker (countdown_seconds (safety config))
         else ret tt) ;;
        let results (success : bool) (error : option error_text) :=
          {| rd_timestamp := now; rd_dry_run := dry_run; rd_region_id := Some region_id;
             rd_region_name := Some region_name; rd_success := success;
             rd_error := error; rd_dependencies := None |} in
        if dry_run then ret (results true None)
        else
          try_except
            (success <- client_delete_region client (VInt region_id) ;;
             if success then ret (results true None)
             else ret (results false (Some (Text "API deletion failed"))))
            is_Exception
            (fun e => ret (results false (Some (StrOf e))))
    end.

End DeleteRegion.

Import DeleteRegion.

(** ** discovery/analyze_region.py *)

(** [v[k]] for a string key *)
Definition py_item (v : value) (k : string) : result value :=
  match v with
  | VDict d => match lookup k d with Some x => Ok x | None => Raise KeyError end
  | _ => Raise TypeError
  end.

(** [{k: x.get(k) for k in keys}], the [*_info] dicts. *)
Definition info (keys : list string) (x : value) : result value :=
  match mapM (fun k => match py_get x k VNone with
                       | Ok v => Ok (k, v)
                       | Raise e => Raise e
                       end) keys with
  | Ok d => Ok (VDict d)
  | Raise e => Raise e
  end.

(** [next((p for p in xs if p.get('id') == id), None)]: the generator
    stops at the first match. *)
Fixpoint next_with_id (xs : list value) (id : value) : result value :=
  match xs with
  | [] => Ok VNone
  | p :: r =>
      match py_get p "id" VNone with
      | Raise e => Raise e
      | Ok v => if py_eq v id then Ok p else next_with_id r id
      end
  end.

(** A value used as a dict key or put into a set must be hashable. *)
Definition require_hashable (v : value) : result unit :=
  if hashable v then Ok tt else Raise TypeError.

(** Grouping as the source does it with a dict of lists: groups in the
    order of their first member. *)
Fixpoint add_to_group (k x : value) (groups : list (value * list value))
    : list (value * list value) :=
  match groups with
  | [] => [(k, [x])]
  | (k', xs) :: r =>
      if py_eq k' k then (k', (xs ++ [x])%list) :: r else (k', xs) :: add_to_group k x r
  end.

Fixpoint group_by (fk : string) (xs : list value) (groups : list (value * list value))
    : result (list (value * list value)) :=
  match xs with
  | [] => Ok groups
  | x :: r =>
      match py_get x fk VNone with
      | Raise e => Raise e
      | Ok k =>
          match require_hashable k with
          | Raise e => Raise e
          | Ok _ => group_by fk r (add_to_group k x groups)
          end
      end
  end.

(** The ['summary'] dict; ['region'] is the text
    [f"Region {region_id} - {name}"], kept as its two parts. *)
Record Summary : Type := {
  summary_region : Z * value;
  summary_entities_count : Z;
  summary_processes_count : Z;
  summary_subprocesses_count : Z;
  summary_controls_count : Z;
  summary_controls_data_count : Z;
  summary_processes_data_count : Z;
  summary_subprocesses_data_count : Z
}.

(** The [state] dict of [analyze_region]; an empty ['summary'] is [None]. *)
Record RegionState : Type := {
  st_timestamp : string;
  st_region_id : Z;
  st_region : value;
  st_entities : list value;
  st_processes : list value;
  st_subprocesses : list value;
  st_controls : list value;
  st_processes_data : list value;
  st_subprocesses_data : list value;
  st_controls_data : list value;
  st_summary : option Summary
}.

(** The dict as [save_results] writes it. *)
Definition summary_value (s : option Summary) : value :=
  match s with
  | None => VDict []
  | Some s =>
      VDict [ ("region", VList [VInt (fst (summary_region s)); snd (summary_region s)]);
              ("entities_count", VInt (summary_entities_count s));
              ("processes_count", VInt (summary_processes_count s));
              ("subprocesses_count", VInt (summary_subprocesses_count s));
              ("controls_count", VInt (summary_controls_count s));
              ("controls_data_count", VInt (summary_controls_data_count s));
              ("processes_data_count", VInt (summary_processes_data_count s));
              ("subprocesses_data_count", VInt (summary_subprocesses_data_count s)) ]
  end.

Definition state_value (s : RegionState) : value :=
  VDict [ ("timestamp", VStr (st_timestamp s));
          ("region_id", VInt (st_region_id s));
          ("region", st_region s);
          ("entities", VList (st_entities s));
          ("processes", VList (st_processes s));
          ("subprocesses", VList (st_subprocesses s));
          ("controls", VList (st_controls s));
          ("processes_data", VList (st_processes_data s));
          ("subprocesses_data", VList (st_subprocesses_data s));
          ("controls_data", VList (st_controls_data s));
          ("summary", summary_value (st_summary s)) ].

(** The state as the function creates it. *)
Definition initial_state (now : string) (region_id : Z) : RegionState :=
  {| st_timestamp := now; st_region_id := region_id; st_region := VNone;
     st_entities := []; st_processes := []; st_subprocesses := []; st_controls := [];
     st_processes_data := []; st_subprocesses_data := []; st_controls_data := [];
     st_summary := None |}.

Section AnalyzeRegion.

(** [list(set(xs))]: Python fixes no order for the elements of a set. *)
Variable set_order : list value -> list value.

Definition list_set (xs : list value) : result (list value) :=
  match mapM require_hashable xs with
  | Raise e => Raise e
  | Ok _ => Ok (set_order xs)
  end.

(** Step 2: the entities of the region, as [entity_info] dicts. *)
Definition step_entities (client : AuditBoardClient) (region_id : Z) : M (list value) :=
  all_entities <- get_entities client ;;
  region_entities <- lift (select_eq all_entities "region_id" (VInt region_id)) ;;
  lift (mapM (info ["id"; "name"; "entity_type_id"; "region_id"]) region_entities).

(** Step 3: [processes_data], fetched only [if entity_ids]. *)
Definition step_processes_data (client : AuditBoardClient) (entities : list value)
    : M (list value) :=
  entity_ids <- lift (mapM (fun e => py_item e "id") entities) ;;
  match entity_ids with
  | [] => ret []
  | _ =>
      processes_data <- get client (Collection "processes_data") ;;
      all_pd <- lift (py_get processes_data "processes_data" (VList [])) ;;
      region_pd <- lift (select_in all_pd "entity_id" entity_ids) ;;
      infos <- lift (mapM (info ["id"; "entity_id"; "process_id"]) region_pd) ;;
      lift (group_by "entity_id" region_pd []) ;;
      ret infos
  end.

(** [for id in ids: x = next(...); if x: append(info)] *)
Fixpoint collect_by_id (keys : list string) (all : list value) (ids : list value)
    : result (list value) :=
  match ids with
  | [] => Ok []
  | id :: r =>
      match next_with_id all id with
      | Raise e => Raise e
      | Ok x =>
          match (if truthy x then
                   match info keys x with Ok i => Ok [i] | Raise e => Raise e end
                 else Ok []) with
          | Raise e => Raise e
          | Ok here =>
              match collect_by_id keys all r with
              | Raise e => Raise e
              | Ok rest => Ok (here ++ rest)%list
              end
          end
      end
  end.

(** Step 4: the processes, fetched only [if process_ids]. *)
Definition step_processes (client : AuditBoardClient) (processes_data : list value)
    : M (list value) :=
  raw <- lift (mapM (fun pd => py_item pd "process_id") processes_data) ;;
  process_ids <- lift (list_set raw) ;;
  match process_ids with
  | [] => ret []
  | _ =>
      all_processes <- get_processes client ;;
      all <- lift (py_iter all_processes) ;;
      lift (collect_by_id ["id"; "name"; "uid"; "region_id"] all process_ids)
  end.

(** Step 5: [subprocesses_data], fetched only [if processes_data_ids]. *)
Definition step_subprocesses_data (client : AuditBoardClient) (processes_data : list value)
    : M (list value) :=
  processes_data_ids <- lift (mapM (fun pd => py_item pd "id") processes_data) ;;
  match processes_data_ids with
  | [] => ret []
  | _ =>
      subprocesses_data <- get client (Collection "subprocesses_data") ;;
      all_spd <- lift (py_get subprocesses_data "subprocesses_data" (VList [])) ;;
      region_spd <- lift (select_in all_spd "processes_datum_id" processes_data_ids) ;;
      lift (mapM (info ["id"; "processes_datum_id"; "subprocess_id"]) region_spd)
  end.

(** Step 6: the subprocesses, fetched only [if subprocess_ids]; the ids
    are handed on to step 7. *)
Definition step_subprocesses (client : AuditBoardClient) (subprocesses_data : list value)
    : M (list value * list value) :=
  raw <- lift (mapM (fun spd => py_item spd "subprocess_id") subprocesses_data) ;;
  subprocess_ids <- lift (list_set raw) ;;
  match subprocess_ids with
  | [] => ret (subprocess_ids, [])
  | _ =>
      all_subprocesses <- get_subprocesses client ;;
      all <- lift (py_iter all_subprocesses) ;;
      subprocesses <- lift (collect_by_id ["id"; "name"; "uid"; "process_id"]
                              all subprocess_ids) ;;
      ret (subprocess_ids, subprocesses)
  end.

(** Step 7: the controls, fetched only [if subprocess_ids]; the log
    lines slice the names of the first five controls of each group. *)
Definition step_controls (client : AuditBoardClient) (subprocess_ids : list value)
    : M (list value) :=
  match subprocess_ids with
  | [] => ret []
  | _ =>
      all_controls <- get_controls client ;;
      region_controls <- lift (select_in all_controls "subprocess_id" subprocess_ids) ;;
      infos <- lift (mapM (info ["id"; "name"; "uid"; "subprocess_id"]) region_controls) ;;
      groups <- lift (group_by "subprocess_id" region_controls []) ;;
      for_each groups (fun g => for_each (firstn 5 (snd g)) log_name) ;;
      ret infos
  end.

(** Step 8: [controls_data], fetched only [if control_ids]. *)
Definition step_controls_data (client : AuditBoardClient) (controls : list value)
    : M (list value) :=
  control_ids <- lift (mapM (fun c => py_item c "id") controls) ;;
  match control_ids with
  | [] => ret []
  | _ =>
      controls_data <- get client (Collection "controls_data") ;;
      all_cd <- lift (py_get controls_data "controls_data" (VList [])) ;;
      region_cd <- lift (select_in all_cd "control_id" control_ids) ;;
      lift (mapM (info ["id"; "control_id"; "subprocesses_datum_id"]) region_cd)
  end.

(** The summary and the final state. *)
Definition finish (now : string) (region_id : Z) (region_info : value)
    (entities processes_data processes subprocesses_data subprocesses controls
       controls_data : list value) : M RegionState :=
  region_name <- lift (if truthy region_info then py_item region_info "name"
                       else Ok (VStr "N/A")) ;;
  ret {| st_timestamp := now; st_region_id := region_id; st_region := region_info;
         st_entities := entities; st_processes := processes;
         st_subprocesses := subprocesses; st_controls := controls;
         st_processes_data := processes_data;
         st_subprocesses_data := subprocesses_data;
         st_controls_data := controls_data;
         st_summary :=
           Some {| summary_region := (region_id, region_name);
                   summary_entities_count := Z.of_nat (List.length entities);
                   summary_processes_count := Z.of_nat (List.length processes);
                   summary_subprocesses_count := Z.of_nat (List.length subprocesses);
                   summary_controls_count := Z.of_nat (List.length controls);
                   summary_controls_data_count := Z.of_nat (List.length controls_data);
                   summary_processes_data_count := Z.of_nat (List.length processes_data);
                   summary_subprocesses_data_count :=
                     Z.of_nat (List.length subprocesses_data) |} |}.

(** The function from each level on: what is left to do once the lists
    of the levels above are known. *)
Definition analyze_from_controls (client : AuditBoardClient) (now : string)
    (region_id : Z) (region_info : value)
    (entities processes_data processes subprocesses_data subprocesses controls : list value)
    : M RegionState :=
  controls_data <- step_controls_data client controls ;;
  finish now region_id region_info entities processes_data processes subprocesses_data
    subprocesses controls controls_data.

Definition analyze_from_subprocesses_data (client : AuditBoardClient) (now : string)
    (region_id : Z) (region_info : value)
    (entities processes_data processes subprocesses_data : list value) : M RegionState :=
  sp <- step_subprocesses client subprocesses_data ;;
  let '(subprocess_ids, subprocesses) := sp in
  controls <- step_controls client subprocess_ids ;;
  analyze_from_controls client now region_id region_info entities processes_data
    processes subprocesses_data subprocesses controls.

Definition analyze_from_processes_data (client : AuditBoardClient) (now : string)
    (region_id : Z) (region_info : value) (entities processes_data : list value)
    : M RegionState :=
  processes <- step_processes client processes_data ;;
  subprocesses_data <- step_subprocesses_data client processes_data ;;
  analyze_from_subprocesses_data client now region_id region_info entities
    processes_data processes subprocesses_data.

Definition analyze_from_entities (client : AuditBoardClient) (now : string)
    (region_id : Z) (region_info : value) (entities : list value) : M RegionState :=
  processes_data <- step_processes_data client entities ;;
  analyze_from_processes_data client now region_id region_info entities processes_data.

(** [analyze_region]: each list of the state is filled by one step only,
    so the steps hand the lists on and the state is built at the end; the
    early [return state] hands back the state as created. *)
Definition analyze_region (region_id : Z) (client : AuditBoardClient) (now : string)
    : M RegionState :=
  region <- get_region client (VInt region_id) ;;
  if truthy region then
    region_info <- lift (info ["id"; "name"; "description"] region) ;;
    entities <- step_entities client region_id ;;
    analyze_from_entities client now region_id region_info entities
  else ret (initial_state now region_id).

End AnalyzeRegion.

(** ** verification/verify_restoration.py *)

(** A line of the [matches] or [differences] list, by its content:
    [f"{field}: {value}"], [f"{field}: {old} -> {new}"], and the fixed
    text ["Name changed"]. *)
Inductive line : Type :=
| Same (field : string) (v : value)
| Changed (field : string) (old new : value)
| NameChanged.

Definition key_fields : list string :=
  ["uid"; "region_id"; "entity_type_id"; "process_id"; "subprocess_id"].

(** The loop over [key_fields] of [compare_entity]. *)
Fixpoint compare_key_fields (original restored : value) (fields : list string)
    (acc : list line * list line) : result (list line * list line) :=
  match fields with
  | [] => Ok acc
  | field :: rest =>
      match py_contains original field with
      | Raise e => Raise e
      | Ok false => compare_key_fields original restored rest acc
      | Ok true =>
          match py_get original field VNone, py_get restored field VNone with
          | Ok o, Ok r =>
              if py_eq o r
              then compare_key_fields original restored rest
                     (fst acc ++ [Same field o], snd acc)%list
              else compare_key_fields original restored rest
                     (fst acc, snd acc ++ [Changed field o r])%list
          | Raise e, _ => Raise e
          | _, Raise e => Raise e
          end
      end
  end.

(** [compare_entity]: the pair [(matches, differences)]. *)
Definition compare_entity (original restored : value) : result (list line * list line) :=
  match py_get original "id" VNone, py_get restored "id" VNone with
  | Raise e, _ => Raise e
  | _, Raise e => Raise e
  | Ok oid, Ok rid =>
      let acc := if py_eq oid rid then ([Same "id" oid], [])
                 else ([], [Changed "id" oid rid]) in
      match py_get original "name" VNone, py_get restored "name" VNone with
      | Raise e, _ => Raise e
      | _, Raise e => Raise e
      | Ok oname, Ok rname =>
          match
            (if py_eq oname rname then
               (* f"Name: {original.get('name', 'N/A')[:60]}" *)
               match py_get original "name" (VStr "N/A") with
               | Raise e => Raise e
               | Ok shown =>
                   match py_slice shown with
                   | Raise e => Raise e
                   | Ok _ => Ok (fst acc ++ [Same "name" shown], snd acc)%list
                   end
               end
             else Ok (fst acc, snd acc ++ [NameChanged])%list)
          with
          | Raise e => Raise e
          | Ok acc => compare_key_fields original restored key_fields acc
          end
      end
  end.

Inductive status : Type := PERFECT | PARTIAL | NOT_FOUND.

(** An element of [results['entities']]. *)
Record EntityResult : Type := {
  er_id : value;
  er_status : status;
  er_matches : list line;
  er_differences : list line;
  er_original : option value;
  er_restored : option value
}.

(** The dict [verify_restoration] returns. *)
Record Verification : Type := {
  perfect_restoration : bool;
  ver_error : option error_text;
  ver_entity_type : option string;
  ver_entities : list EntityResult
}.

(** [getter_map.get(entity_type)] *)
Definition getter_map (entity_type : string)
    : option (AuditBoardClient -> value -> M value) :=
  if String.eqb entity_type "controls" then Some get_control
  else if String.eqb entity_type "processes" then Some get_process
  else if String.eqb entity_type "subprocesses" then Some get_subprocess
  else if String.eqb entity_type "entities" then Some get_entity
  else if String.eqb entity_type "auditable_entities" then Some get_auditable_entity
  else if String.eqb entity_type "regions" then Some get_region
  else None.

(** One turn of [for original in original_data]. *)
Definition verify_one (getter : value -> M value) (original : value) (results : Verification)
    : M Verification :=
  entity_id <- lift (py_get original "id" VNone) ;;
  (* logger.subsection(f"... {original.get('name', original.get('uid', 'N/A'))[:60]}") *)
  uid <- lift (py_get original "uid" (VStr "N/A")) ;;
  shown <- lift (py_get original "name" uid) ;;
  lift (py_slice shown) ;;
  restored <- getter entity_id ;;
  if negb (truthy restored) then
    ret {| perfect_restoration := false; ver_error := ver_error results;
           ver_entity_type := ver_entity_type results;
           ver_entities :=
             ver_entities results ++
             [ {| er_id := entity_id; er_status := NOT_FOUND; er_matches := [];
                  er_differences := []; er_original := None; er_restored := None |} ] |}
  else
    md <- lift (compare_entity original restored) ;;
    let '(matches, differences) := md in
    let entity_result :=
      {| er_id := entity_id;
         er_status := match differences with [] => PERFECT | _ => PARTIAL end;
         er_matches := matches; er_differences := differences;
         er_original := Some original; er_restored := Some restored |} in
    ret {| perfect_restoration :=
             match differences with
             | [] => perfect_restoration results
             | _ => false
             end;
           ver_error := ver_error results;
           ver_entity_type := ver_entity_type results;
           ver_entities := ver_entities results ++ [entity_result] |}.

Fixpoint verify_loop (getter : value -> M value) (original_data : list value)
    (results : Verification) : M Verification :=
  match original_data with
  | [] => ret results
  | original :: rest =>
      results <- verify_one getter original results ;;
      verify_loop getter rest results
  end.

(** [verify_restoration] *)
Definition verify_restoration (entity_type : string) (original_data : list value)
    (client : AuditBoardClient) : M Verification :=
  match getter_map entity_type with
  | None =>
      ret {| perfect_restoration := false;
             ver_error := Some (Text "Unknown entity type");
             ver_entity_type := None; ver_entities := [] |}
  | Some getter =>
      verify_loop (getter client) original_data
        {| perfect_restoration := true; ver_error := None;
           ver_entity_type := Some entity_type; ver_entities := [] |}
  end.

(** The end of [main]: verify, then [sys.exit(1)] unless the restoration
    is perfect.  (Loading the files and writing the report are left out.) *)
Definition verify_main (entity_type : string) (original_data : list value)
    (client : AuditBoardClient) : M Verification :=
  results <- verify_restoration entity_type original_data client ;;
  if negb (perfect_restoration results) then raise (SystemExit 1) else ret results.

(** The exit code of a process whose [main] ended with [r]: 0 on return,
    the code of a [sys.exit], 1 for an uncaught exception (130 for an
    uncaught keyboard interrupt). *)
Definition exit_code {A} (r : result A) : Z :=
  match r with
  | Ok _ => 0
  | Raise (SystemExit code) => code
  | Raise KeyboardInterrupt => 130
  | Raise _ => 1
  end.

(** ** deletion/delete_controls.py: the target selection *)

(** [for id in ids: x = getter(id); if x: found.append(x)], the loop that
    [get_controls_by_ids] and the bulk deleters of entities, processes and
    subprocesses run over their ids. *)
Fixpoint fetch_found (getter : value -> M value) (ids : list value) (found : list value)
    : M (list value) :=
  match ids with
  | [] => ret found
  | id :: rest =>
      x <- getter id ;;
      fetch_found getter rest (if truthy x then (found ++ [x])%list else found)
  end.

(** [get_controls_by_ids] *)
Definition get_controls_by_ids (control_ids : list value) (client : AuditBoardClient)
    : M (list value) :=
  fetch_found (get_control client) control_ids [].

(** [s.lower()] of a value: only text has the method. *)
Definition py_lower (v : value) : result value :=
  match v with
  | VStr s => Ok (VStr (lower s))
  | _ => Raise AttributeError
  end.

(** [search_pattern in uid or search_pattern in name], after
    [uid.lower()], [name.lower()] and [pattern.lower()] unless the search
    is case sensitive. *)
Definition matches_pattern (pattern : string) (case_sensitive : bool) (uid name : value)
    : result bool :=
  if case_sensitive then
    match py_contains uid pattern with
    | Raise e => Raise e
    | Ok true => Ok true
    | Ok false => py_contains name pattern
    end
  else
    match py_lower uid with
    | Raise e => Raise e
    | Ok uid' =>
        match py_lower name with
        | Raise e => Raise e
        | Ok name' =>
            match py_contains uid' (lower pattern) with
            | Raise e => Raise e
            | Ok true => Ok true
            | Ok false => py_contains name' (lower pattern)
            end
        end
    end.

(** The test of one record in [get_controls_by_pattern] and
    [search_processes]: [uid = x.get('uid', '')], [name = x.get('name', '')]. *)
Definition record_matches (pattern : string) (case_sensitive : bool) (x : value)
    : result bool :=
  match py_get x "uid" (VStr ""), py_get x "name" (VStr "") with
  | Ok uid, Ok name => matches_pattern pattern case_sensitive uid name
  | Raise e, _ => Raise e
  | _, Raise e => Raise e
  end.

(** [get_controls_by_pattern] *)
Definition get_controls_by_pattern (pattern : string) (client : AuditBoardClient)
    (case_sensitive : bool) : M (list value) :=
  all_controls <- get_controls client ;;
  controls <- lift (py_iter all_controls) ;;
  lift (filterM (record_matches pattern case_sensitive) controls).

(** ** discovery/search_entities.py *)

(** [search_processes]; the log line takes [len(all_processes)]. *)
Definition search_processes (client : AuditBoardClient) (pattern : string)
    (case_sensitive : bool) : M (list value) :=
  all_processes <- get_processes client ;;
  lift (py_len all_processes) ;;
  processes <- lift (py_iter all_processes) ;;
  lift (filterM (record_matches pattern case_sensitive) processes).

(** The test of one record in [search_entities]:
    [uid = x.get('uid', '') or ''], [name = x.get('name', '')]. *)
Definition entity_matches (pattern : string) (case_sensitive : bool) (x : value)
    : result bool :=
  match py_get x "uid" (VStr ""), py_get x "name" (VStr "") with
  | Ok uid, Ok name =>
      matches_pattern pattern case_sensitive (if truthy uid then uid else VStr "") name
  | Raise e, _ => Raise e
  | _, Raise e => Raise e
  end.

(** [search_entities] *)
Definition search_entities (client : AuditBoardClient) (pattern : string)
    (case_sensitive : bool) : M (list value) :=
  all_entities <- get_entities client ;;
  lift (py_len all_entities) ;;
  entities <- lift (py_iter all_entities) ;;
  lift (filterM (entity_matches pattern case_sensitive) entities).

(** ** deletion/delete_entities.py, delete_processes.py, delete_subprocesses.py *)

(** The three drivers share one body.  They differ in the item type
    ("entities", "processes", "subprocesses"), in the accessor and the
    delete call they use, and in the default of [x.get('uid', ..)]:
    ['N/A'] for entities, [None] for the two others. *)

(** The results dict: [{"timestamp", "dry_run", "total", "deleted", "failed"}]. *)
Record BulkResults : Type := {
  bulk_timestamp : string;
  bulk_dry_run : bool;
  total : Z;
  bulk_deleted : list ResultItem;
  bulk_failed : list ResultItem
}.

Definition bulk_append_deleted (item : ResultItem) (r : BulkResults) : BulkResults :=
  {| bulk_timestamp := bulk_timestamp r; bulk_dry_run := bulk_dry_run r; total := total r;
     bulk_deleted := bulk_deleted r ++ [item]; bulk_failed := bulk_failed r |}.

Definition bulk_append_failed (item : ResultItem) (r : BulkResults) : BulkResults :=
  {| bulk_timestamp := bulk_timestamp r; bulk_dry_run := bulk_dry_run r; total := total r;
     bulk_deleted := bulk_deleted r; bulk_failed := bulk_failed r ++ [item] |}.

(** One turn of [for i, entity in enumerate(entities, 1)].  The pause for
    rate limiting stands in the live branch, after the [try] statement. *)
Definition bulk_delete_one (deleter : AuditBoardClient -> value -> M bool)
    (uid_default : value) (client : AuditBoardClient) (config : Config) (dry_run : bool)
    (total : Z) (i : Z) (entity : value) (results : BulkResults) : M BulkResults :=
  entity_id <- lift (py_get entity "id" VNone) ;;
  entity_uid <- lift (py_get entity "uid" uid_default) ;;
  entity_name <- lift (py_get entity "name" (VStr "N/A")) ;;
  lift (py_slice entity_name) ;;   (* logger.info(f"... {entity_name[:60]}") *)
  let item := {| item_id := entity_id; item_uid := entity_uid; item_name := entity_name;
                 item_error := None |} in
  if dry_run then ret (bulk_append_deleted item results)
  else
    results <-
      try_except
        (success <- deleter client entity_id ;;
         if success then ret (bulk_append_deleted item results)
         else ret (bulk_append_failed item results))
        is_Exception
        (fun e =>
           ret (bulk_append_failed
                  {| item_id := entity_id; item_uid := entity_uid; item_name := entity_name;
                     item_error := Some e |} results)) ;;
    (if pause_every_n (deletion config) =? 0 then raise ZeroDivisionError
     else if (i mod pause_every_n (deletion config) =? 0) && (i <? total)
          then sleep (rate_limit_delay (safety config))
          else ret tt) ;;
    ret results.

Fixpoint bulk_delete_loop (deleter : AuditBoardClient -> value -> M bool)
    (uid_default : value) (client : AuditBoardClient) (config : Config) (dry_run : bool)
    (total : Z) (i : Z) (entities : list value) (results : BulkResults) : M BulkResults :=
  match entities with
  | [] => ret results
  | entity :: rest =>
      results <- bulk_delete_one deleter uid_default client config dry_run total i
                   entity results ;;
      bulk_delete_loop deleter uid_default client config dry_run total (i + 1) rest results
  end.

(** The shared body; [now] is [datetime.now().isoformat()]. *)
Definition delete_by_ids (item_type : string)
    (getter : AuditBoardClient -> value -> M value)
    (deleter : AuditBoardClient -> value -> M bool) (uid_default : value)
    (ids : list value) (client : AuditBoardClient) (config : Config) (dry_run : bool)
    (now : string) : M BulkResults :=
  let safety_checker := {| dry_run := dry_run |} in
  entities <- fetch_found (getter client) ids [] ;;
  match entities with
  | [] =>
      ret {| bulk_timestamp := now; bulk_dry_run := dry_run; total := 0;
             bulk_deleted := []; bulk_failed := [] |}
  | _ =>
      let total := Z.of_nat (List.length entities) in
      (if negb dry_run then
         confirmed <- confirm_deletion safety_checker item_type total None false ;;
         (if negb confirmed then raise (SystemExit 0) else ret tt) ;;
         countdown_warning safety_checker (countdown_seconds (safety config))
       else ret tt) ;;
      bulk_delete_loop deleter uid_default client config dry_run total 1 entities
        {| bulk_timestamp := now; bulk_dry_run := dry_run; total := total;
           bulk_deleted := []; bulk_failed := [] |}
  end.

Definition delete_entities_bulk :=
  delete_by_ids "entities" get_entity delete_entity (VStr "N/A").

Definition delete_processes_bulk :=
  delete_by_ids "processes" get_process delete_process VNone.

Definition delete_subprocesses_bulk :=
  delete_by_ids "subprocesses" get_subprocess delete_subprocess VNone.

(** ** verification/check_restoration.py *)

(** An element of [results['restored']]: [{'id', 'name', 'entity'}]. *)
Record RestoredItem : Type := {
  ri_id : value;
  ri_name : value;
  ri_entity : value
}.

(** An element of [results['still_missing']]: [{'id', 'expected_name'}]. *)
Record MissingItem : Type := {
  mi_id : value;
  mi_expected_name : value
}.

(** The dict [check_restoration] returns. *)
Record Restoration : Type := {
  chk_entity_type : string;
  restored : list RestoredItem;
  still_missing : list MissingItem
}.

(** [expected_names.get(entity_id, "Unknown") if expected_names else "Unknown"],
    the dict being given by its items. *)
Definition expected_name_of (expected_names : list (value * value)) (entity_id : value)
    : result value :=
  match expected_names with
  | [] => Ok (VStr "Unknown")
  | _ =>
      match require_hashable entity_id with
      | Raise e => Raise e
      | Ok _ =>
          Ok (match find (fun kv => py_eq (fst kv) entity_id) expected_names with
              | Some kv => snd kv
              | None => VStr "Unknown"
              end)
      end
  end.

(** One turn of [for entity_id in entity_ids]. *)
Definition check_one (getter : value -> M value) (expected_names : list (value * value))
    (entity_id : value) (results : Restoration) : M Restoration :=
  expected_name <- lift (expected_name_of expected_names entity_id) ;;
  (if negb (py_eq expected_name (VStr "Unknown"))
   then lift (py_slice expected_name)   (* logger.info(f"  Expected: {expected_name[:60]}") *)
   else ret tt) ;;
  entity <- getter entity_id ;;
  if truthy entity then
    uid <- lift (py_get entity "uid" (VStr "N/A")) ;;
    actual_name <- lift (py_get entity "name" uid) ;;
    lift (py_slice actual_name) ;;   (* logger.info(f"  Actual: {actual_name[:60]}") *)
    ret {| chk_entity_type := chk_entity_type results;
           restored := restored results ++
                       [ {| ri_id := entity_id; ri_name := actual_name;
                            ri_entity := entity |} ];
           still_missing := still_missing results |}
  else
    ret {| chk_entity_type := chk_entity_type results;
           restored := restored results;
           still_missing := still_missing results ++
                            [ {| mi_id := entity_id; mi_expected_name := expected_name |} ] |}.

Fixpoint check_loop (getter : value -> M value) (expected_names : list (value * value))
    (entity_ids : list value) (results : Restoration) : M Restoration :=
  match entity_ids with
  | [] => ret results
  | entity_id :: rest =>
      results <- check_one getter expected_names entity_id results ;;
      check_loop getter expected_names rest results
  end.

(** [check_restoration] *)
Definition check_restoration (entity_type : string) (entity_ids : list value)
    (expected_names : list (value * value)) (client : AuditBoardClient) : M Restoration :=
  let results := {| chk_entity_type := entity_type; restored := []; still_missing := [] |} in
  match getter_map entity_type with
  | None => ret results
  | Some getter => check_loop (getter client) expected_names entity_ids results
  end.

(** The end of [main]: check, then [sys.exit(1)] when an id is still
    missing.  (Loading the ids and names and writing the report are left
    out.) *)
Definition check_main (entity_type : string) (entity_ids : list value)
    (expected_names : list (value * value)) (client : AuditBoardClient) : M Restoration :=
  results <- check_restoration entity_type entity_ids expected_names client ;;
  match still_missing results with
  | [] => ret results
  | _ => raise (SystemExit 1)
  end.

(** ** Predicates on runs *)

(** [only_requests P w w']: from [w] to [w'] nothing was printed or read,
    and every request issued satisfies [P]. *)
Definition only_requests (P : request -> Prop) (w w' : world) : Prop :=
  remote w' = remote w /\ abort_countdown w' = abort_countdown w /\
  stdin w' = stdin w /\ printed w' = printed w /\
  exists l, sent w' = (sent w ++ l)%list /\ Forall P l.

Definition is_GET (r : request) : Prop := rq_method r = GET.

(** [stays R m]: running [m] moves the world along [R]. *)
Definition stays {A} (R : world -> world -> Prop) (m : M A) : Prop :=
  forall w, R w (snd (m w)).

(** [raises_only Q m]: an exception that leaves [m] satisfies [Q]. *)
Definition raises_only {A} (Q : exn -> Prop) (m : M A) : Prop :=
  forall w e, fst (m w) = Raise e -> Q e.

(** What [requests.request], [time.sleep] and [raise_for_status] raise. *)
Definition client_exn (e : exn) : Prop :=
  e = TransportError \/ e = ValueError \/ exists st, e = HTTPError st.

(** ** Retries, as the properties speak of them *)

(** The world after [j] more attempts at request [r], with the sleeps
    [delays] between them. *)
Definition after_attempts (w : world) (r : request) (j : nat) (delays : list Z) : world :=
  {| remote := remote w; abort_countdown := abort_countdown w; stdin := stdin w;
     sent := sent w ++ repeat r j; slept := slept w ++ delays; printed := printed w |}.

(** The sleeps before the retries number [k + 1] to [k + j]:
    [retry_delay * (attempt + 1)] for the attempts [k] to [k + j - 1]. *)
Definition backoff (c : AuditBoardClient) (k : Z) (j : nat) : list Z :=
  map (fun i => retry_delay c * (k + Z.of_nat i + 1)) (seq 0 j).

(** The next [j] attempts at request [r] all meet a fault of one kind:
    a transport failure, or an answer with a 5xx status. *)
Definition next_fail (w : world) (r : request) (j : nat) : Prop :=
  forall i, (i < j)%nat -> remote w (List.length (sent w) + i) r = Fails.

Definition next_5xx (w : world) (r : request) (j : nat) : Prop :=
  forall i, (i < j)%nat ->
    exists resp, remote w (List.length (sent w) + i) r = Replies resp /\
                 500 <= status_code resp.

(** ** Records, as the properties speak of them *)

(** [x.get(k)] of a record, [None] for anything that is no dict. *)
Definition field (x : value) (k : string) : value :=
  match x with
  | VDict d => match lookup k d with Some v => v | None => VNone end
  | _ => VNone
  end.

Definition is_dict (x : value) : bool :=
  match x with VDict _ => true | _ => false end.

(** A record whose name, when it has one, is text (or a list): the log
    lines that cut a name to its first characters accept it. *)
Definition loggable (x : value) : bool :=
  match x with
  | VDict d => sliceable (match lookup "name" d with Some n => n | None => VStr "N/A" end)
  | _ => false
  end.

(** The entry a target control gets in [deleted] or [failed]. *)
Definition entry_of (ctrl : value) (error : option exn) : ResultItem :=
  {| item_id := field ctrl "id";
     item_uid := field ctrl "uid";
     item_name := match ctrl with
                  | VDict d => match lookup "name" d with Some n => n | None => VStr "N/A" end
                  | _ => VStr "N/A"
                  end;
     item_error := error |}.

(** An entry without its error text: the target it stands for. *)
Definition target (i : ResultItem) : value * value * value :=
  (item_id i, item_uid i, item_name i).

(** The child records that match a foreign-key filter. *)
Definition matching_in (fk : string) (ids : list value) (all : list value) : list value :=
  filter (fun x => py_in (field x fk) ids) all.

Definition matching_eq (fk : string) (id : value) (all : list value) : list value :=
  filter (fun x => py_eq (field x fk) id) all.

(** What the specification asks of a dependency report [r] for the
    checked [ids] and the list of offending child records. *)
Definition reports (r : DependencyReport) (ids offenders : list value) : Prop :=
  checked_ids r = ids /\
  (has_dependencies r = false <-> List.length offenders = 0%nat) /\
  (has_dependencies r = true <-> (0 < List.length offenders)%nat) /\
  children_count r = Z.of_nat (List.length offenders) /\
  children r = offenders /\
  firstn (Nat.min (List.length offenders) 10) (children r)
  = firstn (Nat.min (List.length offenders) 10) offenders.

(** The same for the region checker, with its two child collections. *)
Definition region_reports (r : RegionDependencyReport) (region_id : Z)
    (entities processes : list value) : Prop :=
  checked_region_id r = region_id /\
  (region_has_dependencies r = false <->
   List.length entities = 0%nat /\ List.length processes = 0%nat) /\
  (region_has_dependencies r = true <->
   (0 < List.length entities)%nat \/ (0 < List.length processes)%nat) /\
  entities_count r = Z.of_nat (List.length entities) /\
  processes_count r = Z.of_nat (List.length processes) /\
  dep_entities r = entities /\
  dep_processes r = processes.

(** ** The levels of the hierarchy walker *)

(** One way to list a set: each element once, in the order of first
    appearance. *)
Definition first_seen (xs : list value) : list value :=
  fold_left (fun seen x => if py_in x seen then seen else (seen ++ [x])%list) xs [].

(** The levels below the entities are empty in a state. *)
Definition below_entities_empty (s : RegionState) : Prop :=
  st_processes_data s = [] /\ st_processes s = [] /\
  st_subprocesses_data s = [] /\ st_subprocesses s = [] /\
  st_controls s = [] /\ st_controls_data s = [].

(** The levels below the [processes_data] links are empty. *)
Definition below_processes_data_empty (s : RegionState) : Prop :=
  st_processes s = [] /\ st_subprocesses_data s = [] /\ st_subprocesses s = [] /\
  st_controls s = [] /\ st_controls_data s = [].

(** The levels below the [subprocesses_data] links are empty. *)
Definition below_subprocesses_data_empty (s : RegionState) : Prop :=
  st_subprocesses s = [] /\ st_controls s = [] /\ st_controls_data s = [].

(** The key under which a report would carry an error. *)
Definition has_error_key (report : value) : bool :=
  match report with
  | VDict d => has_key "error" d
  | _ => false
  end.

(** ** The fields the verifier compares *)

(** The identity fields the specification names. *)
Definition identity_fields : list string :=
  ["id"; "name"; "uid"; "region_id"; "entity_type_id"; "process_id"; "subprocess_id"].

(** Two records agree on a field. *)
Definition agree (original restored : value) (f : string) : bool :=
  py_eq (field original f) (field restored f).

(** The fields [compare_entity] compares: [id] and [name] always, a key
    field when the original record has it. *)
Definition compared_fields (original : value) : list string :=
  "id" :: "name" ::
  filter (fun f => match original with VDict d => has_key f d | _ => false end) key_fields.

(** The field a line of [matches] or [differences] is about. *)
Definition line_field (l : line) : string :=
  match l with
  | Same f _ => f
  | Changed f _ _ => f
  | NameChanged => "name"
  end.

(** What the subsection heading of a record shows:
    [original.get('name', original.get('uid', 'N/A'))]. *)
Definition heading (original : value) : value :=
  match original with
  | VDict d =>
      match lookup "name" d with
      | Some n => n
      | None => match lookup "uid" d with Some u => u | None => VStr "N/A" end
      end
  | _ => VNone
  end.

(** ** Worlds and data for the examples *)

(** A fresh world: nothing sent, slept or printed yet. *)
Definition fresh_world (api : nat -> request -> outcome) (typed : list input_event) : world :=
  {| remote := api; abort_countdown := false; stdin := typed;
     sent := []; slept := []; printed := [] |}.

(** A remote API that answers the n-th request with the n-th outcome of
    a script, and fails once the script is over. *)
Definition scripted (script : list outcome) : nat -> request -> outcome :=
  fun n _ => nth n script Fails.

(** A remote API that is down. *)
Definition unreachable : nat -> request -> outcome := fun _ _ => Fails.

Definition reply (status : Z) (payload : option value) : outcome :=
  Replies {| status_code := status; body := payload |}.

(** The client and the configuration with the defaults of config.py. *)
Definition default_client : AuditBoardClient := {| max_retries := 3; retry_delay := 2 |}.

Definition default_config : Config :=
  {| auditboard := {| timeout := 30; cfg_max_retries := 3; cfg_retry_delay := 2 |};
     safety := {| dry_run_default := true; require_confirmation := true;
                  rate_limit_delay := 1; countdown_seconds := 5 |};
     deletion := {| batch_size := 10; pause_every_n := 5; save_results := true;
                    results_dir := "results" |} |}.

(** Two controls, the second one without a name. *)
Definition two_controls : list value :=
  [ VDict [("id", VInt 100); ("uid", VStr "CC-1"); ("name", VStr "Access review")];
    VDict [("id", VInt 101); ("uid", VStr "CC-2")] ].

(** Region 15 with two entities of its own, one entity of region 16 and
    no process: what the remote API answers to the three fetches of
    [delete_region]. *)
Definition region_15 : value := VDict [("id", VInt 15); ("name", VStr "EMEA")].

Definition entities_of_15_and_16 : list value :=
  [ VDict [("id", VInt 25); ("name", VStr "Paris"); ("region_id", VInt 15)];
    VDict [("id", VInt 26); ("name", VStr "Berlin"); ("region_id", VInt 15)];
    VDict [("id", VInt 30); ("name", VStr "Boston"); ("region_id", VInt 16)] ].

Definition region_15_api : nat -> request -> outcome :=
  scripted [ reply 200 (Some (VDict [("regions", VList [region_15])]));
             reply 200 (Some (VDict [("entities", VList entities_of_15_and_16)]));
             reply 200 (Some (VDict [("processes", VList [])])) ].

(** ** Text and case, as the properties speak of them *)

(** ASCII text: every character is below 128.  On such text [upper] and
    [lower] are Python's [str.upper()] and [str.lower()]. *)
Definition is_ascii_char (c : ascii) : bool := Nat.ltb (nat_of_ascii c) 128.

Fixpoint is_ascii (s : string) : bool :=
  match s with
  | EmptyString => true
  | String c r => is_ascii_char c && is_ascii r
  end.

(** One of the letters [A] to [Z]. *)
Definition is_upper_letter (c : ascii) : bool :=
  Nat.leb 65 (nat_of_ascii c) && Nat.leb (nat_of_ascii c) 90.

(** Two characters that are equal, or the two cases of one letter. *)
Definition same_letter (c d : ascii) : bool :=
  Ascii.eqb c d
  || (is_upper_letter c && Nat.eqb (nat_of_ascii c + 32) (nat_of_ascii d))
  || (is_upper_letter d && Nat.eqb (nat_of_ascii d + 32) (nat_of_ascii c)).

(** Two texts that differ at most in the case of their letters; the
    definition does not go through [lower]. *)
Fixpoint same_ignoring_case (a b : string) : bool :=
  match a, b with
  | EmptyString, EmptyString => true
  | String c a', String d b' => same_letter c d && same_ignoring_case a' b'
  | _, _ => false
  end.

(** A text without a letter from [A] to [Z]. *)
Fixpoint no_upper_letter (s : string) : bool :=
  match s with
  | EmptyString => true
  | String c r => negb (is_upper_letter c) && no_upper_letter r
  end.

(** The values of [DRY_RUN] that mean dry-run, in the spelling the
    source lists them. *)
Definition dry_run_words : list string := ["true"; "1"; "yes"].

(** ** Pattern search, as the properties speak of it *)

(** [p in s] for two texts *)
Definition contains_text (p s : string) : bool :=
  match index 0 p s with Some _ => true | None => false end.

(** The text under a key of a record: the empty text when the key is
    missing, nothing when the record is no dict or the value is no text. *)
Definition text_field (x : value) (k : string) : option string :=
  match x with
  | VDict d =>
      match lookup k d with
      | None => Some ""
      | Some (VStr s) => Some s
      | Some _ => None
      end
  | _ => None
  end.

(** [uid] and [name] of a record are text. *)
Definition has_text_uid_and_name (x : value) : bool :=
  match text_field x "uid", text_field x "name" with
  | Some _, Some _ => true
  | _, _ => false
  end.

(** [uid] and [name] of a record are ASCII text. *)
Definition has_ascii_uid_and_name (x : value) : bool :=
  match text_field x "uid", text_field x "name" with
  | Some uid, Some name => is_ascii uid && is_ascii name
  | _, _ => false
  end.

(** The pattern occurs in the [uid] or in the [name] of a record, case
    ignored. *)
Definition occurs_ignoring_case (pattern : string) (x : value) : bool :=
  match text_field x "uid", text_field x "name" with
  | Some uid, Some name =>
      contains_text (lower pattern) (lower uid) || contains_text (lower pattern) (lower name)
  | _, _ => false
  end.

(** The same with the case as it stands. *)
Definition occurs (pattern : string) (x : value) : bool :=
  match text_field x "uid", text_field x "name" with
  | Some uid, Some name => contains_text pattern uid || contains_text pattern name
  | _, _ => false
  end.

(** An outcome that no accessor stumbles over: a 4xx answer, or an answer
    below 400 whose JSON object holds a list, or nothing, under the
    resource's key. *)
Definition missing_or_listed (resource : string) (o : outcome) : bool :=
  match o with
  | Fails => false
  | Replies resp =>
      if 400 <=? status_code resp then status_code resp <? 500
      else
        match body resp with
        | Some (VDict d) =>
            match lookup resource d with
            | None | Some (VList _) => true
            | Some _ => false
            end
        | _ => false
        end
  end.

(** The request [GET resource/id] *)
Definition get_item (resource : string) (id : value) : request :=
  {| rq_method := GET; rq_endpoint := Item resource id |}.

(** A remote API that knows the control 100 only. *)
Definition knows_control_100 : nat -> request -> outcome :=
  fun _ r =>
    match rq_endpoint r with
    | Item _ (VInt 100) =>
        reply 200 (Some (VDict [("controls", VList [VDict [("id", VInt 100); ("uid", VStr "CC-1")]])]))
    | _ => reply 404 None
    end.

(** What [search_entities] reads as the [uid] of a record: the text, or
    the empty text when the value is missing, [None] or otherwise false. *)
Definition entity_uid_text (x : value) : option string :=
  match x with
  | VDict d =>
      match lookup "uid" d with
      | None => Some ""
      | Some v => if truthy v then match v with VStr s => Some s | _ => None end else Some ""
      end
  | _ => None
  end.

Definition searchable_entity (x : value) : bool :=
  match entity_uid_text x, text_field x "name" with
  | Some _, Some _ => true
  | _, _ => false
  end.

(** What the entity search reads as uid and name is ASCII text. *)
Definition ascii_entity (x : value) : bool :=
  match entity_uid_text x, text_field x "name" with
  | Some uid, Some name => is_ascii uid && is_ascii name
  | _, _ => false
  end.

Definition entity_occurs (pattern : string) (case_sensitive : bool) (x : value) : bool :=
  match entity_uid_text x, text_field x "name" with
  | Some uid, Some name =>
      if case_sensitive then contains_text pattern uid || contains_text pattern name
      else contains_text (lower pattern) (lower uid) || contains_text (lower pattern) (lower name)
  | _, _ => false
  end.

(** Three controls: the pattern [cc-1] is in the uid of the first one and
    in the name of the third one, in another case. *)
Definition three_controls : list value :=
  [ VDict [("id", VInt 100); ("uid", VStr "CC-1"); ("name", VStr "Access review")];
    VDict [("id", VInt 101); ("uid", VStr "CC-2")];
    VDict [("id", VInt 102); ("uid", VStr "IT-9"); ("name", VStr "Follows cc-1")] ].

(** A control whose name is JSON's [null]. *)
Definition nameless_control : value :=
  VDict [("id", VInt 103); ("uid", VStr "CC-3"); ("name", VNone)].

(** Two entities, the first one with [null] as its uid. *)
Definition two_entities : list value :=
  [ VDict [("id", VInt 25); ("uid", VNone); ("name", VStr "Paris")];
    VDict [("id", VInt 26); ("uid", VStr "E-26"); ("name", VStr "Berlin")] ].

(** A remote API that answers every request with the same collection. *)
Definition serves (resource : string) (records : list value) : nat -> request -> outcome :=
  fun _ _ => reply 200 (Some (VDict [(resource, VList records)])).

(** ** The drivers by id, as the properties speak of them *)

(** [sends_only P w w']: every request issued from [w] to [w'] satisfies
    [P]; the console may have been used. *)
Definition sends_only (P : request -> Prop) (w w' : world) : Prop :=
  exists l, sent w' = (sent w ++ l)%list /\ Forall P l.

(** The entry a found record gets in [deleted] or [failed]. *)
Definition bulk_entry_of (uid_default : value) (x : value) (error : option exn) : ResultItem :=
  {| item_id := field x "id";
     item_uid := match x with
                 | VDict d => match lookup "uid" d with Some u => u | None => uid_default end
                 | _ => uid_default
                 end;
     item_name := match x with
                  | VDict d => match lookup "name" d with Some n => n | None => VStr "N/A" end
                  | _ => VStr "N/A"
                  end;
     item_error := error |}.

(** The phrase the operator has to type before [count] items of a type
    are deleted. *)
Definition phrase (count : Z) (item_type : string) : string :=
  "DELETE " ++ str_of_Z count ++ " " ++ upper item_type.

(** A 4xx answer. *)
Definition is_4xx (o : outcome) : bool :=
  match o with
  | Fails => false
  | Replies resp => (400 <=? status_code resp) && (status_code resp <? 500)
  end.

(** A remote API that knows no record at all. *)
Definition knows_nothing : nat -> request -> outcome := fun _ _ => reply 404 None.

(** A remote API that knows the entity 25 and accepts its deletion. *)
Definition entity_25 : value :=
  VDict [("id", VInt 25); ("name", VStr "Paris"); ("region_id", VInt 15)].

Definition knows_entity_25 : nat -> request -> outcome :=
  fun _ r =>
    match rq_method r, rq_endpoint r with
    | GET, Item _ (VInt 25) => reply 200 (Some (VDict [("entities", VList [entity_25])]))
    | DELETE, Item _ (VInt 25) => reply 204 None
    | _, _ => reply 404 None
    end.

(** ** The restoration checks, as the properties speak of them *)

(** The name a missing id is reported with. *)
Definition reported_name (expected_names : list (value * value)) (entity_id : value) : value :=
  match find (fun kv => py_eq (fst kv) entity_id) expected_names with
  | Some kv => snd kv
  | None => VStr "Unknown"
  end.

Definition is_perfect (s : status) : bool :=
  match s with PERFECT => true | _ => false end.

(** A deletion entry as the results file holds it and as the verifier
    reads it back: [{'id': .., 'uid': .., 'name': ..}]. *)
Definition entry_value (i : ResultItem) : value :=
  VDict [("id", item_id i); ("uid", item_uid i); ("name", item_name i)].

(** ** The hierarchy report, as the properties speak of it *)

(** Every child refers to a parent: the value of its foreign key [fk]
    equals the value that some parent has under [pk]; the comparison is
    [parent == child], as [in] makes it. *)
Definition refer_to (parents : list value) (pk : string) (fk : string)
    (children : list value) : Prop :=
  Forall (fun c => exists p, In p parents /\ py_eq (field p pk) (field c fk) = true) children.

(** Every record was looked up for a link: its [id] equals the value
    that some link has under [lk]; the comparison is [record == link], as
    the look-up makes it. *)
Definition looked_up_for (links : list value) (lk : string) (records : list value) : Prop :=
  Forall (fun r => exists l, In l links /\ py_eq (field r "id") (field l lk) = true) records.

(** The counts of a summary are the lengths of the lists of the state; a
    state without a summary has empty lists. *)
Definition counts_agree (s : RegionState) : Prop :=
  match st_summary s with
  | None =>
      st_entities s = [] /\ st_processes s = [] /\ st_subprocesses s = [] /\
      st_controls s = [] /\ st_controls_data s = [] /\ st_processes_data s = [] /\
      st_subprocesses_data s = []
  | Some sm =>
      summary_entities_count sm = Z.of_nat (List.length (st_entities s)) /\
      summary_processes_count sm = Z.of_nat (List.length (st_processes s)) /\
      summary_subprocesses_count sm = Z.of_nat (List.length (st_subprocesses s)) /\
      summary_controls_count sm = Z.of_nat (List.length (st_controls s)) /\
      summary_controls_data_count sm = Z.of_nat (List.length (st_controls_data s)) /\
      summary_processes_data_count sm = Z.of_nat (List.length (st_processes_data s)) /\
      summary_subprocesses_data_count sm = Z.of_nat (List.length (st_subprocesses_data s))
  end.

(** A remote API with one chain below region 15 (entity 25, link 1,
    process 48, link 2, subprocess 86, control 100, instance 3) and with
    records of other regions beside it, answering the eight fetches of
    [analyze_region] in their order. *)
Definition hierarchy_api : nat -> request -> outcome :=
  scripted
    [ reply 200 (Some (VDict [("regions", VList [region_15])]));
      reply 200 (Some (VDict [("entities", VList entities_of_15_and_16)]));
      reply 200 (Some (VDict [("processes_data",
          VList [ VDict [("id", VInt 1); ("entity_id", VInt 25); ("process_id", VInt 48)];
                  VDict [("id", VInt 9); ("entity_id", VInt 30); ("process_id", VInt 49)] ])]));
      reply 200 (Some (VDict [("processes",
          VList [ VDict [("id", VInt 48); ("uid", VStr "P-48"); ("name", VStr "Payroll")];
                  VDict [("id", VInt 49); ("uid", VStr "P-49"); ("name", VStr "Sales")] ])]));
      reply 200 (Some (VDict [("subprocesses_data",
          VList [ VDict [("id", VInt 2); ("processes_datum_id", VInt 1);
                         ("subprocess_id", VInt 86)];
                  VDict [("id", VInt 8); ("processes_datum_id", VInt 9);
                         ("subprocess_id", VInt 87)] ])]));
      reply 200 (Some (VDict [("subprocesses",
          VList [ VDict [("id", VInt 86); ("uid", VStr "S-86"); ("name", VStr "Payslips");
                         ("process_id", VInt 48)] ])]));
      reply 200 (Some (VDict [("controls",
          VList [ VDict [("id", VInt 100); ("uid", VStr "CC-1"); ("name", VStr "Access review");
                         ("subprocess_id", VInt 86)];
                  VDict [("id", VInt 101); ("uid", VStr "CC-2"); ("subprocess_id", VInt 87)] ])]));
      reply 200 (Some (VDict [("controls_data",
          VList [ VDict [("id", VInt 3); ("control_id", VInt 100);
                         ("subprocesses_datum_id", VInt 2)];
                  VDict [("id", VInt 4); ("control_id", VInt 101);
                         ("subprocesses_datum_id", VInt 8)] ])])) ].

(** The request that deletes one of the given records of a resource. *)
Definition deletes_one_of (resource : string) (records : list value) (r : request) : Prop :=
  exists x, In x records /\
    r = {| rq_method := DELETE; rq_endpoint := Item resource (field x "id") |}.

(** A remote API that answers every request, with a status below 500. *)
Definition answers_below_500 (w : world) : Prop :=
  forall n r, exists resp, remote w n r = Replies resp /\ status_code resp < 500.

(** The request [DELETE controls/<id>] *)
Definition delete_item (resource : string) (id : value) : request :=
  {| rq_method := DELETE; rq_endpoint := Item resource id |}.

(** * Properties *)

(** ** Mode resolution and confirmation (core/safety.py) *)

Lemma existsb_eqb_In (s : string) (l : list string) :
  existsb (String.eqb s) l = true <-> In s l.
Proof.
  rewrite existsb_exists. split.
  - intros [x [Hin Heq]]. apply String.eqb_eq in Heq. now subst.
  - intros Hin. exists s. split; [assumption | apply String.eqb_refl].
Qed.

Lemma existsb_eqb_not_In (s : string) (l : list string) :
  existsb (String.eqb s) l = false <-> ~ In s l.
Proof.
  rewrite <- existsb_eqb_In. destruct (existsb (String.eqb s) l); split; intros H;
    try reflexivity; try discriminate; try (intros H'; discriminate).
  exfalso. now apply H.
Qed.

(** [lower], set against the comparison that ignores case. *)
Lemma lower_ascii_same (c d : ascii) :
  is_upper_letter d = false -> Ascii.eqb (lower_ascii c) d = same_letter c d.
Proof.
  intros Hd. unfold same_letter. rewrite Hd. cbn [andb]. rewrite orb_false_r.
  unfold lower_ascii. cbv zeta. fold (is_upper_letter c).
  destruct (is_upper_letter c) eqn:Hc; cbn [andb].
  - assert (Hne : Ascii.eqb c d = false).
    { destruct (Ascii.eqb_spec c d) as [-> | Hne]; [congruence | reflexivity]. }
    rewrite Hne. cbn [orb].
    unfold is_upper_letter in Hc. apply andb_prop in Hc. destruct Hc as [H1 H2].
    apply Nat.leb_le in H1, H2.
    destruct (Nat.eqb_spec (nat_of_ascii c + 32) (nat_of_ascii d)) as [He | He].
    + rewrite He, ascii_nat_embedding. apply Ascii.eqb_refl.
    + destruct (Ascii.eqb_spec (ascii_of_nat (nat_of_ascii c + 32)) d) as [Hx | Hx];
        [| reflexivity].
      exfalso. apply He. rewrite <- Hx. rewrite nat_ascii_embedding; lia.
  - now rewrite orb_false_r.
Qed.

Lemma lower_same (v t : string) :
  no_upper_letter t = true -> String.eqb (lower v) t = same_ignoring_case v t.
Proof.
  revert t. induction v as [| c v IH]; intros [| d t]; cbn; try reflexivity.
  intros H. apply andb_prop in H. destruct H as [Hd Ht].
  apply negb_true_iff in Hd. rewrite (lower_ascii_same c d Hd), (IH t Ht).
  reflexivity.
Qed.

(** C10: [--dry-run] wins over [--live]; [--live] alone is live; with
    neither flag the answer is dry-run unless [DRY_RUN] is set to a value
    that, lowercased, is none of [true], [1], [yes].  The last conjunct
    says what "lowercased" comes to without going through [lower]: the
    answer is dry-run exactly when the value is one of the three words up
    to the case of its letters ([TRUE], [Yes], ...). *)
Theorem is_dry_run_precedence (argv : list string) (env : option string) :
  (In "--dry-run" argv -> is_dry_run argv env = true) /\
  (~ In "--dry-run" argv -> In "--live" argv -> is_dry_run argv env = false) /\
  (~ In "--dry-run" argv -> ~ In "--live" argv ->
     (is_dry_run argv None = true) /\
     (forall v, is_dry_run argv (Some v) = false <->
                ~ In (lower v) ["true"; "1"; "yes"]) /\
     (forall v, is_dry_run argv (Some v) = true <->
                exists word, In word dry_run_words /\ same_ignoring_case v word = true)).
Proof.
  unfold is_dry_run. split; [| split].
  - intros H. apply existsb_eqb_In in H. now rewrite H.
  - intros Hd Hl. apply existsb_eqb_not_In in Hd. apply existsb_eqb_In in Hl.
    now rewrite Hd, Hl.
  - intros Hd Hl. apply existsb_eqb_not_In in Hd. apply existsb_eqb_not_In in Hl.
    rewrite Hd, Hl. split; [reflexivity |]. split.
    + intros v. apply existsb_eqb_not_In.
    + intros v. rewrite existsb_exists. unfold dry_run_words.
      split; intros (word & Hin & Hw); exists word; (split; [exact Hin |]).
      * rewrite <- lower_same; [exact Hw |].
        destruct Hin as [<- | [<- | [<- | []]]]; reflexivity.
      * rewrite lower_same; [exact Hw |].
        destruct Hin as [<- | [<- | [<- | []]]]; reflexivity.
Qed.

Lemma is_dry_run_precedence_witness :
  is_dry_run ["delete_controls.py"; "--live"; "--dry-run"] (Some "false") = true /\
  is_dry_run ["delete_controls.py"; "--live"] (Some "true") = false /\
  is_dry_run ["delete_controls.py"] None = true /\
  is_dry_run ["delete_controls.py"] (Some "No") = false /\
  is_dry_run ["delete_controls.py"] (Some "TRUE") = true /\
  is_dry_run ["delete_controls.py"] (Some "Yes") = true /\
  is_dry_run ["delete_controls.py"] (Some "ye") = false.
Proof.
  pose proof (is_dry_run_precedence ["delete_controls.py"; "--live"; "--dry-run"]
                (Some "false")) as [H1 _].
  pose proof (is_dry_run_precedence ["delete_controls.py"; "--live"] (Some "true"))
    as [_ [H2 _]].
  pose proof (is_dry_run_precedence ["delete_controls.py"] None) as [_ [_ H3]].
  assert (Hd : ~ In "--dry-run" ["delete_controls.py"]) by (simpl; intuition discriminate).
  assert (Hl : ~ In "--live" ["delete_controls.py"]) by (simpl; intuition discriminate).
  destruct (H3 Hd Hl) as (Hnone & Hfalse & Htrue).
  split; [| split; [| split; [| split; [| split; [| split]]]]].
  - apply H1. simpl. tauto.
  - apply H2; simpl; [intuition discriminate | tauto].
  - exact Hnone.
  - apply Hfalse. simpl. intuition discriminate.
  - apply Htrue. exists "true". split; [simpl; tauto | reflexivity].
  - apply Htrue. exists "yes". split; [simpl; tauto | reflexivity].
  - apply Hfalse. simpl. intuition discriminate.
Defined.

(** The phrase the operator has to type. *)
Lemma default_phrase_example :
  "DELETE " ++ str_of_Z 3 ++ " " ++ upper "controls" = "DELETE 3 CONTROLS".
Proof. reflexivity. Qed.

(** C8: in dry-run or with [skip_confirm] the answer is [True] and
    nothing is printed or read; otherwise the answer is [True] exactly
    when the line the operator types is the confirmation phrase
    (["DELETE {count} {TYPE}"] unless one is given), an end of file or an
    interrupt gives [False], and no exception leaves the function.  Where
    the phrase is made from the item type, the item type is ASCII text
    (as the item types of the scripts are), on which [upper] is
    [str.upper()]. *)
Theorem confirm_deletion_spec (self : SafetyChecker) (item_type : string)
    (item_count : Z) (confirmation_text : option string) (skip_confirm : bool)
    (w : world) :
  (confirmation_text = None -> is_ascii item_type = true) ->
  let phrase :=
    match confirmation_text with
    | Some t => t
    | None => "DELETE " ++ str_of_Z item_count ++ " " ++ upper item_type
    end in
  let run := confirm_deletion self item_type item_count confirmation_text skip_confirm w in
  (dry_run self = true \/ skip_confirm = true -> run = (Ok true, w)) /\
  (dry_run self = false -> skip_confirm = false ->
     (exists answer, fst run = Ok answer /\
        (answer = true <-> exists rest, stdin w = Line phrase :: rest)) /\
     (forall rest, stdin w = EndOfFile :: rest \/ stdin w = CtrlC :: rest ->
        fst run = Ok false) /\
     (stdin w = [] -> fst run = Ok false) /\
     firstn 3 (skipn (List.length (printed w)) (printed (snd run))) =
       [PrintWarning item_count item_type; PrintCannotBeUndone; PrintPrompt phrase]).
Proof.
  intros _ phrase run. subst run. unfold confirm_deletion. split.
  - intros [H | H]; rewrite H; [reflexivity |].
    destruct (dry_run self); reflexivity.
  - intros Hd Hs. rewrite Hd, Hs. fold phrase.
    unfold bind, print, try_except, input, ret; cbn.
    assert (Hsk : forall x y z r,
               skipn (List.length (printed w)) ((((printed w ++ [x]) ++ [y]) ++ [z]) ++ r)
               = x :: y :: z :: r).
    { intros. rewrite <- !app_assoc. rewrite skipn_app, skipn_all, Nat.sub_diag.
      reflexivity. }
    assert (Hsk0 : forall x y z,
               skipn (List.length (printed w)) (((printed w ++ [x]) ++ [y]) ++ [z])
               = [x; y; z]).
    { intros. rewrite <- !app_assoc. rewrite skipn_app, skipn_all, Nat.sub_diag.
      reflexivity. }
    destruct (stdin w) as [| [s | |] rest] eqn:Hin; cbn;
      [ | destruct (String.eqb_spec s phrase) as [-> | Hne]; cbn | | ];
      (split; [| split; [| split]]);
      try (rewrite Hsk; reflexivity); try (rewrite Hsk0; reflexivity);
      try (intros; reflexivity); try discriminate;
      try (intros r [H | H]; discriminate);
      try (exists false; split; [reflexivity |];
           split; [discriminate | intros [r Hr]; congruence]).
    exists true. split; [reflexivity |]. split; [| reflexivity].
    intros _. now exists rest.
Qed.

Lemma confirm_deletion_spec_witness :
  let live := {| dry_run := false |} in
  let w := fresh_world unreachable [Line "DELETE 3 CONTROLS"] in
  confirm_deletion {| dry_run := true |} "controls" 3 None false w = (Ok true, w) /\
  (exists answer,
      fst (confirm_deletion live "controls" 3 None false w) = Ok answer /\
      (answer = true <-> exists rest, stdin w = Line "DELETE 3 CONTROLS" :: rest)).
Proof.
  cbv zeta. split.
  - apply (proj1 (confirm_deletion_spec {| dry_run := true |} "controls" 3 None false
                    (fresh_world unreachable [Line "DELETE 3 CONTROLS"])
                    (fun _ => eq_refl))).
    left. reflexivity.
  - apply (proj2 (confirm_deletion_spec {| dry_run := false |} "controls" 3 None false
                    (fresh_world unreachable [Line "DELETE 3 CONTROLS"])
                    (fun _ => eq_refl))
             eq_refl eq_refl).
Defined.

(** ** The HTTP client (core/api_client.py) *)

Lemma only_requests_refl P w : only_requests P w w.
Proof.
  repeat split. exists []. split; [now rewrite app_nil_r | constructor].
Qed.

Lemma only_requests_trans P w1 w2 w3 :
  only_requests P w1 w2 -> only_requests P w2 w3 -> only_requests P w1 w3.
Proof.
  intros (Hr & Ha & Hs & Hp & l & Hl & HP) (Hr' & Ha' & Hs' & Hp' & l' & Hl' & HP').
  repeat split; try congruence.
  exists (l ++ l')%list. split.
  - rewrite Hl', Hl, app_assoc. reflexivity.
  - apply Forall_app. now split.
Qed.

Lemma only_requests_sleep P d w : only_requests P w (snd (sleep d w)).
Proof.
  unfold sleep. destruct (d <? 0); cbn; [apply only_requests_refl |].
  repeat split. exists []. split; [now rewrite app_nil_r | constructor].
Qed.

Lemma only_requests_request (P : request -> Prop) m ep w :
  P {| rq_method := m; rq_endpoint := ep |} ->
  only_requests P w (snd (requests_request m ep w)).
Proof.
  intros HP. unfold requests_request.
  destruct (remote w _ _); cbn; repeat split;
    (eexists; split; [reflexivity | now repeat constructor]).
Qed.

Section Stays.

Context (R : world -> world -> Prop) {HR : PreOrder R}.

Let R_refl : forall w, R w w := @PreOrder_Reflexive _ R HR.

Let R_trans : forall w1 w2 w3, R w1 w2 -> R w2 w3 -> R w1 w3 :=
  @PreOrder_Transitive _ R HR.

Lemma stays_ret {A} (a : A) : stays R (ret a).
Proof. intros w. apply R_refl. Qed.

Lemma stays_raise {A} (e : exn) : stays R (@raise A e).
Proof. intros w. apply R_refl. Qed.

Lemma stays_lift {A} (r : result A) : stays R (lift r).
Proof. intros w. apply R_refl. Qed.

Lemma stays_bind {A B} (m : M A) (f : A -> M B) :
  stays R m -> (forall a, stays R (f a)) -> stays R (bind m f).
Proof.
  intros Hm Hf w. unfold bind. specialize (Hm w).
  destruct (m w) as [[a | e] w1]; cbn in *; [| assumption].
  eapply R_trans; [eassumption | apply Hf].
Qed.

Lemma stays_try_except {A} (m : M A) (catches : exn -> bool) (h : exn -> M A) :
  stays R m -> (forall e, stays R (h e)) -> stays R (try_except m catches h).
Proof.
  intros Hm Hh w. unfold try_except. specialize (Hm w).
  destruct (m w) as [[a | e] w1]; cbn in *; [assumption |].
  destruct (catches e); [| assumption].
  eapply R_trans; [eassumption | apply Hh].
Qed.

Lemma stays_for_each {A} (xs : list A) (body : A -> M unit) :
  (forall x, stays R (body x)) -> stays R (for_each xs body).
Proof.
  intros Hb. induction xs as [| x r IH]; cbn.
  - apply stays_ret.
  - apply stays_bind; [apply Hb | intros _; exact IH].
Qed.

End Stays.

(** Step through a computation built from [bind], [try_except], tests
    and matches. *)
Ltac stays_step :=
  match goal with
  | |- stays _ (ret _) => apply stays_ret; typeclasses eauto
  | |- stays _ (raise _) => apply stays_raise; typeclasses eauto
  | |- stays _ (lift _) => apply stays_lift; typeclasses eauto
  | |- stays _ (bind _ _) => apply stays_bind; [typeclasses eauto | | intros ?]
  | |- stays _ (try_except _ _ _) =>
      apply stays_try_except; [typeclasses eauto | | intros ?]
  | |- stays _ (for_each _ _) => apply stays_for_each; [typeclasses eauto | intros ?]
  | |- stays _ (if ?b then _ else _) => destruct b
  | |- stays _ (match ?x with _ => _ end) => destruct x
  | |- stays _ (let '(_, _) := ?x in _) => destruct x
  end.

#[export] Instance only_requests_preorder P : PreOrder (only_requests P).
Proof.
  split.
  - intros w. apply only_requests_refl.
  - intros w1 w2 w3. apply only_requests_trans.
Qed.

Section OnlyRequests.

Variable P : request -> Prop.

Let R := only_requests P.

Lemma sleep_only_requests d : stays R (sleep d).
Proof. intros w. apply only_requests_sleep. Qed.

Lemma request_only_requests m ep :
  P {| rq_method := m; rq_endpoint := ep |} -> stays R (requests_request m ep).
Proof. intros H w. now apply only_requests_request. Qed.

Lemma make_request_only_requests c m ep :
  P {| rq_method := m; rq_endpoint := ep |} ->
  forall (n : nat) k, (Z.to_nat (max_retries c - k) <= n)%nat ->
    stays R (fun w => _make_request c m ep k w).
Proof.
  intros HP. induction n as [| n IH]; intros k Hk w;
    rewrite _make_request_equation_1;
    match goal with |- R w (snd (?f w)) => generalize w; change (stays R f) end;
    unfold R;
    repeat first [ stays_step
                 | apply sleep_only_requests
                 | now apply request_only_requests
                 | apply IH; lia
                 | lia ].
Qed.

End OnlyRequests.

Lemma make_request_stays P c m ep :
  P {| rq_method := m; rq_endpoint := ep |} ->
  stays (only_requests P) (fun w => _make_request c m ep 0 w).
Proof.
  intros HP. eapply make_request_only_requests; [exact HP | apply Nat.le_refl].
Qed.

Lemma get_only_GET c ep : stays (only_requests is_GET) (get c ep).
Proof.
  unfold get, raise_for_status, json.
  repeat first [ stays_step | now apply make_request_stays ].
Qed.

Lemma get_all_only_GET resource c : stays (only_requests is_GET) (get_all resource c).
Proof.
  unfold get_all. repeat first [ stays_step | apply get_only_GET ].
Qed.

Lemma get_by_id_only_GET resource c id :
  stays (only_requests is_GET) (get_by_id resource c id).
Proof.
  unfold get_by_id. repeat first [ stays_step | apply get_only_GET ].
Qed.

(** C3, at the input where the code leaves the retry budget: with
    [max_retries = 1], a 5xx answer followed by a transport failure is
    retried twice, so three requests are sent where the budget allows
    two.  The retry of the 5xx answer runs inside the [try] block, and
    its failure is retried once more by the [except] clause of the same
    frame. *)
Theorem make_request_retries_past_budget :
  let c := {| max_retries := 1; retry_delay := 2 |} in
  let w := fresh_world (scripted [reply 500 None; Fails; reply 200 None]) [] in
  let run := _make_request c GET (Collection "controls") 0 w in
  fst run = Ok {| status_code := 200; body := None |} /\
  List.length (sent (snd run)) = 3%nat /\
  slept (snd run) = [2; 2].
Proof. vm_compute. repeat split. Qed.

(** ** The retry policy under faults of one kind *)

Lemma after_attempts_0 w r : after_attempts w r 0 [] = w.
Proof. destruct w. unfold after_attempts. cbn. now rewrite !app_nil_r. Qed.

Lemma after_attempts_S w r j d ds :
  after_attempts (record_sleep d (record_request r w)) r j ds
  = after_attempts w r (S j) (d :: ds).
Proof.
  unfold after_attempts, record_sleep, record_request. cbn.
  rewrite <- !app_assoc. reflexivity.
Qed.

Lemma backoff_S c k j :
  backoff c k (S j) = retry_delay c * (k + 1) :: backoff c (k + 1) j.
Proof.
  unfold backoff. cbn [seq map]. f_equal; [f_equal; lia |].
  rewrite <- seq_shift, map_map. apply map_ext. intros i. f_equal. lia.
Qed.

Lemma sleep_nonneg d w : 0 <= d -> sleep d w = (Ok tt, record_sleep d w).
Proof. intros H. unfold sleep. destruct (Z.ltb_spec d 0); [lia | reflexivity]. Qed.

(** A transport failure with budget left: sleep, then the next attempt. *)
Lemma make_request_fault_step c m ep k w :
  remote w (List.length (sent w)) {| rq_method := m; rq_endpoint := ep |} = Fails ->
  0 <= k < max_retries c -> 0 <= retry_delay c ->
  _make_request c m ep k w
  = _make_request c m ep (k + 1)
      (record_sleep (retry_delay c * (k + 1))
         (record_request {| rq_method := m; rq_endpoint := ep |} w)).
Proof.
  intros Hf Hk Hd. rewrite _make_request_equation_1 at 1.
  unfold try_except, bind at 1, requests_request. rewrite Hf. cbn [is_RequestException].
  destruct (Z_lt_dec k (max_retries c)); [| lia].
  unfold bind. rewrite sleep_nonneg by nia. reflexivity.
Qed.

Lemma make_request_after_faults c m ep :
  forall (j : nat) k w,
    0 <= k -> k + Z.of_nat j <= max_retries c -> 0 <= retry_delay c ->
    next_fail w {| rq_method := m; rq_endpoint := ep |} j ->
    _make_request c m ep k w
    = _make_request c m ep (k + Z.of_nat j)
        (after_attempts w {| rq_method := m; rq_endpoint := ep |} j (backoff c k j)).
Proof.
  induction j as [| j IH]; intros k w Hk Hj Hd Hf.
  - cbn. rewrite after_attempts_0, Z.add_0_r. reflexivity.
  - rewrite make_request_fault_step; try lia.
    + rewrite IH; try lia.
      * rewrite after_attempts_S, <- backoff_S. f_equal. lia.
      * intros i Hi. cbn. rewrite length_app. cbn.
        replace (List.length (sent w) + 1 + i)%nat with (List.length (sent w) + S i)%nat
          by lia.
        apply Hf. lia.
    + specialize (Hf 0%nat ltac:(lia)). now rewrite Nat.add_0_r in Hf.
Qed.

Lemma make_request_answer (c : AuditBoardClient) (m : method)
    (ep : endpoint) (k : Z) (w : world) (resp : response) :
  remote w (List.length (sent w)) {| rq_method := m; rq_endpoint := ep |} = Replies resp ->
  status_code resp < 500 ->
  _make_request c m ep k w
  = (Ok resp, record_request {| rq_method := m; rq_endpoint := ep |} w).
Proof.
  intros Hr Hs. rewrite _make_request_equation_1.
  unfold try_except, bind, requests_request. rewrite Hr.
  destruct (Z.leb_spec 500 (status_code resp)); [lia | reflexivity].
Qed.

(** An answer below 500 (a success, a 4xx) is returned at once: one
    request, no sleep, no retry, whatever the budget. *)
Theorem answer_below_500_is_not_retried (c : AuditBoardClient) (m : method)
    (ep : endpoint) (k : Z) (w : world) (resp : response) :
  remote w (List.length (sent w)) {| rq_method := m; rq_endpoint := ep |} = Replies resp ->
  status_code resp < 500 ->
  _make_request c m ep k w
  = (Ok resp, record_request {| rq_method := m; rq_endpoint := ep |} w).
Proof.
  intros Hr Hs. rewrite _make_request_equation_1.
  unfold try_except, bind, requests_request. rewrite Hr.
  destruct (Z.leb_spec 500 (status_code resp)); [lia | reflexivity].
Qed.

Lemma answer_below_500_is_not_retried_witness :
  let w := fresh_world (scripted [reply 404 None]) [] in
  _make_request default_client GET (Item "controls" (VInt 100)) 0 w
  = (Ok {| status_code := 404; body := None |},
     record_request {| rq_method := GET; rq_endpoint := Item "controls" (VInt 100) |} w).
Proof.
  cbv zeta.
  apply (answer_below_500_is_not_retried default_client GET (Item "controls" (VInt 100)) 0
           (fresh_world (scripted [reply 404 None]) [])
           {| status_code := 404; body := None |}); [reflexivity | cbn; lia].
Defined.

(** Transport failures only: after [max_retries + 1] failed attempts the
    failure is raised to the caller; the sleeps in between are
    [retry_delay * 1], ..., [retry_delay * max_retries]. *)
Theorem transport_faults_exhaust_the_retries (c : AuditBoardClient) (m : method)
    (ep : endpoint) (w : world) :
  0 <= max_retries c -> 0 <= retry_delay c ->
  next_fail w {| rq_method := m; rq_endpoint := ep |} (S (Z.to_nat (max_retries c))) ->
  _make_request c m ep 0 w
  = (Raise TransportError,
     after_attempts w {| rq_method := m; rq_endpoint := ep |}
       (S (Z.to_nat (max_retries c))) (backoff c 0 (Z.to_nat (max_retries c)))).
Proof.
  intros Hm Hd Hf.
  set (r := {| rq_method := m; rq_endpoint := ep |}) in *.
  rewrite (make_request_after_faults c m ep (Z.to_nat (max_retries c)) 0 w);
    try lia; [| intros i Hi; apply Hf; lia].
  fold r. rewrite _make_request_equation_1.
  unfold try_except, bind at 1, requests_request. fold r.
  cbn [sent after_attempts remote]. rewrite length_app, repeat_length.
  rewrite (Hf (Z.to_nat (max_retries c))) by lia. cbn [is_RequestException].
  destruct (Z_lt_dec _ _); [lia |].
  unfold raise, record_request, after_attempts. cbn.
  rewrite <- app_assoc, <- repeat_cons. reflexivity.
Qed.

Lemma transport_faults_exhaust_the_retries_witness :
  let run := _make_request default_client GET (Collection "controls") 0
               (fresh_world unreachable []) in
  fst run = Raise TransportError /\
  List.length (sent (snd run)) = 4%nat /\
  slept (snd run) = [2; 4; 6].
Proof.
  cbv zeta.
  rewrite (transport_faults_exhaust_the_retries default_client GET (Collection "controls")
             (fresh_world unreachable []));
    [repeat split | cbn; lia | cbn; lia | intros i _; reflexivity].
Defined.

(** Transport failures only: an answer below 500 that comes within the
    budget, after [j <= max_retries] failed attempts, is returned. *)
Theorem success_within_the_budget_is_returned (c : AuditBoardClient) (m : method)
    (ep : endpoint) (w : world) (j : nat) (resp : response) :
  Z.of_nat j <= max_retries c -> 0 <= retry_delay c ->
  next_fail w {| rq_method := m; rq_endpoint := ep |} j ->
  remote w (List.length (sent w) + j) {| rq_method := m; rq_endpoint := ep |}
  = Replies resp ->
  status_code resp < 500 ->
  _make_request c m ep 0 w
  = (Ok resp,
     after_attempts w {| rq_method := m; rq_endpoint := ep |} (S j) (backoff c 0 j)).
Proof.
  intros Hj Hd Hf Hr Hs.
  set (r := {| rq_method := m; rq_endpoint := ep |}) in *.
  rewrite (make_request_after_faults c m ep j 0 w); try lia; [| exact Hf].
  fold r. rewrite (make_request_answer c m ep _ _ resp); [| | exact Hs].
  - fold r. unfold record_request, after_attempts. cbn.
    rewrite <- app_assoc, <- repeat_cons. reflexivity.
  - fold r. cbn [sent after_attempts remote]. rewrite length_app, repeat_length. exact Hr.
Qed.

Lemma success_within_the_budget_is_returned_witness :
  let run := _make_request default_client GET (Collection "controls") 0
               (fresh_world (scripted [Fails; Fails; reply 200 None]) []) in
  fst run = Ok {| status_code := 200; body := None |} /\
  List.length (sent (snd run)) = 3%nat /\
  slept (snd run) = [2; 4].
Proof.
  cbv zeta.
  rewrite (success_within_the_budget_is_returned default_client GET (Collection "controls")
             (fresh_world (scripted [Fails; Fails; reply 200 None]) []) 2
             {| status_code := 200; body := None |});
    [repeat split | cbn; lia | cbn; lia
    | intros [| [| i]] Hi; [reflexivity | reflexivity | lia]
    | reflexivity | cbn; lia].
Defined.

Lemma make_request_after_5xx c m ep :
  forall (j : nat) k w resp,
    0 <= k -> k + Z.of_nat j <= max_retries c -> 0 <= retry_delay c ->
    next_5xx w {| rq_method := m; rq_endpoint := ep |} j ->
    remote w (List.length (sent w) + j) {| rq_method := m; rq_endpoint := ep |}
    = Replies resp ->
    status_code resp < 500 \/ k + Z.of_nat j = max_retries c ->
    _make_request c m ep k w
    = (Ok resp,
       after_attempts w {| rq_method := m; rq_endpoint := ep |} (S j) (backoff c k j)).
Proof.
  set (r := {| rq_method := m; rq_endpoint := ep |}).
  induction j as [| j IH]; intros k w resp Hk Hj Hd H5 Hr Hlast.
  - rewrite Nat.add_0_r in Hr. rewrite _make_request_equation_1.
    unfold try_except, bind, requests_request. fold r. rewrite Hr.
    assert (Hw : record_request r w = after_attempts w r 1 (backoff c k 0)).
    { unfold record_request, after_attempts, backoff. cbn. now rewrite app_nil_r. }
    rewrite Hw.
    destruct (Z.leb_spec 500 (status_code resp)); [| reflexivity].
    destruct (Z_lt_dec k (max_retries c)); [lia | reflexivity].
  - destruct (H5 0%nat ltac:(lia)) as (resp0 & Hr0 & Hs0).
    rewrite Nat.add_0_r in Hr0. rewrite _make_request_equation_1.
    unfold try_except, bind at 1, requests_request. fold r. rewrite Hr0.
    destruct (Z.leb_spec 500 (status_code resp0)); [| lia].
    destruct (Z_lt_dec k (max_retries c)); [| lia].
    unfold bind. rewrite sleep_nonneg by nia.
    rewrite (IH (k + 1) _ resp); try lia.
    + rewrite after_attempts_S, <- backoff_S. reflexivity.
    + intros i Hi. cbn. rewrite length_app. cbn.
      replace (List.length (sent w) + 1 + i)%nat with (List.length (sent w) + S i)%nat
        by lia.
      apply H5. lia.
    + cbn. rewrite length_app. cbn.
      replace (List.length (sent w) + 1 + j)%nat with (List.length (sent w) + S j)%nat
        by lia.
      exact Hr.
Qed.

(** 5xx answers only: the request is retried [max_retries] times with
    the sleeps [retry_delay * 1], ..., [retry_delay * max_retries]; the
    last 5xx answer is handed back, and [get] raises it as an HTTP error. *)
Theorem server_errors_exhaust_the_retries (c : AuditBoardClient) (ep : endpoint)
    (w : world) (resp : response) :
  0 <= max_retries c -> 0 <= retry_delay c ->
  next_5xx w {| rq_method := GET; rq_endpoint := ep |} (Z.to_nat (max_retries c)) ->
  remote w (List.length (sent w) + Z.to_nat (max_retries c))
    {| rq_method := GET; rq_endpoint := ep |} = Replies resp ->
  500 <= status_code resp < 600 ->
  let w' := after_attempts w {| rq_method := GET; rq_endpoint := ep |}
              (S (Z.to_nat (max_retries c))) (backoff c 0 (Z.to_nat (max_retries c))) in
  _make_request c GET ep 0 w = (Ok resp, w') /\
  get c ep w = (Raise (HTTPError (status_code resp)), w').
Proof.
  intros Hm Hd H5 Hr Hs w'.
  assert (Hrun : _make_request c GET ep 0 w = (Ok resp, w')).
  { apply make_request_after_5xx; try lia; assumption. }
  split; [exact Hrun |].
  unfold get, bind at 1. rewrite Hrun. unfold bind, raise_for_status.
  destruct (Z.leb_spec 400 (status_code resp)); [| lia].
  destruct (Z.ltb_spec (status_code resp) 600); [reflexivity | lia].
Qed.

Lemma server_errors_exhaust_the_retries_witness :
  let api := scripted [reply 503 None; reply 503 None; reply 503 None; reply 500 None] in
  let run := get default_client (Collection "controls") (fresh_world api []) in
  fst run = Raise (HTTPError 500) /\
  List.length (sent (snd run)) = 4%nat /\
  slept (snd run) = [2; 4; 6].
Proof.
  cbv zeta.
  destruct (server_errors_exhaust_the_retries default_client (Collection "controls")
              (fresh_world
                 (scripted [reply 503 None; reply 503 None; reply 503 None; reply 500 None])
                 [])
              {| status_code := 500; body := None |}) as [_ Hget].
  - cbn; lia.
  - cbn; lia.
  - intros [| [| [| i]]] Hi; cbn in Hi; try lia;
      (eexists; split; [reflexivity | cbn; lia]).
  - reflexivity.
  - cbn; lia.
  - rewrite Hget. repeat split.
Defined.

(** ** The per-id accessors *)

(** What the per-id accessors do with the outcome of the GET. *)
Lemma get_by_id_spec (resource : string) (c : AuditBoardClient) (id : value) (w : world) :
  let g := get c (Item resource id) w in
  (forall st, fst g = Raise (HTTPError st) ->
     get_by_id resource c id w = (Ok VNone, snd g)) /\
  (forall d x xs, fst g = Ok (VDict d) -> lookup resource d = Some (VList (x :: xs)) ->
     get_by_id resource c id w = (Ok x, snd g)) /\
  (forall d, fst g = Ok (VDict d) ->
     lookup resource d = Some (VList []) \/ lookup resource d = None ->
     get_by_id resource c id w = (Ok VNone, snd g)) /\
  (forall e, fst g = Raise e -> is_HTTPError e = false ->
     get_by_id resource c id w = (Raise e, snd g)).
Proof.
  cbv zeta. unfold get_by_id, try_except, bind, lift.
  destruct (get c (Item resource id) w) as [[data | e] w1]; cbn [fst snd].
  - repeat split; try discriminate.
    + intros d x xs Hd Hl. injection Hd as ->. cbn. rewrite Hl. reflexivity.
    + intros d Hd Hl. injection Hd as ->. cbn. destruct Hl as [-> | ->]; reflexivity.
  - repeat split; try discriminate.
    + intros st He. injection He as ->. reflexivity.
    + intros e' He Hne. injection He as ->. rewrite Hne. reflexivity.
Qed.

(** C4, as the code has it: every per-id accessor returns the first
    element of the array under its key, [None] when that array is empty
    or missing, and [None] when the GET ends in an HTTP error status; any
    other exception of the GET (a transport failure once the retries are
    used up) leaves the accessor. *)
Theorem per_id_accessors_spec :
  Forall (fun ka : string * (AuditBoardClient -> value -> M value) =>
            forall (c : AuditBoardClient) (id : value) (w : world),
              let g := get c (Item (fst ka) id) w in
              (forall st, fst g = Raise (HTTPError st) ->
                 snd ka c id w = (Ok VNone, snd g)) /\
              (forall d x xs, fst g = Ok (VDict d) ->
                 lookup (fst ka) d = Some (VList (x :: xs)) ->
                 snd ka c id w = (Ok x, snd g)) /\
              (forall d, fst g = Ok (VDict d) ->
                 lookup (fst ka) d = Some (VList []) \/ lookup (fst ka) d = None ->
                 snd ka c id w = (Ok VNone, snd g)) /\
              (forall e, fst g = Raise e -> is_HTTPError e = false ->
                 snd ka c id w = (Raise e, snd g)))
         per_id_accessors.
Proof.
  unfold per_id_accessors.
  repeat (apply Forall_cons;
          [cbn [fst snd]; intros c id w; apply get_by_id_spec |]).
  apply Forall_nil.
Qed.

(** C4 as stated fails: with the remote API unreachable, [get_control]
    raises once the retries are used up; it does not return [None]. *)
Lemma get_control_raises_when_unreachable :
  let c := {| max_retries := 3; retry_delay := 2 |} in
  let run := get_control c (VInt 100) (fresh_world unreachable []) in
  fst run = Raise TransportError /\
  fst run <> Ok VNone /\
  List.length (sent (snd run)) = 4%nat.
Proof. vm_compute. repeat split. discriminate. Qed.

(** A 404 is turned into [None], and a found record is unwrapped. *)
Lemma per_id_accessors_spec_witness :
  let c := {| max_retries := 3; retry_delay := 2 |} in
  let found := VDict [("id", VInt 100); ("name", VStr "Access review")] in
  fst (get_control c (VInt 100) (fresh_world (scripted [reply 404 None]) [])) = Ok VNone /\
  fst (get_control c (VInt 100)
         (fresh_world (scripted [reply 200 (Some (VDict [("controls", VList [found])]))]) []))
    = Ok found.
Proof.
  cbv zeta.
  pose proof per_id_accessors_spec as H. unfold per_id_accessors in H.
  apply Forall_inv in H. cbn [fst snd] in H.
  split.
  - rewrite (proj1 (H _ _ _) 404); reflexivity.
  - rewrite (proj1 (proj2 (H _ _ _)) [("controls", VList [VDict [("id", VInt 100); ("name", VStr "Access review")]])]
               (VDict [("id", VInt 100); ("name", VStr "Access review")]) []); reflexivity.
Defined.

(** ** Which exceptions leave the client *)

Section RaisesOnly.

Context {A B : Type} (Q : exn -> Prop).

Lemma raises_only_ret (a : A) : raises_only Q (ret a).
Proof. intros w e H. discriminate. Qed.

Lemma raises_only_raise (e : exn) : Q e -> raises_only Q (@raise A e).
Proof. intros HQ w e' H. cbn in H. now injection H as <-. Qed.

Lemma raises_only_bind (m : M A) (f : A -> M B) :
  raises_only Q m -> (forall a, raises_only Q (f a)) -> raises_only Q (bind m f).
Proof.
  intros Hm Hf w e. unfold bind. specialize (Hm w).
  destruct (m w) as [[a | e'] w1]; cbn in *.
  - apply Hf.
  - intros H. apply Hm. injection H as ->. reflexivity.
Qed.

Lemma raises_only_try_except (m : M A) (catches : exn -> bool) (h : exn -> M A) :
  raises_only Q m -> (forall e, Q e -> raises_only Q (h e)) ->
  raises_only Q (try_except m catches h).
Proof.
  intros Hm Hh w e. unfold try_except. specialize (Hm w).
  destruct (m w) as [[a | e'] w1]; cbn in *; [discriminate |].
  destruct (catches e'); [apply Hh; now apply Hm | apply Hm].
Qed.

End RaisesOnly.

Ltac raises_step :=
  match goal with
  | |- raises_only _ (ret _) => apply raises_only_ret
  | |- raises_only _ (raise _) => apply raises_only_raise; try assumption
  | |- raises_only _ (bind _ _) => apply raises_only_bind; [| intros ?]
  | |- raises_only _ (try_except _ _ _) => apply raises_only_try_except; [| intros ? ?]
  | |- raises_only _ (if ?b then _ else _) => destruct b
  | |- raises_only _ (match ?x with _ => _ end) => destruct x
  end.

Lemma request_raises m ep : raises_only client_exn (requests_request m ep).
Proof.
  intros w e. unfold requests_request. destruct (remote w _ _); cbn; [| discriminate].
  intros H. injection H as <-. now left.
Qed.

Lemma sleep_raises d : raises_only client_exn (sleep d).
Proof.
  intros w e. unfold sleep. destruct (d <? 0); cbn; [| discriminate].
  intros H. injection H as <-. right. now left.
Qed.

Lemma make_request_raises c m ep :
  forall (n : nat) k, (Z.to_nat (max_retries c - k) <= n)%nat ->
    raises_only client_exn (fun w => _make_request c m ep k w).
Proof.
  induction n as [| n IH]; intros k Hk w e;
    rewrite _make_request_equation_1;
    match goal with
    | |- fst (?f w) = Raise e -> _ => generalize w e; change (raises_only client_exn f)
    end;
    repeat first [ raises_step
                 | apply sleep_raises
                 | apply request_raises
                 | apply IH; lia
                 | lia ].
Qed.

Lemma delete_raises c ep : raises_only client_exn (delete c ep).
Proof.
  unfold delete, raise_for_status.
  repeat first [ raises_step
               | eapply make_request_raises; apply Nat.le_refl
               | right; right; eexists; reflexivity ].
Qed.

Lemma client_exn_is_Exception e : client_exn e -> is_Exception e = true.
Proof. intros [-> | [-> | [st ->]]]; reflexivity. Qed.

(** ** The bulk deletion loop (deletion/delete_controls.py) *)

Lemma loggable_get ctrl :
  loggable ctrl = true ->
  exists d, ctrl = VDict d /\
    py_get ctrl "id" VNone = Ok (item_id (entry_of ctrl None)) /\
    py_get ctrl "uid" VNone = Ok (item_uid (entry_of ctrl None)) /\
    py_get ctrl "name" (VStr "N/A") = Ok (item_name (entry_of ctrl None)) /\
    py_slice (item_name (entry_of ctrl None)) = Ok tt.
Proof.
  destruct ctrl as [| | | | | d]; try discriminate. cbn. intros H.
  exists d. unfold py_slice. rewrite H. repeat split; reflexivity.
Qed.

(** One turn of the dry-run loop: the control is recorded as deleted and
    the world is left as it was. *)
Lemma delete_one_dry_run client config total i ctrl results w :
  loggable ctrl = true ->
  delete_one client config true total i ctrl results w
  = (Ok (append_deleted (entry_of ctrl None) results), w).
Proof.
  intros H. destruct (loggable_get ctrl H) as (d & -> & Hid & Huid & Hname & Hsl).
  unfold delete_one, bind, lift. rewrite Hid, Huid, Hname, Hsl. reflexivity.
Qed.

(** One turn of the live loop: whatever the delete call does, the
    control is recorded once, as deleted or as failed. *)
Lemma delete_one_live client config total i ctrl results w :
  loggable ctrl = true ->
  pause_every_n (deletion config) <> 0 ->
  0 <= rate_limit_delay (safety config) ->
  exists error results' w',
    delete_one client config false total i ctrl results w = (Ok results', w') /\
    (results' = append_deleted (entry_of ctrl None) results \/
     results' = append_failed (entry_of ctrl error) results).
Proof.
  intros H Hn Hd. destruct (loggable_get ctrl H) as (d & -> & Hid & Huid & Hname & Hsl).
  unfold delete_one, bind, lift. rewrite Hid, Huid, Hname, Hsl. cbn [negb].
  assert (Hpause : forall (r : DeletionResults) w0, exists w',
             (if pause_every_n (deletion config) =? 0 then raise ZeroDivisionError
              else if (i mod pause_every_n (deletion config) =? 0) && (i <? total)
                   then sleep (rate_limit_delay (safety config))
                   else ret tt) w0 = (Ok tt, w')).
  { intros r w0. destruct (Z.eqb_spec (pause_every_n (deletion config)) 0); [contradiction |].
    destruct (_ && _); [| eexists; reflexivity].
    unfold sleep. destruct (Z.ltb_spec (rate_limit_delay (safety config)) 0); [lia |].
    eexists; reflexivity. }
  unfold try_except, bind, delete_control.
  pose proof (delete_raises client (Item "controls" (item_id (entry_of (VDict d) None))) w)
    as Hraise.
  destruct (delete client _ w) as [[[|] | e] w1]; cbn [fst] in Hraise.
  - destruct (Hpause results w1) as [w' Hw']. cbn. rewrite Hw'.
    exists None. do 2 eexists. split; [reflexivity | now left].
  - destruct (Hpause results w1) as [w' Hw']. cbn. rewrite Hw'.
    exists None. do 2 eexists. split; [reflexivity | now right].
  - rewrite (client_exn_is_Exception e (Hraise e eq_refl)).
    destruct (Hpause results w1) as [w' Hw']. cbn. rewrite Hw'.
    exists (Some e). do 2 eexists. split; [reflexivity | now right].
Qed.

Lemma delete_loop_dry_run client config total controls :
  Forall (fun ctrl => loggable ctrl = true) controls ->
  forall i results w,
    delete_loop client config true total i controls results w
    = (Ok {| timestamp := timestamp results; res_dry_run := res_dry_run results;
             total_controls := total_controls results;
             deleted := deleted results ++ map (fun ctrl => entry_of ctrl None) controls;
             failed := failed results |}, w).
Proof.
  induction 1 as [| ctrl rest Hctrl _ IH]; intros i results w; cbn.
  - unfold ret. rewrite app_nil_r. now destruct results.
  - unfold bind at 1. rewrite delete_one_dry_run by assumption.
    rewrite IH. cbn. rewrite <- app_assoc. reflexivity.
Qed.

Lemma delete_controls_bulk_dry_run controls client config now w :
  Forall (fun ctrl => loggable ctrl = true) controls ->
  delete_controls_bulk controls client config true now w
  = (Ok {| timestamp := now; res_dry_run := true;
           total_controls := Z.of_nat (List.length controls);
           deleted := map (fun ctrl => entry_of ctrl None) controls;
           failed := [] |}, w).
Proof.
  intros H. unfold delete_controls_bulk.
  destruct controls as [| ctrl rest]; [reflexivity |].
  cbn [negb]. unfold bind at 1. cbn [ret].
  rewrite delete_loop_dry_run by assumption. reflexivity.
Qed.

(** In dry-run the loop never touches the world, whatever the records. *)
Lemma delete_loop_dry_run_world client config total controls :
  forall i results, stays eq (delete_loop client config true total i controls results).
Proof.
  induction controls as [| ctrl rest IH]; intros i results; cbn [delete_loop].
  - apply stays_ret. typeclasses eauto.
  - apply stays_bind; [typeclasses eauto | | intros r; apply IH].
    unfold delete_one. repeat stays_step.
Qed.

Lemma delete_controls_bulk_dry_run_world controls client config now :
  stays eq (delete_controls_bulk controls client config true now).
Proof.
  unfold delete_controls_bulk. destruct controls as [| ctrl rest].
  - apply stays_ret. typeclasses eauto.
  - cbn [negb]. apply stays_bind; [typeclasses eauto | |].
    + apply stays_ret. typeclasses eauto.
    + intros _. apply delete_loop_dry_run_world.
Qed.

(** C2: in dry-run the driver leaves the world as it found it, whatever
    the records: no request is sent, so no delete call is made.  With
    records that can be logged it returns results that hold every target
    in [deleted] with its id, uid and name, an empty [failed] list and
    [dry_run = True]. *)
Theorem dry_run_deletes_nothing (controls : list value) (client : AuditBoardClient)
    (config : Config) (now : string) (w : world) :
  let run := delete_controls_bulk controls client config true now w in
  snd run = w /\
  (Forall (fun ctrl => loggable ctrl = true) controls ->
   fst run
   = Ok {| timestamp := now; res_dry_run := true;
           total_controls := Z.of_nat (List.length controls);
           deleted := map (fun ctrl => entry_of ctrl None) controls;
           failed := [] |}).
Proof.
  intros run. subst run. split.
  - symmetry. apply delete_controls_bulk_dry_run_world.
  - intros H. rewrite delete_controls_bulk_dry_run by assumption. reflexivity.
Qed.

Lemma dry_run_deletes_nothing_witness :
  let w := fresh_world unreachable [] in
  let run := delete_controls_bulk two_controls default_client default_config true
               "2024-01-01T00:00:00" w in
  snd run = w /\
  fst run
  = Ok {| timestamp := "2024-01-01T00:00:00"; res_dry_run := true; total_controls := 2;
          deleted :=
            [ {| item_id := VInt 100; item_uid := VStr "CC-1";
                 item_name := VStr "Access review"; item_error := None |};
              {| item_id := VInt 101; item_uid := VStr "CC-2";
                 item_name := VStr "N/A"; item_error := None |} ];
          failed := [] |}.
Proof.
  cbv zeta.
  destruct (dry_run_deletes_nothing two_controls default_client default_config
              "2024-01-01T00:00:00" (fresh_world unreachable [])) as (Hw & Hr).
  split; [exact Hw | exact (Hr ltac:(repeat constructor))].
Defined.

Lemma delete_loop_live client config total controls :
  Forall (fun ctrl => loggable ctrl = true) controls ->
  pause_every_n (deletion config) <> 0 ->
  0 <= rate_limit_delay (safety config) ->
  forall i results w,
    exists results' w',
      delete_loop client config false total i controls results w = (Ok results', w').
Proof.
  intros Hall Hn Hd.
  induction Hall as [| ctrl rest Hctrl _ IH]; intros i results w; cbn.
  - now exists results, w.
  - destruct (delete_one_live client config total i ctrl results w Hctrl Hn Hd)
      as (error & r1 & w1 & Hone & _).
    unfold bind at 1. rewrite Hone. apply IH.
Qed.

(** The confirmation prompt answers and sends nothing. *)
Lemma confirm_deletion_answers self item_type item_count text skip w :
  exists answer w',
    confirm_deletion self item_type item_count text skip w = (Ok answer, w') /\
    sent w' = sent w.
Proof.
  unfold confirm_deletion.
  destruct (dry_run self); [now exists true, w |].
  destruct skip; [now exists true, w |].
  unfold bind, print, try_except, input, ret; cbn.
  destruct (stdin w) as [| [s | |] rest]; cbn;
    try (destruct (String.eqb s _); cbn); do 2 eexists; split; reflexivity.
Qed.

(** The countdown ends, or the operator aborts it with exit code 0;
    nothing is sent meanwhile. *)
Lemma countdown_warning_outcome self seconds w :
  0 <= seconds ->
  exists w', sent w' = sent w /\
    (countdown_warning self seconds w = (Ok tt, w') \/
     countdown_warning self seconds w = (Raise (SystemExit 0), w')).
Proof.
  intros H. unfold countdown_warning, try_except, sleep, raise, ret.
  destruct (dry_run self); [exists w; now split; [| left] |].
  destruct (abort_countdown w); cbn; [exists w; now split; [| right] |].
  destruct (Z.ltb_spec seconds 0); [lia |].
  eexists; split; [| left; reflexivity]. reflexivity.
Qed.

Lemma delete_controls_bulk_live controls client config now w :
  Forall (fun ctrl => loggable ctrl = true) controls ->
  pause_every_n (deletion config) <> 0 ->
  0 <= rate_limit_delay (safety config) ->
  0 <= countdown_seconds (safety config) ->
  exists r w',
    delete_controls_bulk controls client config false now w = (r, w') /\
    ((r = Raise (SystemExit 0) /\ sent w' = sent w) \/ (exists results, r = Ok results)).
Proof.
  intros Hall Hn Hd Hc. unfold delete_controls_bulk.
  destruct controls as [| ctrl rest] eqn:Hcontrols.
  { do 2 eexists. split; [reflexivity |]. right. eexists. reflexivity. }
  rewrite <- Hcontrols in *. cbn [negb].
  unfold bind at 1. unfold bind at 1.
  destruct (confirm_deletion_answers {| dry_run := false |} "controls"
              (Z.of_nat (List.length controls))
              (Some ("DELETE " ++ str_of_Z (Z.of_nat (List.length controls)) ++ " CONTROLS"))
              false w) as (answer & w1 & Hconfirm & Hsent1).
  rewrite Hconfirm. destruct answer; cbn [negb].
  - unfold bind at 1. cbn [ret].
    destruct (countdown_warning_outcome {| dry_run := false |}
                (countdown_seconds (safety config)) w1 Hc) as (w2 & Hsent2 & [Hcd | Hcd]);
      rewrite Hcd.
    + destruct (delete_loop_live client config (Z.of_nat (List.length controls))
                  controls Hall Hn Hd 1
                  {| timestamp := now; res_dry_run := false;
                     total_controls := Z.of_nat (List.length controls);
                     deleted := []; failed := [] |} w2)
        as (results & w3 & Hloop).
      rewrite Hloop. do 2 eexists. split; [reflexivity |]. right. now exists results.
    + do 2 eexists. split; [reflexivity |]. left. split; [reflexivity | congruence].
  - unfold bind at 1. cbn [raise]. do 2 eexists. split; [reflexivity |].
    left. split; [reflexivity | assumption].
Qed.

(** Whenever one turn of the loop returns, it has recorded the control
    once, as deleted or as failed. *)
Lemma delete_one_returns client config dry_run total i ctrl results w results' w' :
  delete_one client config dry_run total i ctrl results w = (Ok results', w') ->
  exists error,
    results' = append_deleted (entry_of ctrl None) results \/
    results' = append_failed (entry_of ctrl error) results.
Proof.
  unfold delete_one, bind, lift.
  destruct ctrl as [| | | | | d]; try discriminate. cbn [py_get].
  unfold py_slice.
  destruct (sliceable _) eqn:Hs; [| discriminate].
  change (match lookup "id" d with Some x => x | None => VNone end)
    with (item_id (entry_of (VDict d) None)).
  change (match lookup "uid" d with Some x => x | None => VNone end)
    with (item_uid (entry_of (VDict d) None)).
  change (match lookup "name" d with Some x => x | None => VStr "N/A" end)
    with (item_name (entry_of (VDict d) None)).
  destruct dry_run.
  - cbn. intros H. injection H as <- _. exists None. now left.
  - unfold try_except, bind.
    destruct (delete_control client _ w) as [[[|] | e] w1];
      [ | | destruct (is_Exception e); [| discriminate] ];
      cbv beta iota delta [ret];
      match goal with
      | |- context [(if pause_every_n (deletion config) =? 0 then ?a else ?b) ?w0] =>
          destruct ((if pause_every_n (deletion config) =? 0 then a else b) w0)
            as [[[] | e'] w2]; [| discriminate]
      end;
      intros H; injection H as <- _.
    + exists None. now left.
    + exists None. now right.
    + exists (Some e). now right.
Qed.

Lemma delete_loop_returns client config dry_run total controls :
  forall i results w results' w',
    delete_loop client config dry_run total i controls results w = (Ok results', w') ->
    Permutation (map target (deleted results' ++ failed results'))
                (map target (deleted results ++ failed results)
                 ++ map (fun ctrl => target (entry_of ctrl None)) controls) /\
    res_dry_run results' = res_dry_run results /\
    total_controls results' = total_controls results.
Proof.
  induction controls as [| ctrl rest IH]; intros i results w results' w'; cbn.
  - unfold ret. intros H. injection H as <- _. rewrite app_nil_r.
    repeat split. apply Permutation_refl.
  - unfold bind at 1.
    destruct (delete_one client config dry_run total i ctrl results w)
      as [[r1 | e] w1] eqn:Hone; [| discriminate].
    intros Hloop. destruct (IH _ _ _ _ _ Hloop) as (Hperm & Hdr & Htot).
    destruct (delete_one_returns _ _ _ _ _ _ _ _ _ _ Hone) as (error & [-> | ->]);
      unfold append_deleted, append_failed in *;
      cbn [deleted failed res_dry_run total_controls] in *;
      repeat split; try assumption.
    + etransitivity; [exact Hperm |].
      rewrite !map_app. cbn [map]. rewrite <- !app_assoc.
      apply Permutation_app_head. cbn [app]. apply Permutation_middle.
    + etransitivity; [exact Hperm |].
      rewrite !map_app. cbn [map]. rewrite <- !app_assoc. reflexivity.
Qed.

Lemma delete_controls_bulk_returns controls client config dry_run now w results w' :
  delete_controls_bulk controls client config dry_run now w = (Ok results, w') ->
  Permutation (map target (deleted results ++ failed results))
              (map (fun ctrl => target (entry_of ctrl None)) controls) /\
  res_dry_run results = dry_run /\
  total_controls results = Z.of_nat (List.length controls).
Proof.
  unfold delete_controls_bulk.
  destruct controls as [| ctrl rest] eqn:Hcontrols.
  { unfold ret. intros H. injection H as <- _. repeat split. apply Permutation_refl. }
  rewrite <- Hcontrols. unfold bind at 1.
  match goal with
  | |- context [(if negb dry_run then ?m else ret tt) w] =>
      destruct ((if negb dry_run then m else ret tt) w) as [[[] | e] w1];
        [| discriminate]
  end.
  intros Hloop. apply delete_loop_returns in Hloop.
  cbn [deleted failed app map res_dry_run total_controls] in Hloop. exact Hloop.
Qed.

(** C1: whenever the driver returns, every target stands in exactly one
    of [deleted] and [failed] (the two lists together are a rearrangement
    of the targets), so their lengths add up to the number of targets, in
    dry-run and in live mode, whatever the delete calls do.  And it does
    return when the records can be logged and the configuration can be
    used, unless the operator declines or aborts before the first delete
    call: then it exits with code 0 and nothing was sent. *)
Theorem every_target_recorded_once (controls : list value) (client : AuditBoardClient)
    (config : Config) (dry_run : bool) (now : string) (w : world) :
  let run := delete_controls_bulk controls client config dry_run now w in
  (forall results, fst run = Ok results ->
     Permutation (map target (deleted results ++ failed results))
                 (map (fun ctrl => target (entry_of ctrl None)) controls) /\
     (List.length (deleted results) + List.length (failed results)
      = List.length controls)%nat /\
     total_controls results = Z.of_nat (List.length controls) /\
     res_dry_run results = dry_run) /\
  (Forall (fun ctrl => loggable ctrl = true) controls ->
   (dry_run = false ->
      pause_every_n (deletion config) <> 0 /\
      0 <= rate_limit_delay (safety config) /\
      0 <= countdown_seconds (safety config)) ->
   (exists results, fst run = Ok results) \/
   (dry_run = false /\ fst run = Raise (SystemExit 0) /\ sent (snd run) = sent w)).
Proof.
  intros run. split.
  - intros results Hrun. subst run.
    destruct (delete_controls_bulk controls client config dry_run now w)
      as [r w'] eqn:E. cbn [fst] in Hrun. subst r.
    destruct (delete_controls_bulk_returns _ _ _ _ _ _ _ _ E) as (HP & Hdr & Htot).
    repeat split; try assumption.
    apply Permutation_length in HP. rewrite !length_map, length_app in HP. exact HP.
  - intros Hall Hcfg. subst run. destruct dry_run.
    + left. rewrite delete_controls_bulk_dry_run by assumption. eexists. reflexivity.
    + destruct (Hcfg eq_refl) as (Hn & Hd & Hc).
      destruct (delete_controls_bulk_live controls client config now w Hall Hn Hd Hc)
        as (r & w' & Hrun & [(-> & Hsent) | (results & ->)]); rewrite Hrun.
      * right. repeat split. assumption.
      * left. now exists results.
Qed.

Lemma every_target_recorded_once_witness :
  let api := scripted [reply 204 None; reply 404 None] in
  let w := fresh_world api [Line "DELETE 2 CONTROLS"] in
  exists results,
    fst (delete_controls_bulk two_controls default_client default_config false
           "2024-01-01T00:00:00" w) = Ok results /\
    Permutation (map target (deleted results ++ failed results))
                (map (fun ctrl => target (entry_of ctrl None)) two_controls) /\
    (List.length (deleted results) + List.length (failed results) = 2)%nat /\
    map item_id (deleted results) = [VInt 100] /\
    map item_id (failed results) = [VInt 101].
Proof.
  cbv zeta.
  destruct (every_target_recorded_once two_controls default_client default_config false
              "2024-01-01T00:00:00"
              (fresh_world (scripted [reply 204 None; reply 404 None])
                 [Line "DELETE 2 CONTROLS"])) as [Hinv Hreturns].
  destruct (Hreturns ltac:(repeat constructor) ltac:(intros _; cbn; repeat split; lia))
    as [(results & Hrun) | (_ & Hexit & _)].
  - exists results. destruct (Hinv results Hrun) as (HP & Hlen & _).
    split; [exact Hrun |]. split; [exact HP |]. split; [exact Hlen |].
    vm_compute in Hrun. injection Hrun as <-. split; reflexivity.
  - vm_compute in Hexit. discriminate Hexit.
Defined.

(** ** Dependency checkers (discovery/find_dependencies.py) *)

Lemma filterM_records {A} (keep : A -> result bool) (f : A -> bool) (xs : list A) :
  Forall (fun x => keep x = Ok (f x)) xs -> filterM keep xs = Ok (filter f xs).
Proof.
  induction 1 as [| x r Hx _ IH]; cbn; [reflexivity |].
  rewrite Hx, IH. reflexivity.
Qed.

Lemma select_in_records fk ids all :
  Forall (fun x => is_dict x = true) all ->
  select_in (VList all) fk ids = Ok (matching_in fk ids all).
Proof.
  intros H. unfold select_in, matching_in. cbn.
  apply filterM_records. eapply Forall_impl; [| exact H].
  intros [| | | | | d] Hd; try discriminate. reflexivity.
Qed.

Lemma select_eq_records fk id all :
  Forall (fun x => is_dict x = true) all ->
  select_eq (VList all) fk id = Ok (matching_eq fk id all).
Proof.
  intros H. unfold select_eq, matching_eq. cbn.
  apply filterM_records. eapply Forall_impl; [| exact H].
  intros [| | | | | d] Hd; try discriminate. reflexivity.
Qed.

Lemma log_name_loggable x w : loggable x = true -> log_name x w = (Ok tt, w).
Proof.
  destruct x as [| | | | | d]; try discriminate. cbn. intros H.
  unfold log_name, bind, lift, py_slice. cbn. rewrite H. reflexivity.
Qed.

Lemma for_each_log_name xs w :
  Forall (fun x => loggable x = true) xs -> for_each xs log_name w = (Ok tt, w).
Proof.
  induction 1 as [| x r Hx _ IH]; cbn; [reflexivity |].
  unfold bind. rewrite log_name_loggable by assumption. exact IH.
Qed.

Lemma reports_intro ids offenders :
  reports {| checked_ids := ids;
             has_dependencies := 0 <? Z.of_nat (List.length offenders);
             children := offenders;
             children_count := Z.of_nat (List.length offenders) |} ids offenders.
Proof.
  unfold reports. cbn. repeat split; try reflexivity.
  - intros H. apply Z.ltb_ge in H. lia.
  - intros H. apply Z.ltb_ge. lia.
  - intros H. apply Z.ltb_lt in H. lia.
  - intros H. apply Z.ltb_lt. lia.
Qed.

Lemma get_all_unfold resource client w :
  get_all resource client w
  = bind (get client (Collection resource))
         (fun data => lift (py_get data resource (VList []))) w.
Proof. reflexivity. Qed.

(** C5: when the child collection is fetched (an array of records), each
    checker returns a report whose [has_dependencies] is [False] exactly
    when no child record matches the foreign-key filter and [True] for
    any nonzero count; the report holds all the matching records, hence
    the first [min(N, 10)] of them, and their count [N].  (The subprocess
    and region checkers also cut the names of the first ten, resp. five,
    matches for their log lines, so these must be text.) *)
Theorem dependency_reports (client : AuditBoardClient) (w w' : world)
    (ids all : list value) :
  Forall (fun x => is_dict x = true) all ->
  (get_all "processes_data" client w = (Ok (VList all), w') ->
   exists r, check_entity_dependencies ids client w = (Ok r, w') /\
             reports r ids (matching_in "entity_id" ids all)) /\
  (get_all "subprocesses" client w = (Ok (VList all), w') ->
   exists r, check_process_dependencies ids client w = (Ok r, w') /\
             reports r ids (matching_in "process_id" ids all)) /\
  (get_all "controls" client w = (Ok (VList all), w') ->
   Forall (fun x => loggable x = true)
          (firstn 10 (matching_in "subprocess_id" ids all)) ->
   exists r, check_subprocess_dependencies ids client w = (Ok r, w') /\
             reports r ids (matching_in "subprocess_id" ids all)) /\
  (forall (region_id : Z) (processes : list value) (w1 : world),
     get_entities client w = (Ok (VList all), w1) ->
     get_processes client w1 = (Ok (VList processes), w') ->
     Forall (fun x => is_dict x = true) processes ->
     Forall (fun x => loggable x = true)
            (firstn 5 (matching_eq "region_id" (VInt region_id) all)) ->
     Forall (fun x => loggable x = true)
            (firstn 5 (matching_eq "region_id" (VInt region_id) processes)) ->
     exists r, FindDependencies.check_region_dependencies region_id client w
               = (Ok r, w') /\
               region_reports r region_id
                 (matching_eq "region_id" (VInt region_id) all)
                 (matching_eq "region_id" (VInt region_id) processes)).
Proof.
  intros Hall. split; [| split; [| split]].
  - intros Hget. rewrite get_all_unfold in Hget.
    unfold check_entity_dependencies. unfold bind in *.
    destruct (get client (Collection "processes_data") w) as [[data | e] w1];
      [| discriminate].
    unfold lift in *. injection Hget as Hdata ->. rewrite Hdata. cbn [py_len].
    rewrite select_in_records by assumption.
    eexists. split; [reflexivity | apply reports_intro].
  - intros Hget. unfold check_process_dependencies, get_subprocesses, bind.
    rewrite Hget. unfold lift. rewrite select_in_records by assumption.
    eexists. split; [reflexivity | apply reports_intro].
  - intros Hget Hlog. unfold check_subprocess_dependencies, get_controls, bind.
    rewrite Hget. unfold lift. rewrite select_in_records by assumption.
    rewrite for_each_log_name by assumption.
    eexists. split; [reflexivity | apply reports_intro].
  - intros region_id processes w1 Hents Hprocs Hdict Hlog1 Hlog2.
    unfold FindDependencies.check_region_dependencies, bind. rewrite Hents. unfold lift.
    rewrite select_eq_records by assumption. rewrite Hprocs.
    rewrite select_eq_records by assumption.
    rewrite for_each_log_name by assumption.
    rewrite for_each_log_name by assumption.
    eexists. split; [reflexivity |].
    unfold region_reports. cbn.
    set (ne := List.length (matching_eq "region_id" (VInt region_id) all)).
    set (np := List.length (matching_eq "region_id" (VInt region_id) processes)).
    repeat split; try reflexivity.
    + apply orb_false_iff in H. destruct H as [H _]. apply Z.ltb_ge in H. lia.
    + apply orb_false_iff in H. destruct H as [_ H]. apply Z.ltb_ge in H. lia.
    + intros [H1 H2]. apply orb_false_iff. split; apply Z.ltb_ge; lia.
    + intros H. apply orb_true_iff in H.
      destruct H as [H | H]; apply Z.ltb_lt in H; [left | right]; lia.
    + intros [H | H]; apply orb_true_iff; [left | right]; apply Z.ltb_lt; lia.
Qed.

Lemma dependency_reports_witness :
  let controls :=
    [ VDict [("id", VInt 1); ("uid", VStr "C-1"); ("name", VStr "Review");
             ("subprocess_id", VInt 86)];
      VDict [("id", VInt 2); ("uid", VStr "C-2"); ("name", VStr "Sign-off");
             ("subprocess_id", VInt 99)] ] in
  let api := scripted [reply 200 (Some (VDict [("controls", VList controls)]))] in
  exists r w',
    check_subprocess_dependencies [VInt 86; VInt 87] default_client (fresh_world api [])
    = (Ok r, w') /\
    has_dependencies r = true /\
    children_count r = 1 /\
    children r = firstn 1 controls.
Proof.
  cbv zeta.
  set (controls :=
    [ VDict [("id", VInt 1); ("uid", VStr "C-1"); ("name", VStr "Review");
             ("subprocess_id", VInt 86)];
      VDict [("id", VInt 2); ("uid", VStr "C-2"); ("name", VStr "Sign-off");
             ("subprocess_id", VInt 99)] ]).
  set (w := fresh_world
              (scripted [reply 200 (Some (VDict [("controls", VList controls)]))]) []).
  destruct (proj1 (proj2 (proj2
              (dependency_reports default_client w
                 (snd (get_all "controls" default_client w))
                 [VInt 86; VInt 87] controls
                 ltac:(repeat constructor))))
              eq_refl ltac:(repeat constructor))
    as (r & Hrun & Hid & Hfalse & Htrue & Hcount & Hchildren & _).
  exists r, (snd (get_all "controls" default_client w)).
  split; [exact Hrun |]. split; [| split].
  - apply Htrue. cbn. lia.
  - exact Hcount.
  - exact Hchildren.
Defined.

(** ** Region deletion (deletion/delete_region.py) *)

Lemma matching_eq_nonempty fk id all x :
  In x all -> py_eq (field x fk) id = true ->
  (0 <? Z.of_nat (List.length (matching_eq fk id all))) = true.
Proof.
  intros Hin Heq. apply Z.ltb_lt.
  assert (Hm : In x (matching_eq fk id all)) by (apply filter_In; now split).
  destruct (matching_eq fk id all); [contradiction | cbn; lia].
Qed.

(** C6: a region that is fetched and has an entity or a process with its
    [region_id] is not deleted without [force]: in dry-run and in live
    mode alike, [delete_region] returns [success = False] with the error
    ["Dependencies exist"] and the blocking records, and all it sent are
    the GET requests of the three fetches: no DELETE, no prompt. *)
Theorem delete_region_blocked (region_id : Z) (client : AuditBoardClient) (config : Config)
    (dry_run : bool) (now : string) (w w1 w2 w3 : world) (region : value)
    (entities processes : list value) :
  get_region client (VInt region_id) w = (Ok region, w1) ->
  truthy region = true ->
  is_dict region = true ->
  get_entities client w1 = (Ok (VList entities), w2) ->
  get_processes client w2 = (Ok (VList processes), w3) ->
  Forall (fun x => is_dict x = true) entities ->
  Forall (fun x => is_dict x = true) processes ->
  (exists x, (In x entities \/ In x processes) /\
             py_eq (field x "region_id") (VInt region_id) = true) ->
  delete_region region_id client config dry_run false now w
  = (Ok {| rd_timestamp := now; rd_dry_run := dry_run; rd_region_id := None;
           rd_region_name := None; rd_success := false;
           rd_error := Some (Text "Dependencies exist");
           rd_dependencies :=
             Some (matching_eq "region_id" (VInt region_id) entities,
                   matching_eq "region_id" (VInt region_id) processes) |}, w3) /\
  only_requests is_GET w w3 /\
  (forall r, In r (sent w3) -> rq_method r = DELETE -> In r (sent w)).
Proof.
  intros Hregion Htruthy Hdict Hents Hprocs Hde Hdp (x & Hin & Heq).
  assert (Hdeps : (0 <? Z.of_nat (List.length (matching_eq "region_id" (VInt region_id) entities)))
                  || (0 <? Z.of_nat (List.length (matching_eq "region_id" (VInt region_id) processes)))
                  = true).
  { apply orb_true_iff. destruct Hin as [Hin | Hin]; [left | right];
      eapply matching_eq_nonempty; eassumption. }
  assert (Honly : only_requests is_GET w w3).
  { transitivity w1.
    - pose proof (get_by_id_only_GET "regions" client (VInt region_id) w) as H.
      unfold get_region in Hregion. rewrite Hregion in H. exact H.
    - transitivity w2.
      + pose proof (get_all_only_GET "entities" client w1) as H.
        unfold get_entities in Hents. rewrite Hents in H. exact H.
      + pose proof (get_all_only_GET "processes" client w2) as H.
        unfold get_processes in Hprocs. rewrite Hprocs in H. exact H. }
  split; [| split; [exact Honly |]].
  - unfold delete_region. unfold bind at 1. rewrite Hregion. rewrite Htruthy. cbn [negb].
    destruct region as [| | | | | d]; try discriminate. cbn [py_get].
    unfold bind at 1. unfold lift at 1.
    unfold bind at 1. unfold bind at 1.
    unfold check_region_dependencies. unfold bind at 1. rewrite Hents.
    unfold bind at 1. unfold lift at 1. rewrite select_eq_records by assumption.
    unfold bind at 1. rewrite Hprocs.
    unfold bind at 1. unfold lift at 1. rewrite select_eq_records by assumption.
    rewrite Hdeps. reflexivity.
  - intros r Hr Hdel. destruct Honly as (_ & _ & _ & _ & l & Hl & HP).
    rewrite Hl in Hr. apply in_app_or in Hr. destruct Hr as [Hr | Hr]; [assumption |].
    rewrite Forall_forall in HP. specialize (HP r Hr). unfold is_GET in HP. congruence.
Qed.

Lemma delete_region_blocked_witness :
  let w := fresh_world region_15_api [] in
  let run := delete_region 15 default_client default_config false false
               "2024-01-01T00:00:00" w in
  fst run
  = Ok {| rd_timestamp := "2024-01-01T00:00:00"; rd_dry_run := false;
          rd_region_id := None; rd_region_name := None; rd_success := false;
          rd_error := Some (Text "Dependencies exist");
          rd_dependencies := Some (firstn 2 entities_of_15_and_16, []) |} /\
  sent (snd run)
  = [ {| rq_method := GET; rq_endpoint := Item "regions" (VInt 15) |};
      {| rq_method := GET; rq_endpoint := Collection "entities" |};
      {| rq_method := GET; rq_endpoint := Collection "processes" |} ].
Proof.
  cbv zeta.
  set (w := fresh_world region_15_api []).
  set (w1 := snd (get_region default_client (VInt 15) w)).
  set (w2 := snd (get_entities default_client w1)).
  set (w3 := snd (get_processes default_client w2)).
  destruct (delete_region_blocked 15 default_client default_config false
              "2024-01-01T00:00:00" w w1 w2 w3 region_15 entities_of_15_and_16 []
              eq_refl eq_refl eq_refl eq_refl eq_refl
              ltac:(repeat constructor) ltac:(repeat constructor)
              (ex_intro _ (VDict [("id", VInt 25); ("name", VStr "Paris");
                                  ("region_id", VInt 15)])
                 (conj (or_introl (or_introl eq_refl)) eq_refl)))
    as (Hrun & _ & _).
  rewrite Hrun. split; reflexivity.
Defined.

(** ** The hierarchy walker (discovery/analyze_region.py) *)

(** When every attempt meets a transport failure, the per-id accessor
    raises it once the retries are used up: [except requests.HTTPError]
    does not catch it. *)
Lemma get_by_id_unreachable (resource : string) (c : AuditBoardClient) (id : value)
    (w : world) :
  0 <= max_retries c -> 0 <= retry_delay c ->
  next_fail w (get_item resource id) (S (Z.to_nat (max_retries c))) ->
  get_by_id resource c id w
  = (Raise TransportError,
     after_attempts w (get_item resource id) (S (Z.to_nat (max_retries c)))
       (backoff c 0 (Z.to_nat (max_retries c)))).
Proof.
  intros Hm Hd Hf. unfold get_item in *.
  set (r := {| rq_method := GET; rq_endpoint := Item resource id |}) in *.
  assert (Hreq : _make_request c GET (Item resource id) 0 w
                 = (Raise TransportError,
                    after_attempts w r (S (Z.to_nat (max_retries c)))
                      (backoff c 0 (Z.to_nat (max_retries c))))).
  { rewrite (make_request_after_faults c GET (Item resource id)
               (Z.to_nat (max_retries c)) 0 w);
      try lia; [| intros i Hi; apply Hf; lia].
    fold r. rewrite _make_request_equation_1.
    unfold try_except, bind at 1, requests_request. fold r.
    cbn [sent after_attempts remote]. rewrite length_app, repeat_length.
    rewrite (Hf (Z.to_nat (max_retries c))) by lia. cbn [is_RequestException].
    destruct (Z_lt_dec _ _); [lia |].
    unfold raise, record_request, after_attempts. cbn.
    rewrite <- app_assoc, <- repeat_cons. reflexivity. }
  unfold get_by_id, try_except, get. unfold bind at 1. unfold bind at 1.
  rewrite Hreq. reflexivity.
Qed.

Lemma analyze_region_raises set_order region_id client now w e w1 :
  get_region client (VInt region_id) w = (Raise e, w1) ->
  analyze_region set_order region_id client now w = (Raise e, w1).
Proof. intros H. unfold analyze_region, bind. now rewrite H. Qed.

Section AnalyzeRegionProperties.

Variable set_order : list value -> list value.
Hypothesis set_order_nil : set_order [] = [].

Lemma step_processes_data_nil client w : step_processes_data client [] w = (Ok [], w).
Proof. reflexivity. Qed.

Lemma step_processes_nil client w : step_processes set_order client [] w = (Ok [], w).
Proof.
  unfold step_processes, list_set, bind, lift. cbn. rewrite set_order_nil. reflexivity.
Qed.

Lemma step_subprocesses_data_nil client w :
  step_subprocesses_data client [] w = (Ok [], w).
Proof. reflexivity. Qed.

Lemma step_subprocesses_nil client w :
  step_subprocesses set_order client [] w = (Ok ([], []), w).
Proof.
  unfold step_subprocesses, list_set, bind, lift. cbn. rewrite set_order_nil. reflexivity.
Qed.

Lemma step_controls_nil client w : step_controls client [] w = (Ok [], w).
Proof. reflexivity. Qed.

Lemma step_controls_data_nil client w : step_controls_data client [] w = (Ok [], w).
Proof. reflexivity. Qed.

Lemma analyze_from_controls_nil client now region_id region_info region_name
    entities processes_data processes subprocesses_data subprocesses w :
  truthy region_info = true ->
  py_item region_info "name" = Ok region_name ->
  exists st,
    analyze_from_controls client now region_id region_info entities processes_data
      processes subprocesses_data subprocesses [] w = (Ok st, w) /\
    st_entities st = entities /\ st_processes_data st = processes_data /\
    st_processes st = processes /\ st_subprocesses_data st = subprocesses_data /\
    st_subprocesses st = subprocesses /\
    st_controls st = [] /\ st_controls_data st = [].
Proof.
  intros Ht Hn. unfold analyze_from_controls, bind.
  rewrite step_controls_data_nil. unfold finish, bind, lift. rewrite Ht, Hn.
  eexists. split; [reflexivity |]. repeat split.
Qed.

Lemma analyze_from_subprocesses_data_nil client now region_id region_info region_name
    entities processes_data processes w :
  truthy region_info = true ->
  py_item region_info "name" = Ok region_name ->
  exists st,
    analyze_from_subprocesses_data set_order client now region_id region_info entities
      processes_data processes [] w = (Ok st, w) /\
    st_entities st = entities /\ st_processes_data st = processes_data /\
    st_processes st = processes /\ st_subprocesses_data st = [] /\
    below_subprocesses_data_empty st.
Proof.
  intros Ht Hn. unfold analyze_from_subprocesses_data, bind.
  rewrite step_subprocesses_nil, step_controls_nil.
  destruct (analyze_from_controls_nil client now region_id region_info region_name
              entities processes_data processes [] [] w Ht Hn)
    as (st & Hrun & He & Hpd & Hp & Hspd & Hsp & Hc & Hcd).
  exists st. unfold below_subprocesses_data_empty. repeat split; assumption.
Qed.

Lemma analyze_from_processes_data_nil client now region_id region_info region_name
    entities w :
  truthy region_info = true ->
  py_item region_info "name" = Ok region_name ->
  exists st,
    analyze_from_processes_data set_order client now region_id region_info entities [] w
    = (Ok st, w) /\
    st_entities st = entities /\ st_processes_data st = [] /\
    below_processes_data_empty st.
Proof.
  intros Ht Hn. unfold analyze_from_processes_data, bind.
  rewrite step_processes_nil, step_subprocesses_data_nil.
  destruct (analyze_from_subprocesses_data_nil client now region_id region_info
              region_name entities [] [] w Ht Hn)
    as (st & Hrun & He & Hpd & Hp & Hspd & Hsp & Hc & Hcd).
  exists st. unfold below_processes_data_empty. repeat split; assumption.
Qed.

Lemma analyze_from_entities_nil client now region_id region_info region_name w :
  truthy region_info = true ->
  py_item region_info "name" = Ok region_name ->
  exists st,
    analyze_from_entities set_order client now region_id region_info [] w = (Ok st, w) /\
    st_entities st = [] /\ below_entities_empty st.
Proof.
  intros Ht Hn. unfold analyze_from_entities, bind.
  rewrite step_processes_data_nil.
  destruct (analyze_from_processes_data_nil client now region_id region_info
              region_name [] w Ht Hn)
    as (st & Hrun & He & Hpd & Hp & Hspd & Hsp & Hc & Hcd).
  exists st. unfold below_entities_empty. repeat split; assumption.
Qed.

(** C7, as the code has it.  When the per-id fetch gives no region
    ([None]: an HTTP error status or an empty array), [analyze_region]
    returns the state as it was created: the region is [None], the four
    child collections and the three junction lists are empty, the summary
    is empty, and no key of the report is an error flag (the failure is
    only logged).  When a level is empty (no entity, no [processes_data]
    link, no [subprocesses_data] link, no control), every level below it
    is empty in the report and the world is left as it is: no further
    fetch is made.  When the fetch of the region raises, [analyze_region]
    raises the same exception and returns no report; a transport failure
    at every attempt is such a case: it is raised once the retries are
    used up. *)
Theorem analyze_region_short_circuits (client : AuditBoardClient) (now : string)
    (region_id : Z) (w : world) :
  (forall region w1,
      get_region client (VInt region_id) w = (Ok region, w1) ->
      truthy region = false ->
      analyze_region set_order region_id client now w
      = (Ok {| st_timestamp := now; st_region_id := region_id; st_region := VNone;
               st_entities := []; st_processes := []; st_subprocesses := [];
               st_controls := []; st_processes_data := [];
               st_subprocesses_data := []; st_controls_data := [];
               st_summary := None |}, w1) /\
      has_error_key (state_value (initial_state now region_id)) = false) /\
  (forall region_info region_name,
      truthy region_info = true ->
      py_item region_info "name" = Ok region_name ->
      (exists st,
          analyze_from_entities set_order client now region_id region_info [] w
          = (Ok st, w) /\
          st_entities st = [] /\ below_entities_empty st) /\
      (forall entities, exists st,
          analyze_from_processes_data set_order client now region_id region_info
            entities [] w = (Ok st, w) /\
          st_entities st = entities /\ st_processes_data st = [] /\
          below_processes_data_empty st) /\
      (forall entities processes_data processes, exists st,
          analyze_from_subprocesses_data set_order client now region_id region_info
            entities processes_data processes [] w = (Ok st, w) /\
          st_entities st = entities /\ st_processes_data st = processes_data /\
          st_processes st = processes /\ st_subprocesses_data st = [] /\
          below_subprocesses_data_empty st) /\
      (forall entities processes_data processes subprocesses_data subprocesses,
          exists st,
            analyze_from_controls client now region_id region_info entities
              processes_data processes subprocesses_data subprocesses [] w = (Ok st, w) /\
            st_entities st = entities /\ st_processes_data st = processes_data /\
            st_processes st = processes /\ st_subprocesses_data st = subprocesses_data /\
            st_subprocesses st = subprocesses /\
            st_controls st = [] /\ st_controls_data st = [])) /\
  (forall e w1,
      get_region client (VInt region_id) w = (Raise e, w1) ->
      analyze_region set_order region_id client now w = (Raise e, w1)) /\
  (0 <= max_retries client -> 0 <= retry_delay client ->
   next_fail w (get_item "regions" (VInt region_id)) (S (Z.to_nat (max_retries client))) ->
   analyze_region set_order region_id client now w
   = (Raise TransportError,
      after_attempts w (get_item "regions" (VInt region_id))
        (S (Z.to_nat (max_retries client)))
        (backoff client 0 (Z.to_nat (max_retries client))))).
Proof.
  split; [| split; [| split]].
  - intros region w1 Hget Hfalsy. split; [| reflexivity].
    unfold analyze_region, bind. rewrite Hget, Hfalsy. reflexivity.
  - intros region_info region_name Ht Hn. split; [| split; [| split]].
    + eapply analyze_from_entities_nil; eassumption.
    + intros. eapply analyze_from_processes_data_nil; eassumption.
    + intros. eapply analyze_from_subprocesses_data_nil; eassumption.
    + intros. eapply analyze_from_controls_nil; eassumption.
  - intros e w1. apply analyze_region_raises.
  - intros Hm Hd Hf. apply analyze_region_raises.
    now apply get_by_id_unreachable.
Qed.

End AnalyzeRegionProperties.

(** C7 as stated fails twice.  With a 404 for the region, the report is
    the state as created and none of its keys is an error flag; and when
    the remote API cannot be reached, the function raises and there is no
    report at all. *)
Lemma analyze_region_sets_no_error_flag :
  let now := "2024-01-01T00:00:00" in
  let run := analyze_region first_seen 15 default_client now
               (fresh_world (scripted [reply 404 None]) []) in
  (exists st,
      fst run = Ok st /\
      has_error_key (state_value st) = false /\
      state_value st
      = VDict [ ("timestamp", VStr now); ("region_id", VInt 15); ("region", VNone);
                ("entities", VList []); ("processes", VList []);
                ("subprocesses", VList []); ("controls", VList []);
                ("processes_data", VList []); ("subprocesses_data", VList []);
                ("controls_data", VList []); ("summary", VDict []) ]) /\
  fst (analyze_region first_seen 15 default_client now (fresh_world unreachable []))
  = Raise TransportError.
Proof.
  cbv zeta. split.
  - eexists. split; [vm_compute; reflexivity |]. split; reflexivity.
  - vm_compute. reflexivity.
Qed.

Lemma analyze_region_short_circuits_witness :
  let now := "2024-01-01T00:00:00" in
  let missing := fresh_world (scripted [reply 404 None]) [] in
  let without_entities :=
    fresh_world
      (scripted [ reply 200 (Some (VDict [("regions", VList [region_15])]));
                  reply 200 (Some (VDict [("entities", VList [])])) ]) [] in
  fst (analyze_region first_seen 15 default_client now missing)
  = Ok (initial_state now 15) /\
  (exists st w',
      analyze_region first_seen 15 default_client now without_entities = (Ok st, w') /\
      below_entities_empty st /\
      sent w' = [ {| rq_method := GET; rq_endpoint := Item "regions" (VInt 15) |};
                  {| rq_method := GET; rq_endpoint := Collection "entities" |} ]) /\
  fst (analyze_region first_seen 15 default_client now (fresh_world unreachable []))
  = Raise TransportError.
Proof.
  cbv zeta.
  set (now := "2024-01-01T00:00:00").
  set (missing := fresh_world (scripted [reply 404 None]) []).
  set (without_entities :=
         fresh_world
           (scripted [ reply 200 (Some (VDict [("regions", VList [region_15])]));
                       reply 200 (Some (VDict [("entities", VList [])])) ]) []).
  split; [| split].
  - destruct (proj1 (analyze_region_short_circuits first_seen eq_refl default_client now
                       15 missing)
                VNone (snd (get_region default_client (VInt 15) missing))
                eq_refl eq_refl) as [Hrun _].
    rewrite Hrun. reflexivity.
  - set (w2 := snd (step_entities default_client 15
                      (snd (get_region default_client (VInt 15) without_entities)))).
    destruct (proj1 (proj1 (proj2 (analyze_region_short_circuits first_seen eq_refl
                                     default_client now 15 w2))
                       (VDict [("id", VInt 15); ("name", VStr "EMEA");
                               ("description", VNone)])
                       (VStr "EMEA") eq_refl eq_refl))
      as (st & Hrun & _ & Hempty).
    exists st, w2. split; [| split; [exact Hempty | reflexivity]].
    rewrite <- Hrun. reflexivity.
  - rewrite (proj2 (proj2 (proj2 (analyze_region_short_circuits first_seen eq_refl
                                    default_client now 15 (fresh_world unreachable []))))
               ltac:(cbn; lia) ltac:(cbn; lia) ltac:(intros i _; reflexivity)).
    reflexivity.
Defined.

(** ** The restoration verifier (verification/verify_restoration.py) *)

Lemma compare_key_fields_spec o r fields :
  forall acc, exists m d,
    compare_key_fields (VDict o) (VDict r) fields acc
    = Ok ((fst acc ++ m)%list, (snd acc ++ d)%list) /\
    map line_field d
    = filter (fun f => negb (agree (VDict o) (VDict r) f))
        (filter (fun f => has_key f o) fields) /\
    map line_field m
    = filter (agree (VDict o) (VDict r)) (filter (fun f => has_key f o) fields).
Proof.
  induction fields as [| f rest IH]; intros acc; cbn [compare_key_fields filter].
  - exists [], []. rewrite !app_nil_r. destruct acc. repeat split.
  - cbn [py_contains py_get]. unfold agree, field in *.
    destruct (has_key f o) eqn:Hk; cbn [filter].
    + destruct (py_eq _ _) eqn:Heq; cbn [negb];
        match goal with
        | |- context [compare_key_fields _ _ rest ?a] =>
            destruct (IH a) as (m & d & Hrun & Hd & Hm)
        end; rewrite Hrun; cbn [fst snd].
      * exists (Same f match lookup f o with Some v => v | None => VNone end :: m), d.
        rewrite <- app_assoc. cbn. rewrite Hd, Hm. repeat split.
      * exists m, (Changed f match lookup f o with Some v => v | None => VNone end
                     match lookup f r with Some v => v | None => VNone end :: d).
        rewrite <- app_assoc. cbn. rewrite Hd, Hm. repeat split.
    + destruct (IH acc) as (m & d & Hrun & Hd & Hm). exists m, d. repeat split; assumption.
Qed.

Lemma filter_nil_iff {A} (f : A -> bool) (l : list A) :
  filter f l = [] <-> forall x, In x l -> f x = false.
Proof.
  induction l as [| a l IH]; cbn.
  - split; [intros _ x [] | reflexivity].
  - destruct (f a) eqn:Ha.
    + split; [discriminate |]. intros H. specialize (H a (or_introl eq_refl)). congruence.
    + rewrite IH. split.
      * intros H x [<- | Hx]; [assumption | now apply H].
      * intros H x Hx. apply H. now right.
Qed.

(** What [compare_entity] returns on two records. *)
Lemma compare_entity_spec (original restored : value) :
  is_dict original = true -> is_dict restored = true -> loggable original = true ->
  exists matches differences,
    compare_entity original restored = Ok (matches, differences) /\
    map line_field differences
    = filter (fun f => negb (agree original restored f)) (compared_fields original) /\
    map line_field matches
    = filter (agree original restored) (compared_fields original) /\
    (agree original restored "name" = false -> In NameChanged differences).
Proof.
  destruct original as [| | | | | o]; try discriminate.
  destruct restored as [| | | | | r]; try discriminate.
  intros _ _ Hlog. cbn in Hlog.
  unfold compare_entity, compared_fields. cbn [py_get filter].
  set (oid := match lookup "id" o with Some x => x | None => VNone end).
  set (rid := match lookup "id" r with Some x => x | None => VNone end).
  set (oname := match lookup "name" o with Some x => x | None => VNone end).
  set (rname := match lookup "name" r with Some x => x | None => VNone end).
  assert (Hid : agree (VDict o) (VDict r) "id" = py_eq oid rid) by reflexivity.
  assert (Hname : agree (VDict o) (VDict r) "name" = py_eq oname rname) by reflexivity.
  rewrite Hid, Hname. unfold py_slice. rewrite Hlog.
  destruct (py_eq oid rid), (py_eq oname rname); cbn [negb fst snd app];
    match goal with
    | |- context [compare_key_fields _ _ key_fields ?a] =>
        destruct (compare_key_fields_spec o r key_fields a) as (m & d & Hrun & Hd & Hm)
    end; rewrite Hrun; cbn [fst snd app]; do 2 eexists;
    (split; [reflexivity |]); cbn [map line_field]; rewrite Hd, Hm;
    repeat split; try discriminate; intros _; cbn; auto.
Qed.

Lemma heading_get original :
  is_dict original = true ->
  exists uid,
    py_get original "uid" (VStr "N/A") = Ok uid /\
    py_get original "name" uid = Ok (heading original) /\
    py_get original "id" VNone = Ok (field original "id").
Proof.
  destruct original as [| | | | | d]; try discriminate. intros _. cbn.
  eexists. split; [reflexivity |]. split; [| reflexivity].
  destruct (lookup "name" d); reflexivity.
Qed.

(** One record that is found again: its entry and the verdict. *)
Lemma verify_one_found (getter : value -> M value) (original restored : value)
    (results : Verification) (w w1 : world) :
  loggable original = true ->
  sliceable (heading original) = true ->
  getter (field original "id") w = (Ok restored, w1) ->
  is_dict restored = true -> truthy restored = true ->
  exists matches differences,
    compare_entity original restored = Ok (matches, differences) /\
    verify_one getter original results w
    = (Ok {| perfect_restoration :=
               match differences with [] => perfect_restoration results | _ => false end;
             ver_error := ver_error results;
             ver_entity_type := ver_entity_type results;
             ver_entities :=
               ver_entities results ++
               [ {| er_id := field original "id";
                    er_status := match differences with [] => PERFECT | _ => PARTIAL end;
                    er_matches := matches; er_differences := differences;
                    er_original := Some original; er_restored := Some restored |} ] |},
       w1).
Proof.
  intros Hlog Hhead Hget Hdict Htruthy.
  assert (Hd : is_dict original = true) by (destruct original; try discriminate; reflexivity).
  destruct (compare_entity_spec original restored Hd Hdict Hlog)
    as (matches & differences & Hcmp & _).
  destruct (heading_get original Hd) as (uid & Huid & Hname & Hid).
  exists matches, differences. split; [assumption |].
  unfold verify_one, bind, lift. rewrite Hid, Huid, Hname.
  unfold py_slice. rewrite Hhead, Hget, Htruthy. cbn [negb]. rewrite Hcmp. reflexivity.
Qed.

(** C9, as the code has it.  A record that is found again is reported
    PERFECT exactly when it agrees with the original on [id], on [name]
    and on every key field ([uid], [region_id], [entity_type_id],
    [process_id], [subprocess_id]) that the original record has;
    otherwise it is PARTIAL, and [differences] has one line for each
    compared field that differs.  A name mismatch puts the name line into
    [differences], sets [perfect_restoration] to [False] and ends the
    process with exit code 1. *)
Theorem deep_verification (entity_type : string)
    (getter : AuditBoardClient -> value -> M value) (client : AuditBoardClient)
    (original restored : value) (w w1 : world) :
  getter_map entity_type = Some getter ->
  loggable original = true ->
  sliceable (heading original) = true ->
  getter client (field original "id") w = (Ok restored, w1) ->
  is_dict restored = true -> truthy restored = true ->
  exists er perfect,
    verify_restoration entity_type [original] client w
    = (Ok {| perfect_restoration := perfect; ver_error := None;
             ver_entity_type := Some entity_type; ver_entities := [er] |}, w1) /\
    er_id er = field original "id" /\
    (er_status er = PERFECT <->
     forall f, In f (compared_fields original) -> agree original restored f = true) /\
    (er_status er = PARTIAL <->
     exists f, In f (compared_fields original) /\ agree original restored f = false) /\
    map line_field (er_differences er)
    = filter (fun f => negb (agree original restored f)) (compared_fields original) /\
    (perfect = true <-> er_status er = PERFECT) /\
    (agree original restored "name" = false ->
     In NameChanged (er_differences er) /\ er_differences er <> [] /\
     perfect = false /\
     exit_code (fst (verify_main entity_type [original] client w)) = 1).
Proof.
  intros Hmap Hlog Hhead Hget Hdict Htruthy.
  assert (Hd : is_dict original = true) by (destruct original; try discriminate; reflexivity).
  destruct (compare_entity_spec original restored Hd Hdict Hlog)
    as (matches & differences & Hcmp & Hdiff & _ & Hname).
  destruct (verify_one_found (getter client) original restored
              {| perfect_restoration := true; ver_error := None;
                 ver_entity_type := Some entity_type; ver_entities := [] |}
              w w1 Hlog Hhead Hget Hdict Htruthy)
    as (matches' & differences' & Hcmp' & Hone).
  rewrite Hcmp in Hcmp'. injection Hcmp' as <- <-.
  assert (Hrun : verify_restoration entity_type [original] client w
                 = (Ok {| perfect_restoration :=
                            match differences with [] => true | _ => false end;
                          ver_error := None; ver_entity_type := Some entity_type;
                          ver_entities :=
                            [ {| er_id := field original "id";
                                 er_status :=
                                   match differences with [] => PERFECT | _ => PARTIAL end;
                                 er_matches := matches; er_differences := differences;
                                 er_original := Some original;
                                 er_restored := Some restored |} ] |}, w1)).
  { unfold verify_restoration. rewrite Hmap. cbn [verify_loop]. unfold bind.
    rewrite Hone. reflexivity. }
  assert (Hnil : differences = [] <->
                 forall f, In f (compared_fields original) ->
                           agree original restored f = true).
  { split.
    - intros -> f Hf. cbn [map] in Hdiff. symmetry in Hdiff.
      rewrite filter_nil_iff in Hdiff. specialize (Hdiff f Hf).
      now apply negb_false_iff in Hdiff.
    - intros Hall.
      assert (Hf : filter (fun f => negb (agree original restored f))
                     (compared_fields original) = []).
      { apply filter_nil_iff. intros f Hf. apply negb_false_iff. now apply Hall. }
      rewrite Hf in Hdiff. now apply map_eq_nil in Hdiff. }
  do 2 eexists. split; [exact Hrun |]. cbn [er_id er_status er_differences].
  split; [reflexivity |]. split; [| split; [| split; [exact Hdiff | split]]].
  - rewrite <- Hnil. destruct differences; split; congruence.
  - split.
    + intros Hst. destruct differences as [| l ls]; [discriminate |].
      assert (Hin : In (line_field l)
                      (filter (fun f => negb (agree original restored f))
                         (compared_fields original)))
        by (rewrite <- Hdiff; now left).
      apply filter_In in Hin. destruct Hin as [Hin Hneg].
      exists (line_field l). split; [assumption | now apply negb_true_iff].
    + intros (f & Hf & Hneq). destruct differences; [| reflexivity].
      rewrite (proj1 Hnil eq_refl f Hf) in Hneq. discriminate.
  - destruct differences; split; congruence.
  - intros Hmis. specialize (Hname Hmis).
    destruct differences as [| l ls]; [contradiction |].
    repeat split; try assumption; try discriminate.
    unfold verify_main, bind. rewrite Hrun. reflexivity.
Qed.

(** C9 as stated fails: a key field that the original record lacks is
    not compared.  The restored record differs from the original on the
    identity field [region_id], and the verdict is PERFECT. *)
Lemma perfect_despite_differing_identity_field :
  let original := VDict [("id", VInt 7); ("name", VStr "X")] in
  let restored := VDict [("id", VInt 7); ("name", VStr "X"); ("region_id", VInt 15)] in
  let api := scripted [reply 200 (Some (VDict [("controls", VList [restored])]))] in
  let run := verify_main "controls" [original] default_client (fresh_world api []) in
  (exists r, fst run = Ok r /\ perfect_restoration r = true /\
             map er_status (ver_entities r) = [PERFECT] /\
             map er_differences (ver_entities r) = [[]]) /\
  exit_code (fst run) = 0 /\
  In "region_id" identity_fields /\
  agree original restored "region_id" = false.
Proof.
  cbv zeta. split; [| split; [| split]].
  - eexists. split; [vm_compute; reflexivity |]. repeat split.
  - reflexivity.
  - cbn. tauto.
  - reflexivity.
Qed.

(** The scenario of the specification: [{id: 7, name: "X"}] is found
    again as [{id: 7, name: "Y"}]. *)
Lemma deep_verification_witness :
  let original := VDict [("id", VInt 7); ("name", VStr "X")] in
  let restored := VDict [("id", VInt 7); ("name", VStr "Y")] in
  let api := scripted [reply 200 (Some (VDict [("controls", VList [restored])]))] in
  let w := fresh_world api [] in
  exists er,
    fst (verify_restoration "controls" [original] default_client w)
    = Ok {| perfect_restoration := false; ver_error := None;
            ver_entity_type := Some "controls"; ver_entities := [er] |} /\
    er_status er = PARTIAL /\
    er_differences er = [NameChanged] /\
    exit_code (fst (verify_main "controls" [original] default_client w)) = 1.
Proof.
  cbv zeta.
  set (original := VDict [("id", VInt 7); ("name", VStr "X")]).
  set (restored := VDict [("id", VInt 7); ("name", VStr "Y")]).
  set (w := fresh_world
              (scripted [reply 200 (Some (VDict [("controls", VList [restored])]))]) []).
  destruct (deep_verification "controls" get_control default_client original restored
              w (snd (get_control default_client (VInt 7) w))
              eq_refl eq_refl eq_refl eq_refl eq_refl eq_refl)
    as (er & perfect & Hrun & _ & _ & Hpartial & Hdiff & _ & Hname).
  destruct (Hname eq_refl) as (Hin & _ & -> & Hexit).
  exists er. rewrite Hrun. split; [reflexivity |]. split; [| split; [| exact Hexit]].
  - apply Hpartial. exists "name". split; [cbn; tauto | reflexivity].
  - pose proof Hrun as E. vm_compute in E. injection E as <-. reflexivity.
Defined.

(** ** Target selection (deletion/delete_controls.py, discovery/search_entities.py) *)

Lemma fetch_found_returns (getter : value -> M value) (ids : list value) :
  forall found w result w',
    fetch_found getter ids found w = (Ok result, w') ->
    exists fetched,
      result = (found ++ fetched)%list /\
      Forall (fun x => truthy x = true) fetched /\
      (List.length fetched <= List.length ids)%nat.
Proof.
  induction ids as [| id rest IH]; intros found w result w'; cbn.
  - unfold ret. intros H. injection H as <- _. exists []. rewrite app_nil_r.
    split; [reflexivity |]. split; [constructor | cbn; lia].
  - unfold bind at 1. destruct (getter id w) as [[x | e] w1]; [| discriminate].
    intros H. apply IH in H. destruct H as (fetched & -> & Hall & Hlen).
    destruct (truthy x) eqn:Hx.
    + exists (x :: fetched). rewrite <- app_assoc.
      split; [reflexivity |]. split; [now constructor | cbn; lia].
    + exists fetched. split; [reflexivity |]. split; [assumption | lia].
Qed.

Lemma filterM_total {A} (keep : A -> result bool) (f : A -> bool) (xs : list A) :
  Forall (fun x => keep x = Ok (f x)) xs -> filterM keep xs = Ok (filter f xs).
Proof.
  induction 1 as [| x r Hx _ IH]; cbn; [reflexivity |]. now rewrite Hx, IH.
Qed.

(** A loop whose test can fail in one way only fails in that way as soon
    as one element fails. *)
Lemma filterM_raises {A} (keep : A -> result bool) (e : exn) (xs : list A) :
  Forall (fun x => (exists b, keep x = Ok b) \/ keep x = Raise e) xs ->
  Exists (fun x => keep x = Raise e) xs ->
  filterM keep xs = Raise e.
Proof.
  induction 1 as [| x r Hx Hr IH]; intros Hex; [inversion Hex |]. cbn.
  destruct Hx as [[b Hb] | Hb]; rewrite Hb; [| reflexivity].
  inversion Hex as [? ? Hx' | ? ? Hr']; subst; [congruence |].
  now rewrite (IH Hr').
Qed.

Lemma py_contains_text (s p : string) : py_contains (VStr s) p = Ok (contains_text p s).
Proof. reflexivity. Qed.

Lemma matches_pattern_text pattern (uid name : string) :
  matches_pattern pattern false (VStr uid) (VStr name) =
    Ok (contains_text (lower pattern) (lower uid) || contains_text (lower pattern) (lower name)) /\
  matches_pattern pattern true (VStr uid) (VStr name) =
    Ok (contains_text pattern uid || contains_text pattern name).
Proof.
  cbv beta iota delta [matches_pattern py_lower]. rewrite !py_contains_text.
  split.
  - destruct (contains_text (lower pattern) (lower uid)); reflexivity.
  - destruct (contains_text pattern uid); reflexivity.
Qed.

Lemma record_matches_text pattern x :
  has_text_uid_and_name x = true ->
  record_matches pattern false x = Ok (occurs_ignoring_case pattern x) /\
  record_matches pattern true x = Ok (occurs pattern x).
Proof.
  unfold has_text_uid_and_name, occurs_ignoring_case, occurs, text_field, record_matches.
  destruct x as [| | | | | d]; try discriminate. cbv beta iota delta [py_get].
  destruct (lookup "uid" d) as [[| | | uid | |] |]; try discriminate;
    destruct (lookup "name" d) as [[| | | name | |] |]; try discriminate; intros _;
    apply matches_pattern_text.
Qed.

Lemma record_matches_no_text pattern x :
  has_text_uid_and_name x = false ->
  record_matches pattern false x = Raise AttributeError.
Proof.
  unfold has_text_uid_and_name, text_field, record_matches.
  destruct x as [| | | | | d]; try reflexivity. cbn [py_get].
  destruct (lookup "uid" d) as [[| | | uid | |] |]; try reflexivity;
    destruct (lookup "name" d) as [[| | | name | |] |]; try reflexivity; discriminate.
Qed.

Lemma contains_empty s : contains_text "" s = true.
Proof. unfold contains_text. destruct s; reflexivity. Qed.

Lemma get_by_id_answered (resource : string) (c : AuditBoardClient) (id : value) (w : world) :
  missing_or_listed resource (remote w (List.length (sent w)) (get_item resource id)) = true ->
  exists x, get_by_id resource c id w = (Ok x, record_request (get_item resource id) w).
Proof.
  unfold missing_or_listed, get_item.
  destruct (remote w _ _) as [| resp] eqn:Hr; [discriminate |].
  intros H. unfold get_by_id, try_except, get. unfold bind at 1. unfold bind at 1.
  destruct (Z.leb_spec 400 (status_code resp)) as [H4 | H4].
  - apply Z.ltb_lt in H.
    rewrite (make_request_answer c GET (Item resource id) 0 w resp Hr H).
    unfold bind, raise_for_status.
    replace (400 <=? status_code resp) with true by (symmetry; now apply Z.leb_le).
    replace (status_code resp <? 600) with true by (symmetry; apply Z.ltb_lt; lia).
    cbn. eexists. reflexivity.
  - rewrite (make_request_answer c GET (Item resource id) 0 w resp Hr ltac:(lia)).
    unfold bind, raise_for_status, json.
    replace (400 <=? status_code resp) with false by (symmetry; apply Z.leb_gt; lia).
    cbn [andb]. unfold ret at 1.
    destruct (body resp) as [[| | | | | d] |]; try discriminate.
    unfold ret at 1, lift, py_get.
    destruct (lookup resource d) as [[| | | | l |] |]; try discriminate.
    + destruct l as [| x l]; cbn; eexists; reflexivity.
    + cbn. eexists. reflexivity.
Qed.

Lemma fetch_found_answered (resource : string) (c : AuditBoardClient) (ids : list value) :
  forall found w,
    (forall n r, missing_or_listed resource (remote w n r) = true) ->
    exists result w',
      fetch_found (get_by_id resource c) ids found w = (Ok result, w') /\
      remote w' = remote w /\
      sent w' = (sent w ++ map (get_item resource) ids)%list /\
      slept w' = slept w /\ printed w' = printed w /\ stdin w' = stdin w.
Proof.
  induction ids as [| id rest IH]; intros found w Hw; cbn [fetch_found map].
  - exists found, w. rewrite app_nil_r. unfold ret. repeat split.
  - destruct (get_by_id_answered resource c id w (Hw _ _)) as [x Hx].
    unfold bind. rewrite Hx.
    destruct (IH (if truthy x then (found ++ [x])%list else found)
                 (record_request (get_item resource id) w) Hw)
      as (result & w' & Hrun & Hrem & Hsent & Hslept & Hpr & Hin).
    exists result, w'. rewrite Hrun, Hrem, Hsent, Hslept, Hpr, Hin. cbn.
    rewrite <- app_assoc. repeat split.
Qed.

(** The controls a list of ids selects.  Whenever the selection
    returns, it holds at most one record per id and none of them is
    [None] or empty.  When the remote API answers every request with a
    record or a 4xx, the selection does return, after exactly one GET
    per id, in the order of the ids, and without a sleep: a control that
    is missing is skipped and does not end the run. *)
Theorem get_controls_by_ids_skips_missing (control_ids : list value)
    (client : AuditBoardClient) (w : world) :
  let run := get_controls_by_ids control_ids client w in
  (forall controls, fst run = Ok controls ->
     Forall (fun ctrl => truthy ctrl = true) controls /\
     (List.length controls <= List.length control_ids)%nat) /\
  ((forall n r, missing_or_listed "controls" (remote w n r) = true) ->
   (exists controls, fst run = Ok controls) /\
   sent (snd run) = (sent w ++ map (get_item "controls") control_ids)%list /\
   slept (snd run) = slept w).
Proof.
  cbv zeta. split.
  - intros controls H.
    destruct (get_controls_by_ids control_ids client w) as [r w'] eqn:Hrun.
    cbn in H. subst r. unfold get_controls_by_ids in Hrun.
    apply fetch_found_returns in Hrun.
    destruct Hrun as (fetched & -> & Hall & Hlen). cbn. now split.
  - intros Hw. unfold get_controls_by_ids, get_control.
    destruct (fetch_found_answered "controls" client control_ids [] w Hw)
      as (result & w' & Hrun & _ & Hsent & Hslept & _).
    rewrite Hrun. cbn. split; [now exists result |]. now split.
Qed.

Lemma get_controls_by_ids_skips_missing_witness :
  let w := fresh_world knows_control_100 [] in
  let run := get_controls_by_ids [VInt 7; VInt 100] default_client w in
  (exists controls, fst run = Ok controls) /\
  sent (snd run) = [get_item "controls" (VInt 7); get_item "controls" (VInt 100)] /\
  slept (snd run) = [].
Proof.
  cbv zeta.
  refine (proj2 (get_controls_by_ids_skips_missing [VInt 7; VInt 100] default_client
                   (fresh_world knows_control_100 [])) _).
  intros n r. unfold knows_control_100, fresh_world. cbn [remote].
  destruct (rq_endpoint r) as [res | res [| | z | | |]]; try reflexivity.
  destruct z as [| p | p]; try reflexivity.
  repeat (destruct p as [p | p |]; try reflexivity).
Defined.

Lemma forallb_Forall_eq {A} (p : A -> bool) (xs : list A) :
  forallb p xs = true -> Forall (fun x => p x = true) xs.
Proof. intros H. apply Forall_forall. now apply forallb_forall. Qed.

Lemma forallb_false_Exists {A} (p : A -> bool) (xs : list A) :
  forallb p xs = false -> Exists (fun x => p x = false) xs.
Proof.
  induction xs as [| x xs IH]; cbn; [discriminate |].
  destruct (p x) eqn:Hx; cbn; intros H; [right; now apply IH | now left].
Qed.

(** The controls a pattern selects.  When every control of the
    environment has text (or nothing) as its uid and as its name, the
    case-sensitive selection is the sub-list, in the order of the API's
    answer, of the controls whose uid or name contains the pattern; and
    when the pattern and these texts are ASCII, the case-insensitive
    selection is the sub-list of the controls whose lowered uid or name
    contains the lowered pattern.  ([lower] is [str.lower()] on ASCII
    text; Python lowers the letters of other scripts too.)  When one
    control has something else than text there, [null] for instance, the
    case-insensitive search selects nothing: it ends in an
    [AttributeError]. *)
Theorem get_controls_by_pattern_selects (pattern : string) (client : AuditBoardClient)
    (w w' : world) (all_controls : list value) :
  get_controls client w = (Ok (VList all_controls), w') ->
  (forallb has_text_uid_and_name all_controls = true ->
   get_controls_by_pattern pattern client true w
   = (Ok (filter (occurs pattern) all_controls), w') /\
   (is_ascii pattern = true ->
    forallb has_ascii_uid_and_name all_controls = true ->
    get_controls_by_pattern pattern client false w
    = (Ok (filter (occurs_ignoring_case pattern) all_controls), w'))) /\
  (forallb has_text_uid_and_name all_controls = false ->
   get_controls_by_pattern pattern client false w = (Raise AttributeError, w')).
Proof.
  intros Hget. unfold get_controls_by_pattern, bind. rewrite Hget. unfold lift. cbn [py_iter].
  split.
  - intros Hall. apply forallb_Forall_eq in Hall. split.
    + rewrite (filterM_total _ (occurs pattern)); [reflexivity |].
      eapply Forall_impl; [| exact Hall]. intros x Hx. cbv beta in Hx.
      now destruct (record_matches_text pattern x Hx).
    + intros _ _.
      rewrite (filterM_total _ (occurs_ignoring_case pattern)); [reflexivity |].
      eapply Forall_impl; [| exact Hall]. intros x Hx. cbv beta in Hx.
      now destruct (record_matches_text pattern x Hx).
  - intros Hex. apply forallb_false_Exists in Hex.
    rewrite (filterM_raises _ AttributeError); [reflexivity | |].
    + apply Forall_forall. intros x _.
      destruct (has_text_uid_and_name x) eqn:Hx.
      * left. destruct (record_matches_text pattern x Hx) as [-> _]. now eexists.
      * right. now apply record_matches_no_text.
    + eapply Exists_impl; [| exact Hex]. intros x Hx. now apply record_matches_no_text.
Qed.

Lemma get_controls_by_pattern_selects_witness :
  let w := fresh_world (serves "controls" three_controls) [] in
  let w' := record_request {| rq_method := GET; rq_endpoint := Collection "controls" |} w in
  get_controls_by_pattern "Cc-1" default_client false w
  = (Ok [ VDict [("id", VInt 100); ("uid", VStr "CC-1"); ("name", VStr "Access review")];
          VDict [("id", VInt 102); ("uid", VStr "IT-9"); ("name", VStr "Follows cc-1")] ], w') /\
  get_controls_by_pattern "Cc-1" default_client true w = (Ok [], w') /\
  get_controls_by_pattern "Cc-1" default_client false
    (fresh_world (serves "controls" (three_controls ++ [nameless_control])) [])
  = (Raise AttributeError,
     record_request {| rq_method := GET; rq_endpoint := Collection "controls" |}
       (fresh_world (serves "controls" (three_controls ++ [nameless_control])) [])).
Proof.
  cbv zeta.
  pose proof (get_controls_by_pattern_selects "Cc-1" default_client
                (fresh_world (serves "controls" three_controls) []) _ three_controls
                eq_refl) as [Hsel _].
  pose proof (get_controls_by_pattern_selects "Cc-1" default_client
                (fresh_world (serves "controls" (three_controls ++ [nameless_control])) []) _
                (three_controls ++ [nameless_control]) eq_refl) as [_ Hraise].
  destruct (Hsel eq_refl) as [Hsensitive Hignoring].
  split; [exact (Hignoring eq_refl eq_refl) |]. split; [exact Hsensitive |].
  exact (Hraise eq_refl).
Defined.

(** Called with the empty pattern, the selection returns every control,
    in either mode: the empty text occurs in every uid.  ([main] does not
    get there: it takes an empty [--pattern] for a missing one.) *)
Theorem empty_pattern_selects_every_control (client : AuditBoardClient)
    (case_sensitive : bool) (w w' : world) (all_controls : list value) :
  get_controls client w = (Ok (VList all_controls), w') ->
  forallb has_text_uid_and_name all_controls = true ->
  get_controls_by_pattern "" client case_sensitive w = (Ok all_controls, w').
Proof.
  intros Hget Hall. unfold get_controls_by_pattern, bind. rewrite Hget. unfold lift.
  cbn [py_iter]. apply forallb_Forall_eq in Hall.
  rewrite (filterM_total _ (fun _ => true)).
  - assert (Hf : forall xs : list value, filter (fun _ => true) xs = xs)
      by (induction xs; cbn; congruence).
    now rewrite Hf.
  - eapply Forall_impl; [| exact Hall]. intros x Hx. cbv beta in Hx.
    destruct (record_matches_text "" x Hx) as [H1 H2].
    unfold occurs_ignoring_case, occurs, has_text_uid_and_name in *.
    destruct (text_field x "uid"), (text_field x "name"); try discriminate.
    cbn [lower] in H1. rewrite !contains_empty in *. now destruct case_sensitive.
Qed.

Lemma empty_pattern_selects_every_control_witness :
  get_controls_by_pattern "" default_client false
    (fresh_world (serves "controls" three_controls) [])
  = (Ok three_controls,
     record_request {| rq_method := GET; rq_endpoint := Collection "controls" |}
       (fresh_world (serves "controls" three_controls) [])).
Proof.
  exact (empty_pattern_selects_every_control default_client false
           (fresh_world (serves "controls" three_controls) []) _ three_controls
           eq_refl eq_refl).
Defined.

Lemma entity_matches_searchable pattern case_sensitive x :
  searchable_entity x = true ->
  entity_matches pattern case_sensitive x = Ok (entity_occurs pattern case_sensitive x).
Proof.
  unfold searchable_entity, entity_occurs, entity_uid_text, text_field, entity_matches.
  destruct x as [| | | | | d]; try discriminate. cbv beta iota delta [py_get].
  destruct (lookup "name" d) as [[| | | name | |] |];
    try (destruct (lookup "uid" d) as [v |]; [destruct (truthy v); [destruct v |] |];
         discriminate).
  - destruct (lookup "uid" d) as [v |].
    + destruct (truthy v) eqn:Hv.
      * destruct v; try discriminate. intros _.
        destruct (matches_pattern_text pattern s name). now destruct case_sensitive.
      * intros _. destruct (matches_pattern_text pattern "" name). now destruct case_sensitive.
    + intros _. cbn [truthy String.eqb negb].
      destruct (matches_pattern_text pattern "" name). now destruct case_sensitive.
  - destruct (lookup "uid" d) as [v |].
    + destruct (truthy v) eqn:Hv.
      * destruct v; try discriminate. intros _.
        destruct (matches_pattern_text pattern s ""). now destruct case_sensitive.
      * intros _. destruct (matches_pattern_text pattern "" ""). now destruct case_sensitive.
    + intros _. cbn [truthy String.eqb negb].
      destruct (matches_pattern_text pattern "" ""). now destruct case_sensitive.
Qed.

(** The entity search reads a uid that is [null] (or [0], or
    empty) as the empty text, so an entity without a uid is searched by
    its name and does not end the search: it selects, in the order of the
    API's answer, the entities whose uid (read so) or name contains the
    pattern, the case-insensitive search comparing the lowered texts when
    the pattern, the uids and the names are ASCII text.  ([lower] is
    [str.lower()] on ASCII text; Python lowers the letters of other
    scripts too.)  The process search has no such guard: one process
    whose uid is [null] ends a case-insensitive search in an
    [AttributeError]. *)
Theorem search_entities_tolerates_null_uid (client : AuditBoardClient) (pattern : string)
    (case_sensitive : bool) (w w' : world) (records : list value) :
  forallb searchable_entity records = true ->
  (get_entities client w = (Ok (VList records), w') ->
   (case_sensitive = false ->
    is_ascii pattern = true /\ forallb ascii_entity records = true) ->
   search_entities client pattern case_sensitive w
   = (Ok (filter (entity_occurs pattern case_sensitive) records), w')) /\
  (get_processes client w = (Ok (VList records), w') ->
   forallb has_text_uid_and_name records = false ->
   search_processes client pattern false w = (Raise AttributeError, w')).
Proof.
  intros Hall. split.
  - intros Hget _. unfold search_entities, bind. rewrite Hget. unfold lift.
    cbn [py_len py_iter].
    apply forallb_Forall_eq in Hall.
    rewrite (filterM_total _ (entity_occurs pattern case_sensitive)); [reflexivity |].
    eapply Forall_impl; [| exact Hall]. intros x Hx.
    now apply entity_matches_searchable.
  - intros Hget Hex. unfold search_processes, bind. rewrite Hget. unfold lift.
    cbn [py_len py_iter]. apply forallb_false_Exists in Hex.
    rewrite (filterM_raises _ AttributeError); [reflexivity | |].
    + apply Forall_forall. intros x _.
      destruct (has_text_uid_and_name x) eqn:Hx.
      * left. destruct (record_matches_text pattern x Hx) as [-> _]. now eexists.
      * right. now apply record_matches_no_text.
    + eapply Exists_impl; [| exact Hex]. intros x Hx. now apply record_matches_no_text.
Qed.

Lemma search_entities_tolerates_null_uid_witness :
  search_entities default_client "par" false (fresh_world (serves "entities" two_entities) [])
  = (Ok [VDict [("id", VInt 25); ("uid", VNone); ("name", VStr "Paris")]],
     record_request {| rq_method := GET; rq_endpoint := Collection "entities" |}
       (fresh_world (serves "entities" two_entities) [])) /\
  search_processes default_client "par" false
    (fresh_world (serves "processes" two_entities) [])
  = (Raise AttributeError,
     record_request {| rq_method := GET; rq_endpoint := Collection "processes" |}
       (fresh_world (serves "processes" two_entities) [])).
Proof.
  split.
  - exact (proj1 (search_entities_tolerates_null_uid default_client "par" false
                    (fresh_world (serves "entities" two_entities) []) _ two_entities eq_refl)
             eq_refl (fun _ => conj eq_refl eq_refl)).
  - exact (proj2 (search_entities_tolerates_null_uid default_client "par" false
                    (fresh_world (serves "processes" two_entities) []) _ two_entities eq_refl)
             eq_refl eq_refl).
Defined.

(** ** The drivers by id (deletion/delete_entities.py and its two siblings) *)

Lemma fetch_found_only_GET resource client ids :
  forall found, stays (only_requests is_GET) (fetch_found (get_by_id resource client) ids found).
Proof.
  induction ids as [| id rest IH]; intros found; cbn [fetch_found].
  - apply stays_ret. typeclasses eauto.
  - apply stays_bind; [typeclasses eauto | apply get_by_id_only_GET | intros x; apply IH].
Qed.

Lemma bulk_delete_loop_dry_run_world deleter uid_default client config total entities :
  forall i results,
    stays (only_requests is_GET)
      (bulk_delete_loop deleter uid_default client config true total i entities results).
Proof.
  induction entities as [| x rest IH]; intros i results; cbn [bulk_delete_loop].
  - apply stays_ret. typeclasses eauto.
  - apply stays_bind; [typeclasses eauto | | intros r; apply IH].
    unfold bulk_delete_one. repeat stays_step.
Qed.

Lemma delete_by_ids_dry_run item_type resource deleter uid_default ids client config now :
  stays (only_requests is_GET)
    (delete_by_ids item_type (get_by_id resource) deleter uid_default ids client config
       true now).
Proof.
  unfold delete_by_ids.
  apply stays_bind; [typeclasses eauto | apply fetch_found_only_GET |].
  intros entities. destruct entities as [| x rest].
  - apply stays_ret. typeclasses eauto.
  - cbn [negb]. apply stays_bind; [typeclasses eauto | |].
    + apply stays_ret. typeclasses eauto.
    + intros _. apply bulk_delete_loop_dry_run_world.
Qed.

(** In dry-run the three drivers by id only read: every request
    they send is a GET (the look-up of the ids), nothing is printed or
    read at the console, and no DELETE leaves the client, whatever the
    ids, the records and the answers of the remote API. *)
Theorem drivers_by_id_only_read_in_dry_run (ids : list value) (client : AuditBoardClient)
    (config : Config) (now : string) (w : world) :
  only_requests is_GET w (snd (delete_entities_bulk ids client config true now w)) /\
  only_requests is_GET w (snd (delete_processes_bulk ids client config true now w)) /\
  only_requests is_GET w (snd (delete_subprocesses_bulk ids client config true now w)).
Proof.
  split; [| split]; apply delete_by_ids_dry_run.
Qed.

Lemma confirm_deletion_declined item_type count w :
  hd_error (stdin w) <> Some (Line (phrase count item_type)) ->
  exists w',
    confirm_deletion {| dry_run := false |} item_type count None false w = (Ok false, w') /\
    sent w' = sent w.
Proof.
  unfold confirm_deletion. cbn [dry_run].
  change ("DELETE " ++ str_of_Z count ++ " " ++ upper item_type)
    with (phrase count item_type).
  generalize (phrase count item_type) as ph. intros ph H.
  unfold bind, print, try_except, input, ret; cbn.
  destruct (stdin w) as [| [s | |] rest]; cbn; try (eexists; split; reflexivity).
  destruct (String.eqb_spec s ph) as [-> | Hne].
  - now contradiction H.
  - cbn. eexists; split; reflexivity.
Qed.

Lemma only_requests_sends_only P w w' : only_requests P w w' -> sends_only P w w'.
Proof. intros (_ & _ & _ & _ & H). exact H. Qed.

Lemma delete_by_ids_declined item_type resource deleter uid_default ids client config now w :
  (forall found w1,
     fetch_found (get_by_id resource client) ids [] w = (Ok found, w1) ->
     hd_error (stdin w)
     <> Some (Line (phrase (Z.of_nat (List.length found)) item_type))) ->
  let run := delete_by_ids item_type (get_by_id resource) deleter uid_default ids client
               config false now w in
  sends_only is_GET w (snd run) /\
  (forall results, fst run = Ok results ->
     total results = 0 /\ bulk_deleted results = [] /\ bulk_failed results = []).
Proof.
  intros Hin. cbv zeta.
  destruct (delete_by_ids item_type (get_by_id resource) deleter uid_default ids client
              config false now w) as [r w'] eqn:Hrun.
  cbn [fst snd]. revert Hrun. unfold delete_by_ids. unfold bind at 1.
  pose proof (fetch_found_only_GET resource client ids [] w) as Hfetch.
  destruct (fetch_found (get_by_id resource client) ids [] w) as [[entities | e] w1] eqn:Hf;
    cbn [snd] in Hfetch.
  2:{ intros H. injection H as <- <-.
      split; [now apply only_requests_sends_only | intros results H; discriminate H]. }
  destruct entities as [| x rest].
  - unfold ret. intros H. injection H as <- <-.
    split; [now apply only_requests_sends_only |].
    intros results H. injection H as <-. now repeat split.
  - cbn [negb]. unfold bind at 1. unfold bind at 1. unfold bind at 1.
    destruct (confirm_deletion_declined item_type (Z.of_nat (List.length (x :: rest))) w1)
      as (w2 & Hc & Hsent).
    { destruct Hfetch as (_ & _ & -> & _). exact (Hin _ _ eq_refl). }
    rewrite Hc. cbn. intros H. injection H as <- <-.
    split; [| intros results H; discriminate H].
    destruct (only_requests_sends_only _ _ _ Hfetch) as (l & Hl & HP).
    exists l. split; [congruence | assumption].
Qed.

(** In live mode no DELETE leaves a driver by id unless the
    next thing the operator types is the driver's own phrase,
    [DELETE <n> ENTITIES] for the entity driver, [DELETE <n> PROCESSES]
    and [DELETE <n> SUBPROCESSES] for the two others, with [n] the number
    of items the driver found.  With any other input (the right wording
    with another count or with another driver's type included), an end of
    file or Ctrl+C, every request sent is a GET, and the driver returns
    only when no id was found, with empty results. *)
Theorem no_delete_without_the_phrase (ids : list value) (client : AuditBoardClient)
    (config : Config) (now : string) (w : world) :
  let other_than (getter : value -> M value) (TYPE : string) :=
    forall found w1,
      fetch_found getter ids [] w = (Ok found, w1) ->
      hd_error (stdin w)
      <> Some (Line ("DELETE " ++ str_of_Z (Z.of_nat (List.length found)) ++ " " ++ TYPE)) in
  let quiet (run : result BulkResults * world) :=
    sends_only is_GET w (snd run) /\
    (forall results, fst run = Ok results ->
       total results = 0 /\ bulk_deleted results = [] /\ bulk_failed results = []) in
  (other_than (get_entity client) "ENTITIES" ->
   quiet (delete_entities_bulk ids client config false now w)) /\
  (other_than (get_process client) "PROCESSES" ->
   quiet (delete_processes_bulk ids client config false now w)) /\
  (other_than (get_subprocess client) "SUBPROCESSES" ->
   quiet (delete_subprocesses_bulk ids client config false now w)).
Proof.
  cbv zeta. split; [| split]; intros Hin; apply delete_by_ids_declined; exact Hin.
Qed.

Lemma no_delete_without_the_phrase_witness :
  let run (line : string) :=
    delete_entities_bulk [VInt 25] default_client default_config false "2024-01-01T00:00:00"
      (fresh_world knows_entity_25 [Line line]) in
  sends_only is_GET (fresh_world knows_entity_25 [Line "DELETE 2 ENTITIES"])
    (snd (run "DELETE 2 ENTITIES")) /\
  sends_only is_GET (fresh_world knows_entity_25 [Line "DELETE 1 PROCESSES"])
    (snd (run "DELETE 1 PROCESSES")) /\
  sends_only is_GET (fresh_world knows_entity_25 [Line "delete 1 entities"])
    (snd (run "delete 1 entities")).
Proof.
  cbv zeta.
  split; [| split];
    (refine (proj1 (proj1 (no_delete_without_the_phrase [VInt 25] default_client
                             default_config "2024-01-01T00:00:00"
                             (fresh_world knows_entity_25 [Line _])) _));
     intros found w1 Hfound; vm_compute in Hfound; injection Hfound as <- _;
     intros H; vm_compute in H; discriminate H).
Defined.

Lemma bulk_delete_one_returns deleter uid_default client config dry_run total i x results
    w results' w' :
  bulk_delete_one deleter uid_default client config dry_run total i x results w
  = (Ok results', w') ->
  exists error,
    results' = bulk_append_deleted (bulk_entry_of uid_default x None) results \/
    results' = bulk_append_failed (bulk_entry_of uid_default x error) results.
Proof.
  unfold bulk_delete_one, bind, lift.
  destruct x as [| | | | | d]; try discriminate. cbn [py_get].
  unfold py_slice.
  destruct (sliceable _) eqn:Hs; [| discriminate].
  change (match lookup "id" d with Some x => x | None => VNone end)
    with (item_id (bulk_entry_of uid_default (VDict d) None)).
  change (match lookup "uid" d with Some x => x | None => uid_default end)
    with (item_uid (bulk_entry_of uid_default (VDict d) None)).
  change (match lookup "name" d with Some x => x | None => VStr "N/A" end)
    with (item_name (bulk_entry_of uid_default (VDict d) None)).
  destruct dry_run.
  - cbn. intros H. injection H as <- _. exists None. now left.
  - unfold try_except, bind.
    destruct (deleter client _ w) as [[[|] | e] w1];
      [ | | destruct (is_Exception e); [| discriminate] ];
      cbv beta iota delta [ret];
      match goal with
      | |- context [(if pause_every_n (deletion config) =? 0 then ?a else ?b) ?w0] =>
          destruct ((if pause_every_n (deletion config) =? 0 then a else b) w0)
            as [[[] | e'] w2]; [| discriminate]
      end;
      intros H; injection H as <- _.
    + exists None. now left.
    + exists None. now right.
    + exists (Some e). now right.
Qed.

Lemma bulk_delete_loop_returns deleter uid_default client config dry_run tot entities :
  forall i results w results' w',
    bulk_delete_loop deleter uid_default client config dry_run tot i entities results w
    = (Ok results', w') ->
    Permutation (map target (bulk_deleted results' ++ bulk_failed results'))
                (map target (bulk_deleted results ++ bulk_failed results)
                 ++ map (fun x => target (bulk_entry_of uid_default x None)) entities) /\
    bulk_dry_run results' = bulk_dry_run results /\
    total results' = total results.
Proof.
  induction entities as [| x rest IH]; intros i results w results' w'; cbn.
  - unfold ret. intros H. injection H as <- _. rewrite app_nil_r.
    repeat split. apply Permutation_refl.
  - unfold bind at 1.
    destruct (bulk_delete_one deleter uid_default client config dry_run tot i x results w)
      as [[r1 | e] w1] eqn:Hone; [| discriminate].
    intros Hloop. destruct (IH _ _ _ _ _ Hloop) as (Hperm & Hdr & Htot).
    destruct (bulk_delete_one_returns _ _ _ _ _ _ _ _ _ _ _ _ Hone) as (error & [-> | ->]);
      unfold bulk_append_deleted, bulk_append_failed in *;
      cbn [bulk_deleted bulk_failed bulk_dry_run total] in *;
      repeat split; try assumption.
    + etransitivity; [exact Hperm |].
      rewrite !map_app. cbn [map]. rewrite <- !app_assoc.
      apply Permutation_app_head. cbn [app]. apply Permutation_middle.
    + etransitivity; [exact Hperm |].
      rewrite !map_app. cbn [map]. rewrite <- !app_assoc. reflexivity.
Qed.

Lemma delete_by_ids_returns item_type getter deleter uid_default ids client config dry_run
    now w results w' :
  delete_by_ids item_type getter deleter uid_default ids client config dry_run now w
  = (Ok results, w') ->
  exists found w1,
    fetch_found (getter client) ids [] w = (Ok found, w1) /\
    Permutation (map target (bulk_deleted results ++ bulk_failed results))
                (map (fun x => target (bulk_entry_of uid_default x None)) found) /\
    total results = Z.of_nat (List.length found) /\
    bulk_dry_run results = dry_run.
Proof.
  unfold delete_by_ids. unfold bind at 1.
  destruct (fetch_found (getter client) ids [] w) as [[found | e] w1]; [| discriminate].
  intros H. exists found, w1. split; [reflexivity |]. revert H.
  destruct found as [| x rest] eqn:Hfound.
  { unfold ret. intros H. injection H as <- _. repeat split. apply Permutation_refl. }
  rewrite <- Hfound. unfold bind at 1.
  match goal with
  | |- context [(if negb dry_run then ?m else ret tt) w1] =>
      destruct ((if negb dry_run then m else ret tt) w1) as [[[] | e] w2];
        [| discriminate]
  end.
  intros Hloop. apply bulk_delete_loop_returns in Hloop.
  cbn [bulk_deleted bulk_failed app map bulk_dry_run total] in Hloop.
  destruct Hloop as (HP & Hdr & Htot). now repeat split.
Qed.

(** Whenever the entity driver returns, the records it found for
    the ids stand each in exactly one of [deleted] and [failed] (the two
    lists together are a rearrangement of the records found), [total] is
    their number, and it is at most the number of ids: an id that is not
    found is in neither list.  A record without a uid is entered with
    the uid ['N/A']. *)
Theorem found_entities_recorded_once (entity_ids : list value) (client : AuditBoardClient)
    (config : Config) (dry_run : bool) (now : string) (w w' : world)
    (results : BulkResults) :
  delete_entities_bulk entity_ids client config dry_run now w = (Ok results, w') ->
  exists found w1,
    fetch_found (get_entity client) entity_ids [] w = (Ok found, w1) /\
    Permutation (map target (bulk_deleted results ++ bulk_failed results))
                (map (fun x => target (bulk_entry_of (VStr "N/A") x None)) found) /\
    (List.length (bulk_deleted results) + List.length (bulk_failed results)
     = List.length found)%nat /\
    total results = Z.of_nat (List.length found) /\
    (List.length found <= List.length entity_ids)%nat /\
    bulk_dry_run results = dry_run.
Proof.
  intros H. apply delete_by_ids_returns in H.
  destruct H as (found & w1 & Hfetch & HP & Htot & Hdr).
  exists found, w1. split; [exact Hfetch |]. split; [exact HP |].
  split; [| split; [exact Htot | split; [| exact Hdr]]].
  - apply Permutation_length in HP. rewrite !length_map, length_app in HP. exact HP.
  - apply fetch_found_returns in Hfetch. destruct Hfetch as (fetched & -> & _ & Hlen).
    exact Hlen.
Qed.

Lemma found_entities_recorded_once_witness :
  let w := fresh_world knows_entity_25 [Line "DELETE 1 ENTITIES"] in
  exists results w',
    delete_entities_bulk [VInt 7; VInt 25] default_client default_config false
      "2024-01-01T00:00:00" w = (Ok results, w') /\
    total results = 1 /\
    map target (bulk_deleted results) = [(VInt 25, VStr "N/A", VStr "Paris")] /\
    bulk_failed results = [] /\
    (List.length (bulk_deleted results) + List.length (bulk_failed results) = 1)%nat.
Proof.
  cbv zeta.
  destruct (delete_entities_bulk [VInt 7; VInt 25] default_client default_config false
              "2024-01-01T00:00:00"
              (fresh_world knows_entity_25 [Line "DELETE 1 ENTITIES"]))
    as [[results | e] w'] eqn:Hrun; [| vm_compute in Hrun; discriminate Hrun].
  exists results, w'. split; [reflexivity |].
  destruct (found_entities_recorded_once _ _ _ _ _ _ _ _ Hrun)
    as (found & w1 & Hfetch & _ & Hlen & Htot & _).
  vm_compute in Hfetch. injection Hfetch as <- _.
  split; [exact Htot |].
  vm_compute in Hrun. injection Hrun as <- _.
  split; [reflexivity |]. split; [reflexivity |]. exact Hlen.
Defined.

Lemma get_by_id_4xx (resource : string) (c : AuditBoardClient) (id : value) (w : world) :
  is_4xx (remote w (List.length (sent w)) (get_item resource id)) = true ->
  get_by_id resource c id w = (Ok VNone, record_request (get_item resource id) w).
Proof.
  unfold is_4xx, get_item.
  destruct (remote w _ _) as [| resp] eqn:Hr; [discriminate |].
  intros H. apply andb_prop in H. destruct H as [H4 H5].
  unfold get_by_id, try_except, get. unfold bind at 1. unfold bind at 1.
  rewrite (make_request_answer c GET (Item resource id) 0 w resp Hr)
    by (apply Z.ltb_lt in H5; exact H5).
  unfold bind, raise_for_status. rewrite H4.
  replace (status_code resp <? 600) with true
    by (symmetry; apply Z.ltb_lt; apply Z.ltb_lt in H5; lia).
  reflexivity.
Qed.

Lemma fetch_found_4xx (resource : string) (c : AuditBoardClient) (ids : list value) :
  forall found w,
    (forall n r, is_4xx (remote w n r) = true) ->
    exists w',
      fetch_found (get_by_id resource c) ids found w = (Ok found, w') /\
      sent w' = (sent w ++ map (get_item resource) ids)%list /\
      slept w' = slept w /\ printed w' = printed w /\ stdin w' = stdin w.
Proof.
  induction ids as [| id rest IH]; intros found w Hw; cbn [fetch_found map].
  - exists w. rewrite app_nil_r. unfold ret. repeat split.
  - unfold bind. rewrite (get_by_id_4xx resource c id w (Hw _ _)). cbn [truthy].
    destruct (IH found (record_request (get_item resource id) w) Hw)
      as (w' & Hrun & Hsent & Hslept & Hpr & Hin).
    exists w'. rewrite Hrun, Hsent, Hslept, Hpr, Hin. cbn.
    rewrite <- app_assoc. repeat split.
Qed.

(** When none of the ids is found (the remote API answers every
    look-up with a 4xx), a driver by id returns empty results with
    [total = 0], in live mode as in dry-run, after one GET per id: the
    operator is not asked for a confirmation, nothing is printed at the
    console and nothing is slept. *)
Theorem nothing_found_nothing_asked (ids : list value) (client : AuditBoardClient)
    (config : Config) (dry_run : bool) (now : string) (w : world) :
  (forall n r, is_4xx (remote w n r) = true) ->
  let run := delete_entities_bulk ids client config dry_run now w in
  fst run = Ok {| bulk_timestamp := now; bulk_dry_run := dry_run; total := 0;
                  bulk_deleted := []; bulk_failed := [] |} /\
  sent (snd run) = (sent w ++ map (get_item "entities") ids)%list /\
  printed (snd run) = printed w /\ stdin (snd run) = stdin w /\ slept (snd run) = slept w.
Proof.
  intros Hw. cbv zeta. unfold delete_entities_bulk, delete_by_ids, get_entity.
  destruct (fetch_found_4xx "entities" client ids [] w Hw)
    as (w' & Hrun & Hsent & Hslept & Hpr & Hin).
  unfold bind. rewrite Hrun. cbn. now repeat split.
Qed.

Lemma nothing_found_nothing_asked_witness :
  let w := fresh_world knows_nothing [Line "DELETE 2 ENTITIES"] in
  let run := delete_entities_bulk [VInt 25; VInt 26] default_client default_config false
               "2024-01-01T00:00:00" w in
  fst run = Ok {| bulk_timestamp := "2024-01-01T00:00:00"; bulk_dry_run := false; total := 0;
                  bulk_deleted := []; bulk_failed := [] |} /\
  sent (snd run) = [get_item "entities" (VInt 25); get_item "entities" (VInt 26)] /\
  printed (snd run) = [] /\ stdin (snd run) = [Line "DELETE 2 ENTITIES"] /\
  slept (snd run) = [].
Proof.
  cbv zeta.
  exact (nothing_found_nothing_asked [VInt 25; VInt 26] default_client default_config false
           "2024-01-01T00:00:00" (fresh_world knows_nothing [Line "DELETE 2 ENTITIES"])
           ltac:(intros n r; reflexivity)).
Defined.

(** ** The restoration checks (verification/check_restoration.py, verify_restoration.py) *)

Lemma getter_map_get_by_id entity_type getter :
  getter_map entity_type = Some getter -> exists resource, getter = get_by_id resource.
Proof.
  unfold getter_map.
  repeat match goal with
         | |- context [String.eqb entity_type ?s] => destruct (String.eqb entity_type s)
         end;
    intros H; try discriminate H; injection H as <-; eexists; reflexivity.
Qed.

Lemma check_one_returns getter names entity_id results w results' w' :
  check_one getter names entity_id results w = (Ok results', w') ->
  chk_entity_type results' = chk_entity_type results /\
  ((exists name entity,
      truthy entity = true /\
      restored results' = (restored results ++
                           [ {| ri_id := entity_id; ri_name := name; ri_entity := entity |} ])%list /\
      still_missing results' = still_missing results) \/
   (exists name,
      restored results' = restored results /\
      still_missing results' = (still_missing results ++
                                [ {| mi_id := entity_id; mi_expected_name := name |} ])%list)).
Proof.
  unfold check_one. unfold bind at 1. unfold lift at 1.
  destruct (expected_name_of names entity_id) as [expected_name | e]; [| discriminate].
  unfold bind at 1.
  destruct ((if negb (py_eq expected_name (VStr "Unknown"))
             then lift (py_slice expected_name) else ret tt) w) as [[[] | e] w1];
    [| discriminate].
  unfold bind at 1.
  destruct (getter entity_id w1) as [[entity | e] w2]; [| discriminate].
  destruct (truthy entity) eqn:Ht.
  - unfold bind, lift.
    destruct (py_get entity "uid" (VStr "N/A")) as [uid | e]; [| discriminate].
    destruct (py_get entity "name" uid) as [actual_name | e]; [| discriminate].
    destruct (py_slice actual_name) as [[] | e]; [| discriminate].
    unfold ret. intros H. injection H as <- _. cbn.
    split; [reflexivity |]. left. exists actual_name, entity. now repeat split.
  - unfold ret. intros H. injection H as <- _. cbn.
    split; [reflexivity |]. right. now exists expected_name.
Qed.

Lemma check_loop_returns getter names entity_ids :
  forall results w results' w',
    check_loop getter names entity_ids results w = (Ok results', w') ->
    chk_entity_type results' = chk_entity_type results /\
    Permutation (map ri_id (restored results') ++ map mi_id (still_missing results'))
                ((map ri_id (restored results) ++ map mi_id (still_missing results))
                 ++ entity_ids) /\
    (Forall (fun i => truthy (ri_entity i) = true) (restored results) ->
     Forall (fun i => truthy (ri_entity i) = true) (restored results')).
Proof.
  induction entity_ids as [| entity_id rest IH]; intros results w results' w'; cbn.
  - unfold ret. intros H. injection H as <- _. rewrite app_nil_r.
    split; [reflexivity |]. split; [apply Permutation_refl | auto].
  - unfold bind at 1.
    destruct (check_one getter names entity_id results w) as [[r1 | e] w1] eqn:Hone;
      [| discriminate].
    intros Hloop. destruct (IH _ _ _ _ Hloop) as (Hty & Hperm & Hall).
    destruct (check_one_returns _ _ _ _ _ _ _ Hone)
      as (Hty1 & [(name & entity & Ht & Hr & Hm) | (name & Hr & Hm)]);
      rewrite Hr, Hm in *; (split; [congruence |]); split.
    + etransitivity; [exact Hperm |].
      rewrite !map_app. cbn [map ri_id]. rewrite <- !app_assoc.
      apply Permutation_app_head. cbn [app]. apply Permutation_middle.
    + intros H. apply Hall. apply Forall_app. split; [exact H |]. now constructor.
    + etransitivity; [exact Hperm |].
      rewrite !map_app. cbn [map mi_id]. rewrite <- !app_assoc. reflexivity.
    + exact Hall.
Qed.

(** Whenever the restoration check returns, every id it was given stands
    in exactly one of [restored] and [still_missing] (the ids of the two
    lists together are a rearrangement of the ids given), and what stands
    in [restored] is a record that the API returned, never [None] or an
    empty object.  For an entity type that is not one of the six known
    ones, both lists are empty and no request was sent. *)
Theorem every_id_restored_or_missing (entity_type : string) (entity_ids : list value)
    (expected_names : list (value * value)) (client : AuditBoardClient) (w w' : world)
    (results : Restoration) :
  check_restoration entity_type entity_ids expected_names client w = (Ok results, w') ->
  chk_entity_type results = entity_type /\
  (getter_map entity_type <> None ->
   Permutation (map ri_id (restored results) ++ map mi_id (still_missing results)) entity_ids /\
   (List.length (restored results) + List.length (still_missing results)
    = List.length entity_ids)%nat /\
   Forall (fun i => truthy (ri_entity i) = true) (restored results)) /\
  (getter_map entity_type = None ->
   restored results = [] /\ still_missing results = [] /\ w' = w).
Proof.
  unfold check_restoration. destruct (getter_map entity_type) as [getter |].
  - intros H. apply check_loop_returns in H. cbn in H. destruct H as (Hty & HP & Hall).
    split; [exact Hty |]. split; [| discriminate].
    intros _. split; [exact HP |]. split; [| apply Hall; constructor].
    apply Permutation_length in HP. rewrite length_app, !length_map in HP. exact HP.
  - unfold ret. intros H. injection H as <- <-. cbn.
    split; [reflexivity |]. split; [intros H; now contradiction H | now repeat split].
Qed.

Lemma every_id_restored_or_missing_witness :
  let w := fresh_world knows_control_100 [] in
  exists results w',
    check_restoration "controls" [VInt 7; VInt 100] [] default_client w = (Ok results, w') /\
    map ri_id (restored results) = [VInt 100] /\
    map mi_id (still_missing results) = [VInt 7] /\
    (List.length (restored results) + List.length (still_missing results) = 2)%nat.
Proof.
  cbv zeta.
  destruct (check_restoration "controls" [VInt 7; VInt 100] [] default_client
              (fresh_world knows_control_100 []))
    as [[results | e] w'] eqn:Hrun; [| vm_compute in Hrun; discriminate Hrun].
  exists results, w'. split; [reflexivity |].
  destruct (every_id_restored_or_missing _ _ _ _ _ _ _ Hrun) as (_ & Hknown & _).
  destruct (Hknown ltac:(discriminate)) as (_ & Hlen & _).
  vm_compute in Hrun. injection Hrun as <- _.
  split; [reflexivity |]. split; [reflexivity |]. exact Hlen.
Defined.

Lemma check_loop_only_GET resource client names entity_ids :
  forall results,
    stays (only_requests is_GET)
      (check_loop (get_by_id resource client) names entity_ids results).
Proof.
  induction entity_ids as [| id rest IH]; intros results; cbn [check_loop].
  - apply stays_ret. typeclasses eauto.
  - apply stays_bind; [typeclasses eauto | | intros r; apply IH].
    unfold check_one. repeat first [ apply get_by_id_only_GET | stays_step ].
Qed.

Lemma verify_loop_only_GET resource client original_data :
  forall results,
    stays (only_requests is_GET)
      (verify_loop (get_by_id resource client) original_data results).
Proof.
  induction original_data as [| x rest IH]; intros results; cbn [verify_loop].
  - apply stays_ret. typeclasses eauto.
  - apply stays_bind; [typeclasses eauto | | intros r; apply IH].
    unfold verify_one. repeat first [ apply get_by_id_only_GET | stays_step ].
Qed.

(** The two restoration tools only read: every request that
    [check_restoration] and [verify_restoration] send is a GET, and they
    neither print to nor read from the console, whatever the entity
    type, the ids, the records and the answers of the remote API. *)
Theorem restoration_checks_only_read (entity_type : string) (entity_ids : list value)
    (expected_names : list (value * value)) (original_data : list value)
    (client : AuditBoardClient) (w : world) :
  only_requests is_GET w
    (snd (check_restoration entity_type entity_ids expected_names client w)) /\
  only_requests is_GET w (snd (verify_restoration entity_type original_data client w)).
Proof.
  unfold check_restoration, verify_restoration.
  destruct (getter_map entity_type) as [getter |] eqn:Hmap.
  - destruct (getter_map_get_by_id _ _ Hmap) as [resource ->].
    split; [apply check_loop_only_GET | apply verify_loop_only_GET].
  - split; apply only_requests_refl.
Qed.

Lemma verify_one_returns getter original results w results' w' :
  verify_one getter original results w = (Ok results', w') ->
  exists er,
    er_id er = field original "id" /\
    ver_entities results' = (ver_entities results ++ [er])%list /\
    perfect_restoration results'
    = perfect_restoration results && is_perfect (er_status er) /\
    ver_entity_type results' = ver_entity_type results /\
    ver_error results' = ver_error results.
Proof.
  unfold verify_one, bind, lift.
  destruct original as [| | | | | d]; try discriminate. cbn [py_get field].
  destruct (py_slice _) as [[] | e]; [| discriminate].
  destruct (getter _ w) as [[restored | e] w1]; [| discriminate].
  destruct (truthy restored); cbn [negb].
  - destruct (compare_entity (VDict d) restored) as [[matches differences] | e];
      [| discriminate].
    unfold ret. intros H. injection H as <- _.
    cbn [ver_entities perfect_restoration ver_entity_type ver_error].
    eexists. split; [| split; [reflexivity |]]; [reflexivity |].
    split; [| now split].
    destruct differences; cbn; [now rewrite andb_true_r | now rewrite andb_false_r].
  - unfold ret. intros H. injection H as <- _.
    cbn [ver_entities perfect_restoration ver_entity_type ver_error].
    eexists. split; [| split; [reflexivity |]]; [reflexivity |].
    split; [cbn; now rewrite andb_false_r | now split].
Qed.

Lemma verify_loop_returns getter original_data :
  forall results w results' w',
    verify_loop getter original_data results w = (Ok results', w') ->
    exists ers,
      ver_entities results' = (ver_entities results ++ ers)%list /\
      map er_id ers = map (fun o => field o "id") original_data /\
      perfect_restoration results'
      = perfect_restoration results && forallb (fun er => is_perfect (er_status er)) ers /\
      ver_entity_type results' = ver_entity_type results /\
      ver_error results' = ver_error results.
Proof.
  induction original_data as [| original rest IH]; intros results w results' w'; cbn.
  - unfold ret. intros H. injection H as <- _. exists [].
    rewrite app_nil_r, andb_true_r. now repeat split.
  - unfold bind at 1.
    destruct (verify_one getter original results w) as [[r1 | e] w1] eqn:Hone;
      [| discriminate].
    intros Hloop. destruct (IH _ _ _ _ Hloop) as (ers & Hents & Hids & Hperf & Hty & Herr).
    destruct (verify_one_returns _ _ _ _ _ _ Hone) as (er & Hid & Hents1 & Hperf1 & Hty1 & Herr1).
    exists (er :: ers). rewrite Hents, Hents1, Hperf, Hperf1, Hty, Hty1, Herr, Herr1.
    rewrite <- app_assoc. cbn. rewrite Hid, Hids, andb_assoc. now repeat split.
Qed.

(** Whenever the verifier returns for one of the six known entity types,
    its report has one entry per original record, in their order and
    under their ids, and [perfect_restoration] is true exactly when every
    entry is PERFECT: one record that is not found or differs makes it
    false, and an empty list of originals verifies as perfect.  The
    process then ends with exit code 0 when [perfect_restoration] is true
    and with 1 otherwise. *)
Theorem perfect_iff_every_entry_perfect (entity_type : string) (original_data : list value)
    (client : AuditBoardClient) (w w' : world) (report : Verification) :
  getter_map entity_type <> None ->
  verify_restoration entity_type original_data client w = (Ok report, w') ->
  map er_id (ver_entities report) = map (fun o => field o "id") original_data /\
  perfect_restoration report
  = forallb (fun er => is_perfect (er_status er)) (ver_entities report) /\
  ver_error report = None /\
  exit_code (fst (verify_main entity_type original_data client w))
  = (if perfect_restoration report then 0 else 1).
Proof.
  intros Hknown Hrun. unfold verify_main, bind. rewrite Hrun. revert Hrun.
  unfold verify_restoration. destruct (getter_map entity_type) as [getter |];
    [| now contradiction Hknown].
  intros Hrun. apply verify_loop_returns in Hrun. cbn in Hrun.
  destruct Hrun as (ers & -> & Hids & Hperf & _ & Herr).
  split; [exact Hids |]. split; [exact Hperf |]. split; [exact Herr |].
  destruct (perfect_restoration report); reflexivity.
Qed.

Lemma perfect_iff_every_entry_perfect_witness :
  let w := fresh_world knows_control_100 [] in
  exists report w',
    verify_restoration "controls"
      [VDict [("id", VInt 100); ("uid", VStr "CC-1")]; VDict [("id", VInt 7)]]
      default_client w = (Ok report, w') /\
    map er_id (ver_entities report) = [VInt 100; VInt 7] /\
    map er_status (ver_entities report) = [PERFECT; NOT_FOUND] /\
    perfect_restoration report = false /\
    exit_code (fst (verify_main "controls"
                      [VDict [("id", VInt 100); ("uid", VStr "CC-1")]; VDict [("id", VInt 7)]]
                      default_client w)) = 1.
Proof.
  cbv zeta.
  destruct (verify_restoration "controls"
              [VDict [("id", VInt 100); ("uid", VStr "CC-1")]; VDict [("id", VInt 7)]]
              default_client (fresh_world knows_control_100 []))
    as [[report | e] w'] eqn:Hrun; [| vm_compute in Hrun; discriminate Hrun].
  exists report, w'. split; [reflexivity |].
  destruct (perfect_iff_every_entry_perfect "controls" _ _ _ _ _ ltac:(discriminate) Hrun)
    as (Hids & Hperf & _ & Hexit).
  split; [exact Hids |].
  assert (Hst : map er_status (ver_entities report) = [PERFECT; NOT_FOUND])
    by (vm_compute in Hrun; injection Hrun as <- _; reflexivity).
  split; [exact Hst |].
  assert (Hp : perfect_restoration report = false).
  { rewrite Hperf. destruct (ver_entities report) as [| a [| b [| c l]]]; try discriminate Hst.
    cbn in Hst. injection Hst as Ha Hb. cbn. rewrite Ha, Hb. reflexivity. }
  split; [exact Hp |]. rewrite Hexit, Hp. reflexivity.
Defined.

Lemma py_eq_hashable_refl v : hashable v = true -> py_eq v v = true.
Proof.
  destruct v as [| b | n | s | l | d]; try discriminate; intros _; cbn.
  - reflexivity.
  - now destruct b.
  - apply Z.eqb_refl.
  - apply String.eqb_refl.
Qed.

(** Deleting and verifying, composed.  The entry that the controls driver
    writes for a control ([id], [uid], [name], the name being ['N/A'] for
    a control without one) is verified against the control as it is
    fetched again, unchanged.  The verdict is PERFECT exactly when the
    control has a name: for a control without a name the entry says
    ['N/A'] where the record has nothing, so the verifier reports a
    changed name and the process ends with exit code 1, although the
    record is what it was. *)
Theorem deleted_entry_verifies_iff_named (d : list (string * value))
    (client : AuditBoardClient) (w w1 : world) :
  let ctrl := VDict d in
  let original := entry_value (entry_of ctrl None) in
  hashable (field ctrl "id") = true ->
  hashable (field ctrl "uid") = true ->
  text_field ctrl "name" <> None ->
  truthy ctrl = true ->
  get_control client (field ctrl "id") w = (Ok ctrl, w1) ->
  exists report,
    verify_restoration "controls" [original] client w = (Ok report, w1) /\
    perfect_restoration report = has_key "name" d /\
    map er_differences (ver_entities report)
    = [if has_key "name" d then [] else [NameChanged]] /\
    exit_code (fst (verify_main "controls" [original] client w))
    = (if has_key "name" d then 0 else 1).
Proof.
  intros ctrl original Hid Huid Hname Htruthy Hget.
  assert (Hlog : loggable original = true).
  { subst original ctrl. cbn. unfold text_field in Hname.
    destruct (lookup "name" d) as [[| | | s | |] |]; try reflexivity; now contradiction Hname. }
  assert (Hhead : sliceable (heading original) = true) by exact Hlog.
  assert (Hfid : field original "id" = field ctrl "id") by reflexivity.
  destruct (verify_one_found (get_control client) original ctrl
              {| perfect_restoration := true; ver_error := None;
                 ver_entity_type := Some "controls"; ver_entities := [] |} w w1
              Hlog Hhead ltac:(rewrite Hfid; exact Hget) eq_refl Htruthy)
    as (matches & differences & Hcmp & Hone).
  destruct (compare_entity_spec original ctrl eq_refl eq_refl Hlog)
    as (m' & d' & Hcmp' & Hdiff & _ & Hnc).
  rewrite Hcmp in Hcmp'. injection Hcmp' as <- <-.
  assert (Hd : differences = if has_key "name" d then [] else [NameChanged]).
  { revert Hdiff Hnc. unfold compared_fields, agree. subst original ctrl.
    cbn [entry_value entry_of key_fields filter has_key field lookup item_id item_uid
         item_name String.eqb Ascii.eqb Bool.eqb].
    cbn in Hid, Huid. cbn [field] in *.
    unfold text_field in Hname. unfold has_key.
    change (field (VDict d) "id") with
      (match lookup "id" d with Some v => v | None => VNone end) in *.
    rewrite (py_eq_hashable_refl _ Hid).
    destruct (lookup "name" d) as [[| | | s | |] |] eqn:Hn;
      try (now contradiction Hname); cbn.
    - rewrite String.eqb_refl. cbn. rewrite (py_eq_hashable_refl _ Huid). cbn.
      intros H _. now destruct differences.
    - rewrite (py_eq_hashable_refl _ Huid). cbn. intros H Hin.
      destruct differences as [| l [| l' r]]; try discriminate H.
      specialize (Hin eq_refl). destruct Hin as [<- | []]. reflexivity. }
  assert (Hrun : exists report,
             verify_restoration "controls" [original] client w = (Ok report, w1) /\
             perfect_restoration report = has_key "name" d /\
             map er_differences (ver_entities report)
             = [if has_key "name" d then [] else [NameChanged]]).
  { unfold verify_restoration. change (getter_map "controls") with (Some get_control).
    cbn [verify_loop]. unfold bind. rewrite Hone. unfold ret.
    eexists. split; [reflexivity |]. rewrite Hd. cbn.
    destruct (has_key "name" d); now split. }
  destruct Hrun as (report & Hrun & Hperf & Hdiffs).
  exists report. split; [exact Hrun |]. split; [exact Hperf |]. split; [exact Hdiffs |].
  unfold verify_main, bind. rewrite Hrun, Hperf.
  destruct (has_key "name" d); reflexivity.
Qed.

Lemma deleted_entry_verifies_iff_named_witness :
  let w := fresh_world knows_control_100 [] in
  let original := VDict [("id", VInt 100); ("uid", VStr "CC-1"); ("name", VStr "N/A")] in
  exists report,
    fst (verify_restoration "controls" [original] default_client w) = Ok report /\
    perfect_restoration report = false /\
    map er_differences (ver_entities report) = [[NameChanged]] /\
    exit_code (fst (verify_main "controls" [original] default_client w)) = 1.
Proof.
  cbv zeta.
  destruct (deleted_entry_verifies_iff_named [("id", VInt 100); ("uid", VStr "CC-1")]
              default_client (fresh_world knows_control_100 []) _
              eq_refl eq_refl ltac:(discriminate) eq_refl eq_refl)
    as (report & Hrun & Hperf & Hdiff & Hexit).
  exists report. split; [| split; [exact Hperf | split; [exact Hdiff | exact Hexit]]].
  exact (f_equal fst Hrun).
Defined.

(** ** How many attempts a call can take (core/api_client.py) *)

Lemma make_request_attempts (c : AuditBoardClient) (m : method) (ep : endpoint) :
  forall (j : nat) (k : Z) (w : world),
    (Z.to_nat (max_retries c - k) <= j)%nat ->
    exists a delays,
      (1 <= a <= 2 ^ (j + 1) - 1)%nat /\
      sent (snd (_make_request c m ep k w))
      = (sent w ++ repeat {| rq_method := m; rq_endpoint := ep |} a)%list /\
      slept (snd (_make_request c m ep k w)) = (slept w ++ delays)%list /\
      (List.length delays < a)%nat /\
      Forall (fun d => exists t, k < t <= max_retries c /\ d = retry_delay c * t) delays.
Proof.
  set (r := {| rq_method := m; rq_endpoint := ep |}).
  induction j as [| j IH]; intros k w Hk;
    destruct (_make_request c m ep k w) as [res w'] eqn:Hrun; cbn [snd]; revert Hrun;
    rewrite _make_request_equation_1;
    unfold try_except; unfold bind at 1; unfold requests_request; fold r.
  - destruct (remote w (List.length (sent w)) r) as [| resp]; cbn [is_RequestException].
    + destruct (Z_lt_dec k (max_retries c)); [lia |].
      intros Heq. injection Heq as _ <-.
      exists 1%nat, []. cbn. rewrite app_nil_r. repeat split; try lia. constructor.
    + destruct (500 <=? status_code resp);
        [destruct (Z_lt_dec k (max_retries c)); [lia |] |];
        intros Heq; injection Heq as _ <-;
        exists 1%nat, []; cbn; rewrite app_nil_r; repeat split; try lia; constructor.
  - assert (Hpow : (2 ^ (S j + 1) = 2 * 2 ^ (j + 1))%nat) by (cbn; lia).
    assert (Hpos : (1 <= 2 ^ (j + 1))%nat)
      by (apply Nat.neq_0_lt_0, Nat.pow_nonzero; discriminate).
    rewrite Hpow. revert IH Hpos. generalize (2 ^ (j + 1))%nat. intros p IH Hpos.
    set (retry := (sleep (retry_delay c * (k + 1)) ;;
                   (fun w' => _make_request c m ep (k + 1) w'))).
    assert (Hretry : k < max_retries c -> forall w1, exists a delays,
               (a <= p - 1)%nat /\
               sent (snd (retry w1)) = (sent w1 ++ repeat r a)%list /\
               slept (snd (retry w1)) = (slept w1 ++ delays)%list /\
               (List.length delays <= a)%nat /\
               Forall (fun d => exists t, k < t <= max_retries c /\ d = retry_delay c * t)
                      delays).
    { intros Hlt w1. unfold retry, bind, sleep.
      destruct (retry_delay c * (k + 1) <? 0).
      - exists 0%nat, []. cbn. rewrite !app_nil_r. repeat split; try lia. constructor.
      - destruct (IH (k + 1) (record_sleep (retry_delay c * (k + 1)) w1) ltac:(lia))
          as (a & delays & Ha & Hs & Hsl & Hlen & Hall).
        exists a, (retry_delay c * (k + 1) :: delays).
        split; [lia |]. split; [exact Hs |].
        split; [rewrite Hsl; cbn [slept record_sleep]; now rewrite <- app_assoc |].
        split; [cbn; lia |].
        constructor; [exists (k + 1); split; [lia | reflexivity] |].
        eapply Forall_impl; [| exact Hall]. cbv beta.
        intros d (t & Ht & ->). exists t. split; [lia | reflexivity]. }
    clearbody retry. clear IH.
    assert (Hreq : sent (record_request r w) = (sent w ++ repeat r 1)%list) by reflexivity.
    assert (Hreq' : slept (record_request r w) = slept w) by reflexivity.
    assert (Hnone : exists a delays,
               (1 <= a <= 2 * p - 1)%nat /\
               sent (record_request r w) = (sent w ++ repeat r a)%list /\
               slept (record_request r w) = (slept w ++ delays)%list /\
               (List.length delays < a)%nat /\
               Forall (fun d => exists t, k < t <= max_retries c /\ d = retry_delay c * t)
                      delays).
    { exists 1%nat, []. rewrite app_nil_r. cbn [List.length].
      repeat split; try lia; try assumption. constructor. }
    assert (Hafter : k < max_retries c -> forall res1 w1,
               retry (record_request r w) = (res1, w1) ->
               exists a delays,
                 (1 <= a <= p)%nat /\
                 sent w1 = (sent w ++ repeat r a)%list /\
                 slept w1 = (slept w ++ delays)%list /\
                 (List.length delays < a)%nat /\
                 Forall (fun d => exists t, k < t <= max_retries c /\ d = retry_delay c * t)
                        delays).
    { intros Hlt res1 w1 Hr1.
      destruct (Hretry Hlt (record_request r w)) as (a & delays & Ha & Hs & Hsl & Hlen & Hall).
      rewrite Hr1 in Hs, Hsl. cbn [snd] in Hs, Hsl.
      exists (1 + a)%nat, delays. split; [lia |].
      split; [rewrite Hs, Hreq, <- app_assoc, <- repeat_app; reflexivity |].
      split; [now rewrite Hsl |]. split; [lia | exact Hall]. }
    destruct (remote w (List.length (sent w)) r) as [| resp]; cbn [is_RequestException].
    + destruct (Z_lt_dec k (max_retries c)) as [Hlt | Hge];
        [| intros Heq; injection Heq as _ <-; exact Hnone].
      intros Heq. destruct (Hafter Hlt _ _ Heq) as (a & delays & Ha & H).
      exists a, delays. split; [lia | exact H].
    + destruct (500 <=? status_code resp);
        [destruct (Z_lt_dec k (max_retries c)) as [Hlt | Hge] |];
        try (intros Heq; injection Heq as _ <-; exact Hnone).
      destruct (retry (record_request r w)) as [[resp' | e] w3] eqn:Hr1.
      * intros Heq. injection Heq as _ <-.
        destruct (Hafter Hlt _ _ eq_refl) as (a & delays & Ha & H).
        exists a, delays. split; [lia | exact H].
      * destruct (Hafter Hlt _ _ eq_refl) as (a & delays & Ha & Hs & Hsl & Hlen & Hall).
        destruct (is_RequestException e).
        -- intros Heq.
           destruct (Hretry Hlt w3) as (a' & delays' & Ha' & Hs' & Hsl' & Hlen' & Hall').
           rewrite Heq in Hs', Hsl'. cbn [snd] in Hs', Hsl'.
           exists (a + a')%nat, (delays ++ delays')%list. split; [lia |].
           split; [rewrite Hs', Hs, <- app_assoc, <- repeat_app; reflexivity |].
           split; [rewrite Hsl', Hsl, <- app_assoc; reflexivity |].
           split; [rewrite length_app; lia | now apply Forall_app].
        -- intros Heq. injection Heq as _ <-.
           exists a, delays. split; [lia |]. now repeat split.
Qed.

(** Whatever the remote API does, a call of the client ends after at
    least one and at most [2 ^ (max_retries + 1) - 1] attempts, and every
    attempt repeats the same request: the retries never address another
    endpoint or use another method.  Between two attempts it sleeps at
    most once, and each sleep lasts [retry_delay * t] for some
    [1 <= t <= max_retries], never longer.  (The bound on the attempts is
    exponential in [max_retries] because a retry of a 5xx answer runs
    inside the [try] block of its caller; with [max_retries = 1] it is 3.) *)
Theorem attempts_are_bounded (c : AuditBoardClient) (m : method) (ep : endpoint)
    (w : world) :
  exists attempts delays,
    (1 <= attempts <= 2 ^ (Z.to_nat (max_retries c) + 1) - 1)%nat /\
    sent (snd (_make_request c m ep 0 w))
    = (sent w ++ repeat {| rq_method := m; rq_endpoint := ep |} attempts)%list /\
    slept (snd (_make_request c m ep 0 w)) = (slept w ++ delays)%list /\
    (List.length delays < attempts)%nat /\
    Forall (fun d => exists t, 1 <= t <= max_retries c /\ d = retry_delay c * t) delays.
Proof.
  destruct (make_request_attempts c m ep (Z.to_nat (max_retries c)) 0 w
              ltac:(rewrite Z.sub_0_r; apply Nat.le_refl))
    as (a & delays & Ha & Hs & Hsl & Hlen & Hall).
  exists a, delays. repeat (split; [assumption |]).
  eapply Forall_impl; [| exact Hall]. cbv beta.
  intros d (t & Ht & ->). exists t. split; [lia | reflexivity].
Qed.

(** What [delete] makes of an answer that is not retried (a status below
    500): [True] for 200 and 204 only, an [HTTPError] for a 4xx, and
    [False] for every other status, a 202 Accepted or a redirect for
    instance; in each case after one DELETE request, without sleeping.
    The drivers enter the [False] case in their [failed] list. *)
Theorem delete_classifies_the_answer (c : AuditBoardClient) (ep : endpoint) (w : world)
    (resp : response) :
  remote w (List.length (sent w)) {| rq_method := DELETE; rq_endpoint := ep |} = Replies resp ->
  status_code resp < 500 ->
  delete c ep w
  = (if (status_code resp =? 200) || (status_code resp =? 204) then Ok true
     else if 400 <=? status_code resp then Raise (HTTPError (status_code resp))
     else Ok false,
     record_request {| rq_method := DELETE; rq_endpoint := ep |} w).
Proof.
  intros Hr Hs. unfold delete, bind.
  rewrite (make_request_answer c DELETE ep 0 w resp Hr Hs).
  destruct ((status_code resp =? 200) || (status_code resp =? 204)); [reflexivity |].
  unfold raise_for_status.
  destruct (Z.leb_spec 400 (status_code resp)).
  - replace (status_code resp <? 600) with true by (symmetry; apply Z.ltb_lt; lia).
    reflexivity.
  - reflexivity.
Qed.

Lemma delete_classifies_the_answer_witness :
  let w := fresh_world (scripted [reply 202 None]) [] in
  delete_control default_client (VInt 100) w
  = (Ok false,
     record_request {| rq_method := DELETE; rq_endpoint := Item "controls" (VInt 100) |} w).
Proof.
  cbv zeta.
  exact (delete_classifies_the_answer default_client (Item "controls" (VInt 100))
           (fresh_world (scripted [reply 202 None]) [])
           {| status_code := 202; body := None |} eq_refl eq_refl).
Defined.

(** ** Region deletion beyond the dependency block (deletion/delete_region.py) *)

Lemma check_region_dependencies_only_GET region_id client :
  stays (only_requests is_GET) (DeleteRegion.check_region_dependencies region_id client).
Proof.
  unfold DeleteRegion.check_region_dependencies.
  repeat first [ apply get_all_only_GET | stays_step ].
Qed.

(** In dry-run [delete_region] only reads, with or without [force]: every
    request it sends is a GET, the console is neither written nor read,
    and no DELETE leaves the client, whatever the region and the answers
    of the remote API. *)
Theorem delete_region_only_reads_in_dry_run (region_id : Z) (client : AuditBoardClient)
    (config : Config) (force : bool) (now : string) (w : world) :
  only_requests is_GET w (snd (delete_region region_id client config true force now w)).
Proof.
  generalize w. change (stays (only_requests is_GET)
                          (delete_region region_id client config true force now)).
  unfold delete_region. cbn [negb].
  repeat first [ apply get_by_id_only_GET | apply check_region_dependencies_only_GET
               | stays_step ].
Qed.

(** In live mode a region is not deleted unless the next thing the
    operator types is the phrase [DELETE REGION <id>]: with any other
    input, every request sent is a GET, and whenever [delete_region]
    returns, it reports [success = False]. *)
Theorem region_not_deleted_without_the_phrase (region_id : Z) (client : AuditBoardClient)
    (config : Config) (force : bool) (now : string) (w : world) :
  hd_error (stdin w) <> Some (Line ("DELETE REGION " ++ str_of_Z region_id)) ->
  let run := delete_region region_id client config false force now w in
  sends_only is_GET w (snd run) /\
  (forall results, fst run = Ok results -> rd_success results = false).
Proof.
  intros Hin. cbv zeta.
  destruct (delete_region region_id client config false force now w) as [res w'] eqn:Hrun.
  cbn [fst snd]. revert Hrun. unfold delete_region. cbn [negb].
  unfold bind at 1.
  pose proof (get_by_id_only_GET "regions" client (VInt region_id) w) as Hreg.
  fold get_region in Hreg.
  destruct (get_region client (VInt region_id) w) as [[region | e] w1]; cbn [snd] in Hreg.
  2:{ intros H. injection H as <- <-.
      split; [now apply only_requests_sends_only | intros results H; discriminate H]. }
  destruct (truthy region); cbn [negb].
  2:{ unfold ret. intros H. injection H as <- <-.
      split; [now apply only_requests_sends_only |].
      intros results H. injection H as <-. reflexivity. }
  unfold bind at 1. unfold lift at 1.
  destruct (py_get region "name" VNone) as [region_name | e].
  2:{ intros H. injection H as <- <-.
      split; [now apply only_requests_sends_only | intros results H; discriminate H]. }
  unfold bind at 1.
  assert (Hblocked : stays (only_requests is_GET)
            (if negb force
             then r <- DeleteRegion.check_region_dependencies region_id client ;;
                  (let '(safe, dependencies) := r in
                   if negb safe then ret (Some dependencies) else ret None)
             else ret None)).
  { repeat first [ apply check_region_dependencies_only_GET | stays_step ]. }
  specialize (Hblocked w1).
  match type of Hblocked with
  | only_requests _ _ (snd (?m w1)) => destruct (m w1) as [[blocked | e] w2]
  end; cbn [snd] in Hblocked.
  2:{ intros H. injection H as <- <-.
      split; [| intros results H; discriminate H].
      apply only_requests_sends_only. etransitivity; eassumption. }
  assert (H12 : only_requests is_GET w w2) by (etransitivity; eassumption).
  destruct blocked as [dependencies |].
  { unfold ret. intros H. injection H as <- <-.
    split; [now apply only_requests_sends_only |].
    intros results H. injection H as <-. reflexivity. }
  unfold bind at 1. unfold bind at 1.
  unfold confirm_deletion. cbn [dry_run].
  generalize ("DELETE REGION " ++ str_of_Z region_id) Hin. intros ph Hph.
  assert (Hstdin : stdin w2 = stdin w) by (destruct H12 as (_ & _ & H & _); exact H).
  unfold bind, print, try_except, input, ret; cbn. rewrite Hstdin.
  destruct (only_requests_sends_only _ _ _ H12) as (l & Hl & HP).
  destruct (stdin w) as [| [s | |] rest]; cbn.
  - intros H. injection H as <- <-.
    split; [exists l; split; assumption | intros results H; discriminate H].
  - destruct (String.eqb_spec s ph) as [-> | Hne]; [now contradiction Hph |].
    cbn. intros H. injection H as <- <-.
    split; [exists l; split; assumption | intros results H; discriminate H].
  - intros H. injection H as <- <-.
    split; [exists l; split; assumption | intros results H; discriminate H].
  - intros H. injection H as <- <-.
    split; [exists l; split; assumption | intros results H; discriminate H].
Qed.

Lemma region_not_deleted_without_the_phrase_witness :
  let api := scripted [ reply 200 (Some (VDict [("regions", VList [region_15])]));
                        reply 204 None ] in
  let w := fresh_world api [Line "yes"] in
  sends_only is_GET w (snd (delete_region 15 default_client default_config false true
                              "2024-01-01T00:00:00" w)).
Proof.
  cbv zeta.
  refine (proj1 (region_not_deleted_without_the_phrase 15 default_client default_config true
                   "2024-01-01T00:00:00" (fresh_world _ [Line "yes"]) _)).
  cbn. intros H. injection H as H. discriminate H.
Defined.

(** A region that the remote API does not know (a 4xx answer to its
    look-up) is reported as ["Region not found"] with [success = False],
    in every mode and with or without [force], after that one GET: no
    dependency check, no prompt, no DELETE. *)
Theorem unknown_region_is_reported (region_id : Z) (client : AuditBoardClient)
    (config : Config) (dry_run force : bool) (now : string) (w : world) :
  is_4xx (remote w (List.length (sent w)) (get_item "regions" (VInt region_id))) = true ->
  delete_region region_id client config dry_run force now w
  = (Ok {| rd_timestamp := now; rd_dry_run := dry_run; rd_region_id := None;
           rd_region_name := None; rd_success := false;
           rd_error := Some (Text "Region not found"); rd_dependencies := None |},
     record_request (get_item "regions" (VInt region_id)) w).
Proof.
  intros H. unfold delete_region, get_region, bind.
  rewrite (get_by_id_4xx "regions" client (VInt region_id) w H). reflexivity.
Qed.

Lemma unknown_region_is_reported_witness :
  let w := fresh_world knows_nothing [Line "DELETE REGION 15"] in
  delete_region 15 default_client default_config false true "2024-01-01T00:00:00" w
  = (Ok {| rd_timestamp := "2024-01-01T00:00:00"; rd_dry_run := false; rd_region_id := None;
           rd_region_name := None; rd_success := false;
           rd_error := Some (Text "Region not found"); rd_dependencies := None |},
     record_request (get_item "regions" (VInt 15)) w).
Proof.
  cbv zeta.
  exact (unknown_region_is_reported 15 default_client default_config false true
           "2024-01-01T00:00:00" (fresh_world knows_nothing [Line "DELETE REGION 15"])
           eq_refl).
Defined.

(** ** The hierarchy report is closed (discovery/analyze_region.py) *)

Lemma mapM_Forall2 {A B} (f : A -> result B) (xs : list A) :
  forall ys, mapM f xs = Ok ys -> Forall2 (fun x y => f x = Ok y) xs ys.
Proof.
  induction xs as [| x r IH]; cbn; intros ys H.
  - injection H as <-. constructor.
  - destruct (f x) as [y | e] eqn:Hx; [| discriminate].
    destruct (mapM f r) as [r' | e]; [| discriminate].
    injection H as <-. constructor; [exact Hx | now apply IH].
Qed.

Lemma filterM_Forall {A} (keep : A -> result bool) (xs : list A) :
  forall ys, filterM keep xs = Ok ys -> Forall (fun y => keep y = Ok true) ys.
Proof.
  induction xs as [| x r IH]; cbn; intros ys H.
  - injection H as <-. constructor.
  - destruct (keep x) as [b | e] eqn:Hx; [| discriminate].
    destruct (filterM keep r) as [r' | e]; [| discriminate].
    specialize (IH r' eq_refl).
    injection H as <-. destruct b; [now constructor | exact IH].
Qed.

Lemma py_get_field x k v : py_get x k VNone = Ok v -> v = field x k.
Proof.
  destruct x; try discriminate. cbn. intros H. now injection H as <-.
Qed.

Lemma py_item_field x k v : py_item x k = Ok v -> v = field x k.
Proof.
  destruct x as [| | | | | d]; try discriminate. cbn.
  destruct (lookup k d); [| discriminate]. intros H. now injection H as <-.
Qed.

Lemma select_in_returns all fk ids l :
  select_in all fk ids = Ok l -> Forall (fun x => py_in (field x fk) ids = true) l.
Proof.
  unfold select_in. destruct (py_iter all) as [xs | e]; [| discriminate].
  intros H. apply filterM_Forall in H.
  eapply Forall_impl; [| exact H]. cbv beta. intros x Hx.
  destruct (py_get x fk VNone) as [v | e] eqn:Hv; [| discriminate].
  apply py_get_field in Hv. subst v. now injection Hx as ->.
Qed.

Lemma select_eq_returns all fk id l :
  select_eq all fk id = Ok l -> Forall (fun x => py_eq (field x fk) id = true) l.
Proof.
  unfold select_eq. destruct (py_iter all) as [xs | e]; [| discriminate].
  intros H. apply filterM_Forall in H.
  eapply Forall_impl; [| exact H]. cbv beta. intros x Hx.
  destruct (py_get x fk VNone) as [v | e] eqn:Hv; [| discriminate].
  apply py_get_field in Hv. subst v. now injection Hx as ->.
Qed.

(** An [info] dict holds the fields it was made from. *)
Lemma info_fields keys x i :
  info keys x = Ok i ->
  i = VDict (map (fun k => (k, field x k)) keys).
Proof.
  unfold info. destruct (mapM _ keys) as [d |] eqn:Hm; [| discriminate].
  intros H. injection H as <-. f_equal.
  apply mapM_Forall2 in Hm. induction Hm as [| k kv ks d Hk _ IH]; [reflexivity |].
  cbn. rewrite IH.
  destruct (py_get x k VNone) as [v |] eqn:Hv; [| discriminate].
  apply py_get_field in Hv. subst v. now injection Hk as <-.
Qed.

Lemma mapM_info keys xs result :
  mapM (info keys) xs = Ok result ->
  result = map (fun x => VDict (map (fun k => (k, field x k)) keys)) xs.
Proof.
  intros H. apply mapM_Forall2 in H.
  induction H as [| x i xs infos Hx _ IH]; [reflexivity |].
  cbn. rewrite IH. now rewrite (info_fields _ _ _ Hx).
Qed.

Lemma mapM_py_item k xs vs :
  mapM (fun x => py_item x k) xs = Ok vs -> vs = map (fun x => field x k) xs.
Proof.
  intros H. apply mapM_Forall2 in H.
  induction H as [| x v xs vs Hx _ IH]; [reflexivity |].
  cbn. rewrite IH. now rewrite (py_item_field _ _ _ Hx).
Qed.

Lemma next_with_id_found all id x :
  next_with_id all id = Ok x -> truthy x = true -> py_eq (field x "id") id = true.
Proof.
  induction all as [| p r IH]; cbn.
  - intros H. injection H as <-. discriminate.
  - destruct (py_get p "id" VNone) as [v |] eqn:Hv; [| discriminate].
    apply py_get_field in Hv. subst v.
    destruct (py_eq (field p "id") id) eqn:Heq; [| exact IH].
    intros H _. now injection H as <-.
Qed.

Lemma collect_by_id_returns keys all ids :
  forall l, collect_by_id keys all ids = Ok l ->
    Forall (fun i => exists x id,
              In id ids /\ i = VDict (map (fun k => (k, field x k)) keys) /\
              py_eq (field x "id") id = true) l.
Proof.
  induction ids as [| id r IH]; cbn; intros l H.
  - injection H as <-. constructor.
  - destruct (next_with_id all id) as [x |] eqn:Hx; [| discriminate].
    destruct (truthy x) eqn:Ht.
    + destruct (info keys x) as [i |] eqn:Hi; [| discriminate].
      destruct (collect_by_id keys all r) as [rest |]; [| discriminate].
      injection H as <-. cbn. constructor.
      * exists x, id. split; [now left |]. split; [now apply info_fields |].
        now apply (next_with_id_found all).
      * eapply Forall_impl; [| exact (IH rest eq_refl)].
        intros i' (x' & id' & Hin & Hi' & Heq). exists x', id'. split; [now right | now split].
    + destruct (collect_by_id keys all r) as [rest |]; [| discriminate].
      injection H as <-. cbn.
      eapply Forall_impl; [| exact (IH rest eq_refl)].
      intros i' (x' & id' & Hin & Hi' & Heq). exists x', id'. split; [now right | now split].
Qed.

Lemma py_in_exists v ids : py_in v ids = true -> exists y, In y ids /\ py_eq y v = true.
Proof. unfold py_in. intros H. now apply existsb_exists in H. Qed.

(** Take a [lift]ed step of a run that returned. *)
Tactic Notation "lifted" hyp(H) ident(x) ident(Hx) :=
  unfold bind at 1 in H; unfold lift at 1 in H;
  match type of H with
  | context [match ?r with Ok _ => _ | Raise _ => _ end] =>
      destruct r as [x |] eqn:Hx; [| discriminate H]
  end.

(** Take a step of a run that returned. *)
Tactic Notation "stepped" hyp(H) ident(x) ident(w) ident(Hx) :=
  unfold bind at 1 in H;
  match type of H with
  | (let (_, _) := ?m ?w0 in _) = _ =>
      destruct (m w0) as [[x |] w] eqn:Hx; [| discriminate H]
  end.

Section RegionReport.

Variable set_order : list value -> list value.

(** [list(set(xs))] holds elements of [xs] only. *)
Hypothesis set_order_incl : forall xs x, In x (set_order xs) -> In x xs.

Lemma step_entities_returns client region_id w entities w' :
  step_entities client region_id w = (Ok entities, w') ->
  Forall (fun e => py_eq (field e "region_id") (VInt region_id) = true) entities.
Proof.
  unfold step_entities. intros H.
  stepped H all_entities w1 Hall.
  lifted H region_entities Hsel.
  unfold lift in H. injection H as H _.
  apply mapM_info in H. subst entities.
  apply select_eq_returns in Hsel.
  apply Forall_map. eapply Forall_impl; [| exact Hsel]. intros x Hx. exact Hx.
Qed.

Lemma step_processes_data_returns client entities w processes_data w' :
  step_processes_data client entities w = (Ok processes_data, w') ->
  refer_to entities "id" "entity_id" processes_data.
Proof.
  unfold step_processes_data, refer_to. intros H.
  lifted H entity_ids Hids. apply mapM_py_item in Hids.
  destruct entity_ids as [| id0 ids0] eqn:Hnil.
  { unfold ret in H. injection H as <- _. constructor. }
  rewrite <- Hnil in *. clear Hnil.
  stepped H pd w1 Hpd.
  lifted H all_pd Hall.
  lifted H region_pd Hsel.
  lifted H infos Hinfos.
  lifted H groups Hgroups.
  unfold ret in H. injection H as <- _.
  apply mapM_info in Hinfos. subst infos.
  apply select_in_returns in Hsel.
  apply Forall_map. eapply Forall_impl; [| exact Hsel]. cbv beta. intros x Hx.
  apply py_in_exists in Hx. destruct Hx as (y & Hy & Heq).
  rewrite Hids in Hy. apply in_map_iff in Hy. destruct Hy as (e & <- & He).
  exists e. split; [exact He | exact Heq].
Qed.

Lemma collected_for keys (Hid : In "id" keys) all ids links lk l :
  (forall id, In id ids -> In id (map (fun x => field x lk) links)) ->
  collect_by_id keys all ids = Ok l ->
  looked_up_for links lk l.
Proof.
  intros Hincl H. apply collect_by_id_returns in H.
  eapply Forall_impl; [| exact H]. cbv beta.
  intros i (x & id & Hin & -> & Heq).
  apply Hincl in Hin. apply in_map_iff in Hin. destruct Hin as (link & <- & Hlink).
  exists link. split; [exact Hlink |].
  replace (field (VDict (map (fun k => (k, field x k)) keys)) "id") with (field x "id");
    [exact Heq |].
  cbn [field]. clear - Hid. induction keys as [| k r IH]; [contradiction |].
  cbn [map lookup]. destruct (String.eqb_spec "id" k) as [<- | Hne]; [reflexivity |].
  apply IH. destruct Hid; [congruence | assumption].
Qed.

Lemma step_processes_returns client processes_data w processes w' :
  step_processes set_order client processes_data w = (Ok processes, w') ->
  looked_up_for processes_data "process_id" processes.
Proof.
  unfold step_processes. intros H.
  lifted H raw Hraw. apply mapM_py_item in Hraw.
  lifted H process_ids Hset.
  unfold list_set in Hset. destruct (mapM require_hashable raw); [| discriminate].
  injection Hset as <-.
  destruct (set_order raw) as [| id0 ids0] eqn:Hnil.
  { unfold ret in H. injection H as <- _. constructor. }
  rewrite <- Hnil in *.
  stepped H all_processes w1 Hall.
  lifted H all Hiter.
  unfold lift in H. injection H as H _.
  eapply collected_for; [| | exact H]; [cbn; auto |].
  intros id Hin. rewrite <- Hraw. now apply set_order_incl.
Qed.

Lemma step_subprocesses_data_returns client processes_data w subprocesses_data w' :
  step_subprocesses_data client processes_data w = (Ok subprocesses_data, w') ->
  refer_to processes_data "id" "processes_datum_id" subprocesses_data.
Proof.
  unfold step_subprocesses_data, refer_to. intros H.
  lifted H ids Hids. apply mapM_py_item in Hids.
  destruct ids as [| id0 ids0] eqn:Hnil.
  { unfold ret in H. injection H as <- _. constructor. }
  rewrite <- Hnil in *. clear Hnil.
  stepped H spd w1 Hspd.
  lifted H all_spd Hall.
  lifted H region_spd Hsel.
  unfold lift in H. injection H as H _.
  apply mapM_info in H. subst subprocesses_data.
  apply select_in_returns in Hsel.
  apply Forall_map. eapply Forall_impl; [| exact Hsel]. cbv beta. intros x Hx.
  apply py_in_exists in Hx. destruct Hx as (y & Hy & Heq).
  rewrite Hids in Hy. apply in_map_iff in Hy. destruct Hy as (e & <- & He).
  exists e. split; [exact He | exact Heq].
Qed.

Lemma step_subprocesses_returns client subprocesses_data w subprocess_ids subprocesses w' :
  step_subprocesses set_order client subprocesses_data w
  = (Ok (subprocess_ids, subprocesses), w') ->
  looked_up_for subprocesses_data "subprocess_id" subprocesses /\
  (forall id, In id subprocess_ids ->
     In id (map (fun x => field x "subprocess_id") subprocesses_data)).
Proof.
  unfold step_subprocesses. intros H.
  lifted H raw Hraw. apply mapM_py_item in Hraw.
  lifted H ids Hset.
  unfold list_set in Hset. destruct (mapM require_hashable raw); [| discriminate].
  injection Hset as <-.
  assert (Hincl : forall id, In id (set_order raw) ->
                    In id (map (fun x => field x "subprocess_id") subprocesses_data))
    by (intros id Hin; rewrite <- Hraw; now apply set_order_incl).
  destruct (set_order raw) as [| id0 ids0] eqn:Hnil.
  { unfold ret in H. injection H as <- <- _. split; [constructor | intros id []]. }
  rewrite <- Hnil in *.
  stepped H all_subprocesses w1 Hall.
  lifted H all Hiter.
  lifted H sps Hcollect.
  unfold ret in H. injection H as <- <- _.
  split; [| exact Hincl].
  eapply collected_for; [| exact Hincl | exact Hcollect]. cbn; auto.
Qed.

Lemma step_controls_returns client subprocess_ids w controls w' :
  step_controls client subprocess_ids w = (Ok controls, w') ->
  Forall (fun c => py_in (field c "subprocess_id") subprocess_ids = true) controls.
Proof.
  unfold step_controls. intros H.
  destruct subprocess_ids as [| id0 ids0] eqn:Hnil.
  { unfold ret in H. injection H as <- _. constructor. }
  rewrite <- Hnil in *. clear Hnil.
  stepped H all_controls w1 Hall.
  lifted H region_controls Hsel.
  lifted H infos Hinfos.
  lifted H groups Hgroups.
  stepped H u w2 Hlog.
  unfold ret in H. injection H as <- _.
  apply mapM_info in Hinfos. subst infos.
  apply select_in_returns in Hsel.
  apply Forall_map. eapply Forall_impl; [| exact Hsel]. intros x Hx. exact Hx.
Qed.

Lemma step_controls_data_returns client controls w controls_data w' :
  step_controls_data client controls w = (Ok controls_data, w') ->
  refer_to controls "id" "control_id" controls_data.
Proof.
  unfold step_controls_data, refer_to. intros H.
  lifted H ids Hids. apply mapM_py_item in Hids.
  destruct ids as [| id0 ids0] eqn:Hnil.
  { unfold ret in H. injection H as <- _. constructor. }
  rewrite <- Hnil in *. clear Hnil.
  stepped H cd w1 Hcd.
  lifted H all_cd Hall.
  lifted H region_cd Hsel.
  unfold lift in H. injection H as H _.
  apply mapM_info in H. subst controls_data.
  apply select_in_returns in Hsel.
  apply Forall_map. eapply Forall_impl; [| exact Hsel]. cbv beta. intros x Hx.
  apply py_in_exists in Hx. destruct Hx as (y & Hy & Heq).
  rewrite Hids in Hy. apply in_map_iff in Hy. destruct Hy as (e & <- & He).
  exists e. split; [exact He | exact Heq].
Qed.

End RegionReport.

Lemma first_seen_incl xs x : In x (first_seen xs) -> In x xs.
Proof.
  unfold first_seen.
  assert (H : forall seen, In x (fold_left
                (fun seen x => if py_in x seen then seen else (seen ++ [x])%list) xs seen) ->
              In x seen \/ In x xs).
  { induction xs as [| y r IH]; cbn; intros seen Hin; [now left |].
    apply IH in Hin. destruct Hin as [Hin | Hin]; [| now right; right].
    destruct (py_in y seen); [now left |].
    apply in_app_or in Hin. destruct Hin as [Hin | [<- | []]]; [now left | now right; left]. }
  intros Hin. apply H in Hin. destruct Hin as [[] | Hin]. exact Hin.
Qed.

(** Whenever [analyze_region] returns, its report is closed under the
    links it followed: every entity has the region's id as [region_id];
    every [processes_data] link names a reported entity; every process
    was looked up for a reported link, and so for the levels below, down
    to the control instances, which name reported controls.  Records of
    another region never enter the report.  The counts of the summary are
    the lengths of the lists, and a report without a summary (the region
    was not found) has empty lists.  [list(set(..))] may list the ids in
    any order, as long as it lists ids of the set only. *)
Theorem region_report_is_closed (set_order : list value -> list value) (region_id : Z)
    (client : AuditBoardClient) (now : string) (w w' : world) (s : RegionState) :
  (forall xs x, In x (set_order xs) -> In x xs) ->
  analyze_region set_order region_id client now w = (Ok s, w') ->
  Forall (fun e => py_eq (field e "region_id") (VInt region_id) = true) (st_entities s) /\
  refer_to (st_entities s) "id" "entity_id" (st_processes_data s) /\
  looked_up_for (st_processes_data s) "process_id" (st_processes s) /\
  refer_to (st_processes_data s) "id" "processes_datum_id" (st_subprocesses_data s) /\
  looked_up_for (st_subprocesses_data s) "subprocess_id" (st_subprocesses s) /\
  refer_to (st_subprocesses_data s) "subprocess_id" "subprocess_id" (st_controls s) /\
  refer_to (st_controls s) "id" "control_id" (st_controls_data s) /\
  counts_agree s.
Proof.
  intros Hincl H. unfold analyze_region in H.
  stepped H region w1 Hregion.
  destruct (truthy region).
  2:{ unfold ret in H. injection H as <- _. unfold refer_to, looked_up_for, counts_agree.
      cbn. repeat split; constructor. }
  lifted H region_info Hinfo.
  stepped H entities w2 Hentities.
  unfold analyze_from_entities in H.
  stepped H processes_data w3 Hpd.
  unfold analyze_from_processes_data in H.
  stepped H processes w4 Hprocesses.
  stepped H subprocesses_data w5 Hspd.
  unfold analyze_from_subprocesses_data in H.
  stepped H sp w6 Hsp. destruct sp as [subprocess_ids subprocesses].
  stepped H controls w7 Hcontrols.
  unfold analyze_from_controls in H.
  stepped H controls_data w8 Hcd.
  unfold finish in H.
  lifted H region_name Hname.
  unfold ret in H. injection H as <- _.
  cbn [st_entities st_processes st_subprocesses st_controls st_processes_data
       st_subprocesses_data st_controls_data].
  apply step_entities_returns in Hentities.
  apply step_processes_data_returns in Hpd.
  apply (step_processes_returns set_order Hincl) in Hprocesses.
  apply step_subprocesses_data_returns in Hspd.
  apply (step_subprocesses_returns set_order Hincl) in Hsp. destruct Hsp as [Hsp Hids].
  apply step_controls_returns in Hcontrols.
  apply step_controls_data_returns in Hcd.
  split; [exact Hentities |]. split; [exact Hpd |]. split; [exact Hprocesses |].
  split; [exact Hspd |]. split; [exact Hsp |]. split; [| split; [exact Hcd |]].
  - eapply Forall_impl; [| exact Hcontrols]. cbv beta. intros c Hc.
    apply py_in_exists in Hc. destruct Hc as (y & Hy & Heq).
    apply Hids in Hy. apply in_map_iff in Hy. destruct Hy as (link & <- & Hlink).
    exists link. split; [exact Hlink | exact Heq].
  - unfold counts_agree. cbn. repeat split.
Qed.

Lemma region_report_is_closed_witness :
  exists s w',
    analyze_region first_seen 15 default_client "2024-01-01T00:00:00"
      (fresh_world hierarchy_api []) = (Ok s, w') /\
    map (fun x => field x "id") (st_entities s) = [VInt 25; VInt 26] /\
    map (fun x => field x "id") (st_processes s) = [VInt 48] /\
    map (fun x => field x "id") (st_subprocesses s) = [VInt 86] /\
    map (fun x => field x "id") (st_controls s) = [VInt 100] /\
    map (fun x => field x "id") (st_controls_data s) = [VInt 3] /\
    refer_to (st_controls s) "id" "control_id" (st_controls_data s) /\
    counts_agree s.
Proof.
  destruct (analyze_region first_seen 15 default_client "2024-01-01T00:00:00"
              (fresh_world hierarchy_api [])) as [[s | e] w'] eqn:Hrun;
    [| vm_compute in Hrun; discriminate Hrun].
  exists s, w'. split; [reflexivity |].
  destruct (region_report_is_closed first_seen 15 default_client _ _ _ _ first_seen_incl Hrun)
    as (_ & _ & _ & _ & _ & _ & Hcd & Hcounts).
  vm_compute in Hrun. injection Hrun as <- _.
  repeat (split; [reflexivity |]). split; [exact Hcd | exact Hcounts].
Defined.

(** ** The discovery scripts only read *)

Lemma log_name_only_GET x : stays (only_requests is_GET) (log_name x).
Proof. unfold log_name. repeat stays_step. Qed.

Lemma analyze_region_only_GET set_order region_id client now :
  stays (only_requests is_GET) (analyze_region set_order region_id client now).
Proof.
  unfold analyze_region, analyze_from_entities, analyze_from_processes_data,
    analyze_from_subprocesses_data, analyze_from_controls, finish,
    step_entities, step_processes_data, step_processes, step_subprocesses_data,
    step_subprocesses, step_controls, step_controls_data.
  repeat first [ apply get_by_id_only_GET | apply get_all_only_GET | apply get_only_GET
               | apply log_name_only_GET | stays_step ].
Qed.

Lemma dependency_checkers_only_GET ids region_id client :
  stays (only_requests is_GET) (check_entity_dependencies ids client) /\
  stays (only_requests is_GET) (check_process_dependencies ids client) /\
  stays (only_requests is_GET) (check_subprocess_dependencies ids client) /\
  stays (only_requests is_GET) (FindDependencies.check_region_dependencies region_id client).
Proof.
  unfold check_entity_dependencies, check_process_dependencies,
    check_subprocess_dependencies, FindDependencies.check_region_dependencies.
  cbv zeta. split; [| split; [| split]];
    repeat first [ apply get_all_only_GET | apply get_only_GET
                 | apply log_name_only_GET | stays_step ].
Qed.

Lemma searches_only_GET pattern case_sensitive client :
  stays (only_requests is_GET) (get_controls_by_pattern pattern client case_sensitive) /\
  stays (only_requests is_GET) (search_processes client pattern case_sensitive) /\
  stays (only_requests is_GET) (search_entities client pattern case_sensitive).
Proof.
  unfold get_controls_by_pattern, search_processes, search_entities.
  split; [| split]; repeat first [ apply get_all_only_GET | stays_step ].
Qed.

(** The discovery scripts only read.  Whatever the ids, the pattern, the
    records and the answers of the remote API, every request sent by
    [analyze_region], by the four dependency checkers, by the pattern
    searches and by the selection of controls by id is a GET, and none of
    them writes to or reads from the console: running a discovery script
    cannot delete anything. *)
Theorem discovery_only_reads (set_order : list value -> list value) (region_id : Z)
    (ids : list value) (pattern : string) (case_sensitive : bool)
    (client : AuditBoardClient) (now : string) (w : world) :
  only_requests is_GET w (snd (analyze_region set_order region_id client now w)) /\
  only_requests is_GET w (snd (check_entity_dependencies ids client w)) /\
  only_requests is_GET w (snd (check_process_dependencies ids client w)) /\
  only_requests is_GET w (snd (check_subprocess_dependencies ids client w)) /\
  only_requests is_GET w (snd (FindDependencies.check_region_dependencies region_id client w)) /\
  only_requests is_GET w (snd (get_controls_by_pattern pattern client case_sensitive w)) /\
  only_requests is_GET w (snd (search_processes client pattern case_sensitive w)) /\
  only_requests is_GET w (snd (search_entities client pattern case_sensitive w)) /\
  only_requests is_GET w (snd (get_controls_by_ids ids client w)).
Proof.
  destruct (dependency_checkers_only_GET ids region_id client) as (H1 & H2 & H3 & H4).
  destruct (searches_only_GET pattern case_sensitive client) as (H5 & H6 & H7).
  split; [apply analyze_region_only_GET |].
  split; [apply H1 |]. split; [apply H2 |]. split; [apply H3 |]. split; [apply H4 |].
  split; [apply H5 |]. split; [apply H6 |]. split; [apply H7 |].
  apply fetch_found_only_GET.
Qed.

(** ** Only the targets are ever deleted *)

#[export] Instance sends_only_preorder P : PreOrder (sends_only P).
Proof.
  split.
  - intros w. exists []. split; [now rewrite app_nil_r | constructor].
  - intros w1 w2 w3 (l & Hl & HP) (l' & Hl' & HP').
    exists (l ++ l')%list. split; [now rewrite Hl', Hl, app_assoc | now apply Forall_app].
Qed.

Lemma stays_weaken {A} (R R' : world -> world -> Prop) (m : M A) :
  (forall w w', R w w' -> R' w w') -> stays R m -> stays R' m.
Proof. intros H Hm w. apply H, Hm. Qed.

Lemma stays_bind_lift {A B} (R : world -> world -> Prop) {HR : PreOrder R}
    (r : result A) (f : A -> M B) :
  (forall a, r = Ok a -> stays R (f a)) -> stays R (bind (lift r) f).
Proof.
  intros H w. unfold bind, lift. destruct r as [a | e]; [now apply H | reflexivity].
Qed.

Lemma same_sent_sends_only P w w' : sent w' = sent w -> sends_only P w w'.
Proof. intros H. exists []. split; [now rewrite app_nil_r | constructor]. Qed.

Lemma sleep_sends_only P d : stays (sends_only P) (sleep d).
Proof. intros w. apply same_sent_sends_only. unfold sleep. now destruct (d <? 0). Qed.

Lemma confirm_deletion_sends_only P self item_type item_count text skip :
  stays (sends_only P) (confirm_deletion self item_type item_count text skip).
Proof.
  intros w. apply same_sent_sends_only.
  destruct (confirm_deletion_answers self item_type item_count text skip w)
    as (answer & w' & -> & Hsent). exact Hsent.
Qed.

Lemma countdown_warning_sends_only P self seconds :
  stays (sends_only P) (countdown_warning self seconds).
Proof.
  intros w. apply same_sent_sends_only.
  unfold countdown_warning, try_except, sleep, raise, ret.
  destruct (dry_run self); [reflexivity |].
  destruct (abort_countdown w); [reflexivity |].
  now destruct (seconds <? 0).
Qed.

Lemma delete_sends_only (P : request -> Prop) c ep :
  P {| rq_method := DELETE; rq_endpoint := ep |} -> stays (sends_only P) (delete c ep).
Proof.
  intros HP. apply (stays_weaken (only_requests P)); [apply only_requests_sends_only |].
  unfold delete, raise_for_status.
  repeat first [ now apply make_request_stays | stays_step ].
Qed.

Lemma delete_one_sends_only P client config dry_run total i ctrl results :
  P {| rq_method := DELETE; rq_endpoint := Item "controls" (field ctrl "id") |} ->
  stays (sends_only P) (delete_one client config dry_run total i ctrl results).
Proof.
  intros HP. unfold delete_one.
  apply stays_bind_lift; [typeclasses eauto |]. intros ctrl_id Hid.
  apply py_get_field in Hid. subst ctrl_id.
  repeat first [ apply sleep_sends_only | now apply delete_sends_only | stays_step ].
Qed.

Lemma delete_loop_sends_only P client config dry_run total controls :
  Forall (fun ctrl =>
            P {| rq_method := DELETE; rq_endpoint := Item "controls" (field ctrl "id") |})
         controls ->
  forall i results,
    stays (sends_only P) (delete_loop client config dry_run total i controls results).
Proof.
  induction 1 as [| ctrl rest Hctrl _ IH]; intros i results; cbn [delete_loop].
  - apply stays_ret. typeclasses eauto.
  - apply stays_bind; [typeclasses eauto | | intros r; apply IH].
    now apply delete_one_sends_only.
Qed.

Lemma delete_controls_bulk_declined controls client config now w :
  controls <> [] ->
  hd_error (stdin w)
  <> Some (Line ("DELETE " ++ str_of_Z (Z.of_nat (List.length controls)) ++ " CONTROLS")) ->
  exists w',
    delete_controls_bulk controls client config false now w = (Raise (SystemExit 0), w') /\
    sent w' = sent w.
Proof.
  intros Hne Hin. unfold delete_controls_bulk.
  destruct controls as [| ctrl rest] eqn:Hc; [now contradiction Hne |].
  rewrite <- Hc in *. cbn [negb].
  unfold bind at 1. unfold bind at 1. unfold confirm_deletion. cbn [dry_run].
  revert Hin.
  generalize ("DELETE " ++ str_of_Z (Z.of_nat (List.length controls)) ++ " CONTROLS").
  intros ph Hph.
  unfold bind, print, try_except, input, ret, raise; cbn.
  destruct (stdin w) as [| [s | |] rest']; cbn; try (eexists; split; reflexivity).
  destruct (String.eqb_spec s ph) as [-> | Hd]; [now contradiction Hph |].
  cbn. eexists; split; reflexivity.
Qed.

(** The controls driver deletes nothing but its targets, and nothing
    before the phrase: every request it sends, in any mode and whatever
    the remote API answers, is the DELETE of [controls/<id>] for the id of
    one of the controls it was given; and in live mode, unless the next
    thing the operator types is [DELETE <n> CONTROLS], it sends nothing
    at all and exits with code 0. *)
Theorem only_targets_after_the_phrase (controls : list value) (client : AuditBoardClient)
    (config : Config) (dry_run : bool) (now : string) (w : world) :
  let run := delete_controls_bulk controls client config dry_run now w in
  sends_only (deletes_one_of "controls" controls) w (snd run) /\
  (dry_run = false -> controls <> [] ->
   hd_error (stdin w)
   <> Some (Line ("DELETE " ++ str_of_Z (Z.of_nat (List.length controls)) ++ " CONTROLS")) ->
   fst run = Raise (SystemExit 0) /\ sent (snd run) = sent w).
Proof.
  cbv zeta. split.
  - generalize w. change (stays (sends_only (deletes_one_of "controls" controls))
                            (delete_controls_bulk controls client config dry_run now)).
    unfold delete_controls_bulk.
    destruct controls as [| ctrl rest] eqn:Hc; [apply stays_ret; typeclasses eauto |].
    rewrite <- Hc.
    apply stays_bind; [typeclasses eauto | |].
    + repeat first [ apply confirm_deletion_sends_only | apply countdown_warning_sends_only
                   | stays_step ].
    + intros _. apply delete_loop_sends_only.
      apply Forall_forall. intros x Hx. exists x. now split.
  - intros -> Hne Hin.
    destruct (delete_controls_bulk_declined controls client config now w Hne Hin)
      as (w' & -> & Hsent). now split.
Qed.

Lemma only_targets_after_the_phrase_witness :
  let w := fresh_world (scripted [reply 204 None; reply 204 None]) [Line "yes"] in
  let run := delete_controls_bulk two_controls default_client default_config false
               "2024-01-01T00:00:00" w in
  fst run = Raise (SystemExit 0) /\ sent (snd run) = [].
Proof.
  cbv zeta.
  refine (proj2 (only_targets_after_the_phrase two_controls default_client default_config
                   false "2024-01-01T00:00:00"
                   (fresh_world (scripted [reply 204 None; reply 204 None]) [Line "yes"]))
            eq_refl _ _).
  - discriminate.
  - cbn. intros H. injection H as H. discriminate H.
Defined.

Lemma bulk_delete_one_sends_only P resource uid_default client config dry_run total i x
    results :
  P {| rq_method := DELETE; rq_endpoint := Item resource (field x "id") |} ->
  stays (sends_only P)
    (bulk_delete_one (fun c id => delete c (Item resource id)) uid_default client config
       dry_run total i x results).
Proof.
  intros HP. unfold bulk_delete_one.
  apply stays_bind_lift; [typeclasses eauto |]. intros entity_id Hid.
  apply py_get_field in Hid. subst entity_id.
  repeat first [ apply sleep_sends_only | now apply delete_sends_only | stays_step ].
Qed.

Lemma bulk_delete_loop_sends_only P resource uid_default client config dry_run total
    entities :
  Forall (fun x => P {| rq_method := DELETE; rq_endpoint := Item resource (field x "id") |})
         entities ->
  forall i results,
    stays (sends_only P)
      (bulk_delete_loop (fun c id => delete c (Item resource id)) uid_default client config
         dry_run total i entities results).
Proof.
  induction 1 as [| x rest Hx _ IH]; intros i results; cbn [bulk_delete_loop].
  - apply stays_ret. typeclasses eauto.
  - apply stays_bind; [typeclasses eauto | | intros r; apply IH].
    now apply bulk_delete_one_sends_only.
Qed.

Lemma delete_by_ids_deletes_found item_type getter resource uid_default ids client config
    dry_run now w found w1 :
  fetch_found (getter client) ids [] w = (Ok found, w1) ->
  sends_only (deletes_one_of resource found) w1
    (snd (delete_by_ids item_type getter (fun c id => delete c (Item resource id))
            uid_default ids client config dry_run now w)).
Proof.
  intros Hfetch. unfold delete_by_ids. unfold bind at 1. rewrite Hfetch.
  generalize w1.
  match goal with
  | |- forall w0, sends_only ?P w0 (snd (?m w0)) => change (stays (sends_only P) m)
  end.
  destruct found as [| x rest] eqn:Hc; [apply stays_ret; typeclasses eauto |].
  rewrite <- Hc.
  apply stays_bind; [typeclasses eauto | |].
  - repeat first [ apply confirm_deletion_sends_only | apply countdown_warning_sends_only
                 | stays_step ].
  - intros _. apply bulk_delete_loop_sends_only.
    apply Forall_forall. intros y Hy. exists y. now split.
Qed.

(** The drivers by id delete nothing but what they found: once the ids
    are looked up, every request that [delete_entities_bulk],
    [delete_processes_bulk] and [delete_subprocesses_bulk] send, in any
    mode and whatever the remote API answers, is the DELETE of
    [<resource>/<id>] for the [id] field of one of the records found.
    (It is the id the record carries that is deleted, not the id that
    was asked for.) *)
Theorem drivers_by_id_delete_only_what_they_found (ids : list value)
    (client : AuditBoardClient) (config : Config) (dry_run : bool) (now : string)
    (w w1 : world) (found : list value) :
  (fetch_found (get_entity client) ids [] w = (Ok found, w1) ->
   sends_only (deletes_one_of "entities" found) w1
     (snd (delete_entities_bulk ids client config dry_run now w))) /\
  (fetch_found (get_process client) ids [] w = (Ok found, w1) ->
   sends_only (deletes_one_of "processes" found) w1
     (snd (delete_processes_bulk ids client config dry_run now w))) /\
  (fetch_found (get_subprocess client) ids [] w = (Ok found, w1) ->
   sends_only (deletes_one_of "subprocesses" found) w1
     (snd (delete_subprocesses_bulk ids client config dry_run now w))).
Proof.
  split; [| split]; intros H.
  - exact (delete_by_ids_deletes_found "entities" get_entity "entities" (VStr "N/A")
             ids client config dry_run now w found w1 H).
  - exact (delete_by_ids_deletes_found "processes" get_process "processes" VNone
             ids client config dry_run now w found w1 H).
  - exact (delete_by_ids_deletes_found "subprocesses" get_subprocess "subprocesses" VNone
             ids client config dry_run now w found w1 H).
Qed.

Lemma drivers_by_id_delete_only_what_they_found_witness :
  let w := fresh_world knows_entity_25 [Line "DELETE 1 ENTITIES"] in
  let run := delete_entities_bulk [VInt 7; VInt 25] default_client default_config false
               "2024-01-01T00:00:00" w in
  sends_only (deletes_one_of "entities" [entity_25])
    (record_request (get_item "entities" (VInt 25))
       (record_request (get_item "entities" (VInt 7)) w))
    (snd run) /\
  sent (snd run)
  = [ get_item "entities" (VInt 7); get_item "entities" (VInt 25);
      {| rq_method := DELETE; rq_endpoint := Item "entities" (VInt 25) |} ].
Proof.
  cbv zeta. split; [| reflexivity].
  exact (proj1 (drivers_by_id_delete_only_what_they_found [VInt 7; VInt 25] default_client
                  default_config false "2024-01-01T00:00:00"
                  (fresh_world knows_entity_25 [Line "DELETE 1 ENTITIES"]) _ [entity_25])
           eq_refl).
Defined.

(** [delete_region] deletes nothing but the region it was asked to
    delete: every request it sends, in any mode, with or without [force]
    and whatever the remote API answers, is a GET or the DELETE of
    [regions/<region_id>]. *)
Theorem delete_region_deletes_only_the_region (region_id : Z) (client : AuditBoardClient)
    (config : Config) (dry_run force : bool) (now : string) (w : world) :
  sends_only (fun r => is_GET r \/
                       r = {| rq_method := DELETE;
                              rq_endpoint := Item "regions" (VInt region_id) |})
    w (snd (delete_region region_id client config dry_run force now w)).
Proof.
  generalize w.
  match goal with
  | |- forall w0, sends_only ?P w0 (snd (?m w0)) => change (stays (sends_only P) m)
  end.
  assert (Hget : forall (A : Type) (m : M A),
             stays (only_requests is_GET) m ->
             stays (sends_only (fun r => is_GET r \/
                       r = {| rq_method := DELETE;
                              rq_endpoint := Item "regions" (VInt region_id) |})) m).
  { intros A m Hm w0. destruct (Hm w0) as (_ & _ & _ & _ & l & Hl & HP).
    exists l. split; [exact Hl |]. eapply Forall_impl; [| exact HP]. intros r Hr. now left. }
  unfold delete_region, client_delete_region.
  repeat first [ apply Hget; apply get_by_id_only_GET
               | apply Hget; apply check_region_dependencies_only_GET
               | apply confirm_deletion_sends_only | apply countdown_warning_sends_only
               | apply delete_sends_only; now right
               | stays_step ].
Qed.

(** ** The pauses of a batch (deletion/delete_controls.py) *)

Lemma div_step (p i : Z) :
  0 < p -> 1 <= i -> i / p = (i - 1) / p + (if i mod p =? 0 then 1 else 0).
Proof.
  intros Hp Hi.
  pose proof (Z.div_mod i p ltac:(lia)) as Hdm.
  pose proof (Z.mod_pos_bound i p Hp) as Hb.
  destruct (Z.eqb_spec (i mod p) 0) as [Hz | Hnz].
  - symmetry. replace (i / p) with ((i - 1) / p + 1); [reflexivity |].
    assert (H : (i - 1) / p = i / p - 1).
    { symmetry. apply (Z.div_unique (i - 1) p (i / p - 1) (p - 1)); lia. }
    lia.
  - rewrite Z.add_0_r. apply (Z.div_unique (i - 1) p (i / p) (i mod p - 1)); lia.
Qed.

Lemma delete_answered c ep w :
  answers_below_500 w ->
  exists r,
    delete c ep w = (r, record_request {| rq_method := DELETE; rq_endpoint := ep |} w) /\
    (forall e, r = Raise e -> is_Exception e = true).
Proof.
  intros Hw. destruct (Hw (List.length (sent w)) {| rq_method := DELETE; rq_endpoint := ep |})
    as (resp & Hr & Hs).
  unfold delete, bind. rewrite (make_request_answer c DELETE ep 0 w resp Hr Hs).
  destruct ((status_code resp =? 200) || (status_code resp =? 204)).
  - eexists. split; [reflexivity | discriminate].
  - unfold raise_for_status. destruct ((400 <=? status_code resp) && (status_code resp <? 600)).
    + eexists. split; [reflexivity |]. intros e H. injection H as <-. reflexivity.
    + eexists. split; [reflexivity | discriminate].
Qed.

Lemma delete_one_answered client config total i ctrl results w :
  answers_below_500 w ->
  loggable ctrl = true ->
  0 < pause_every_n (deletion config) ->
  0 <= rate_limit_delay (safety config) ->
  exists results' w',
    delete_one client config false total i ctrl results w = (Ok results', w') /\
    remote w' = remote w /\
    sent w' = (sent w ++ [delete_item "controls" (field ctrl "id")])%list /\
    slept w' = (slept w ++
                if (i mod pause_every_n (deletion config) =? 0) && (i <? total)
                then [rate_limit_delay (safety config)] else [])%list.
Proof.
  intros Hw Hlog Hp Hd.
  destruct (loggable_get ctrl Hlog) as (d & -> & Hid & Huid & Hname & Hsl).
  unfold delete_one, bind, lift. rewrite Hid, Huid, Hname, Hsl.
  unfold try_except, bind, delete_control.
  destruct (delete_answered client (Item "controls" (item_id (entry_of (VDict d) None))) w Hw)
    as (r & -> & Hexn).
  assert (Hpause : forall w0,
             (if pause_every_n (deletion config) =? 0 then raise ZeroDivisionError
              else if (i mod pause_every_n (deletion config) =? 0) && (i <? total)
                   then sleep (rate_limit_delay (safety config))
                   else ret tt) w0
             = (Ok tt,
                if (i mod pause_every_n (deletion config) =? 0) && (i <? total)
                then record_sleep (rate_limit_delay (safety config)) w0 else w0)).
  { intros w0. destruct (Z.eqb_spec (pause_every_n (deletion config)) 0); [lia |].
    destruct (_ && _); [| reflexivity].
    unfold sleep. destruct (Z.ltb_spec (rate_limit_delay (safety config)) 0); [lia |].
    reflexivity. }
  destruct r as [[|] | e]; [| | rewrite (Hexn e eq_refl)];
    cbv beta iota delta [ret]; rewrite Hpause;
    do 2 eexists; (split; [reflexivity |]);
    destruct ((i mod pause_every_n (deletion config) =? 0) && (i <? total));
    cbn; rewrite ?app_nil_r; repeat split; reflexivity.
Qed.

Lemma delete_loop_pauses client config controls :
  Forall (fun ctrl => loggable ctrl = true) controls ->
  0 < pause_every_n (deletion config) ->
  0 <= rate_limit_delay (safety config) ->
  forall i results w,
    1 <= i ->
    answers_below_500 w ->
    let total := i - 1 + Z.of_nat (List.length controls) in
    exists results' w',
      delete_loop client config false total i controls results w = (Ok results', w') /\
      sent w' = (sent w ++ map (fun ctrl => delete_item "controls" (field ctrl "id"))
                             controls)%list /\
      slept w' = (slept w ++
                  repeat (rate_limit_delay (safety config))
                    (Z.to_nat ((total - 1) / pause_every_n (deletion config)
                               - (i - 1) / pause_every_n (deletion config))))%list.
Proof.
  intros Hall Hp Hd.
  induction Hall as [| ctrl rest Hctrl _ IH]; intros i results w Hi Hw; cbv zeta.
  - cbn [delete_loop List.length map]. exists results, w. unfold ret.
    change (Z.of_nat 0) with 0.
    assert (H0 : (i - 1 + 0 - 1) / pause_every_n (deletion config)
                 <= (i - 1) / pause_every_n (deletion config))
      by (apply Z.div_le_mono; lia).
    replace (Z.to_nat ((i - 1 + 0 - 1) / pause_every_n (deletion config)
                       - (i - 1) / pause_every_n (deletion config))) with 0%nat by lia.
    cbn. rewrite !app_nil_r. repeat split.
  - cbn [delete_loop map].
    remember (i - 1 + Z.of_nat (List.length (ctrl :: rest))) as total eqn:Htotal.
    cbn [List.length] in Htotal.
    destruct (delete_one_answered client config total i ctrl results w Hw Hctrl Hp Hd)
      as (r1 & w1 & Hone & Hrem & Hsent & Hslept).
    unfold bind at 1. rewrite Hone.
    assert (Hw1 : answers_below_500 w1) by (intros n r; rewrite Hrem; apply Hw).
    destruct (IH (i + 1) r1 w1 ltac:(lia) Hw1) as (r2 & w2 & Hloop & Hsent2 & Hslept2).
    cbv zeta in Hloop, Hslept2.
    assert (Htot : i + 1 - 1 + Z.of_nat (List.length rest) = total) by lia.
    rewrite Htot in Hloop, Hslept2.
    exists r2, w2. split; [exact Hloop |].
    split; [rewrite Hsent2, Hsent, <- app_assoc; reflexivity |].
    rewrite Hslept2, Hslept, <- app_assoc. f_equal.
    replace (i + 1 - 1) with i by lia.
    pose proof (div_step (pause_every_n (deletion config)) i Hp Hi) as Hstep.
    assert (Hmono : i / pause_every_n (deletion config)
                    <= (total - 1) / pause_every_n (deletion config) \/ total = i).
    { destruct (Z.eq_dec total i) as [-> | Hne]; [now right | left].
      apply Z.div_le_mono; lia. }
    destruct (Z.ltb_spec i total) as [Hlt | Hge].
    + destruct Hmono as [Hmono | ->]; [| lia].
      rewrite andb_true_r.
      destruct (i mod pause_every_n (deletion config) =? 0).
      * cbn [app]. change (?x :: repeat ?x ?n) with (repeat x (S n)). f_equal. lia.
      * cbn [app]. f_equal. lia.
    + rewrite andb_false_r. cbn [app].
      assert (Hti : total = i) by lia.
      rewrite Hti. f_equal.
      assert (Hd0 : (i - 1) / pause_every_n (deletion config)
                    <= i / pause_every_n (deletion config))
        by (apply Z.div_le_mono; lia).
      lia.
Qed.

Lemma confirm_deletion_accepted item_type count ph typed w :
  stdin w = Line ph :: typed ->
  exists w',
    confirm_deletion {| dry_run := false |} item_type count (Some ph) false w = (Ok true, w') /\
    remote w' = remote w /\ sent w' = sent w /\ slept w' = slept w /\
    abort_countdown w' = abort_countdown w.
Proof.
  intros Hin. unfold confirm_deletion. cbn [dry_run].
  unfold bind, print, try_except, input, ret; cbn. rewrite Hin.
  rewrite String.eqb_refl. eexists. split; [reflexivity |]. now repeat split.
Qed.

Lemma delete_controls_bulk_batch (controls : list value) (client : AuditBoardClient)
    (config : Config) (now : string) (w : world) (typed : list input_event) :
  controls <> [] ->
  Forall (fun ctrl => loggable ctrl = true) controls ->
  0 < pause_every_n (deletion config) ->
  0 <= rate_limit_delay (safety config) ->
  0 <= countdown_seconds (safety config) ->
  answers_below_500 w ->
  stdin w = Line ("DELETE " ++ str_of_Z (Z.of_nat (List.length controls)) ++ " CONTROLS")
            :: typed ->
  abort_countdown w = false ->
  exists results w',
    delete_controls_bulk controls client config false now w = (Ok results, w') /\
    sent w'
    = (sent w ++ map (fun ctrl => delete_item "controls" (field ctrl "id")) controls)%list /\
    slept w'
    = (slept w ++ countdown_seconds (safety config)
         :: repeat (rate_limit_delay (safety config))
              (Z.to_nat ((Z.of_nat (List.length controls) - 1)
                         / pause_every_n (deletion config))))%list.
Proof.
  intros Hne Hall Hp Hd Hc Hw Hin Habort.
  unfold delete_controls_bulk.
  destruct controls as [| ctrl rest] eqn:Hcontrols; [now contradiction Hne |].
  rewrite <- Hcontrols in *. clear Hcontrols. cbv zeta. cbn [negb].
  set (n := Z.of_nat (List.length controls)) in *.
  unfold bind at 1. unfold bind at 1. unfold bind at 1.
  destruct (confirm_deletion_accepted "controls" n _ typed w Hin)
    as (w1 & -> & Hrem & Hsent1 & Hslept1 & Habort1).
  cbv beta iota delta [ret negb].
  unfold countdown_warning, try_except. cbn [dry_run].
  rewrite Habort1, Habort. unfold sleep.
  destruct (Z.ltb_spec (countdown_seconds (safety config)) 0); [lia |].
  match goal with
  | |- context [delete_loop client config false n 1 controls ?r ?w0] =>
      destruct (delete_loop_pauses client config controls Hall Hp Hd 1 r w0 ltac:(lia))
        as (results' & w' & Hloop & Hsent & Hslept)
  end.
  { intros k r. cbn [remote record_sleep]. rewrite Hrem. apply Hw. }
  cbv zeta in Hloop, Hslept.
  replace (1 - 1 + Z.of_nat (List.length controls)) with n in Hloop, Hslept by (unfold n; lia).
  rewrite Hloop. exists results', w'. split; [reflexivity |].
  split; [rewrite Hsent; cbn [sent record_sleep]; now rewrite Hsent1 |].
  rewrite Hslept. cbn [slept record_sleep]. rewrite Hslept1.
  rewrite <- app_assoc. cbn [app]. do 3 f_equal.
  change ((1 - 1) / pause_every_n (deletion config)) with (0 / pause_every_n (deletion config)).
  rewrite Z.div_0_l by lia. lia.
Qed.

(** A live batch against a remote API that answers every request with a
    status below 500, confirmed by the operator and not aborted: the
    driver returns after exactly one DELETE per target, in the order of
    the targets, and it sleeps the countdown and then
    [rate_limit_delay] once after every [pause_every_n]-th target except
    the last one, that is [(n - 1) / pause_every_n] times for [n]
    targets. *)
Theorem batch_pauses (controls : list value) (client : AuditBoardClient) (config : Config)
    (now : string) (w : world) (typed : list input_event) :
  let n := Z.of_nat (List.length controls) in
  controls <> [] ->
  Forall (fun ctrl => loggable ctrl = true) controls ->
  0 < pause_every_n (deletion config) ->
  0 <= rate_limit_delay (safety config) ->
  0 <= countdown_seconds (safety config) ->
  answers_below_500 w ->
  stdin w = Line ("DELETE " ++ str_of_Z n ++ " CONTROLS") :: typed ->
  abort_countdown w = false ->
  let run := delete_controls_bulk controls client config false now w in
  (exists results, fst run = Ok results) /\
  sent (snd run)
  = (sent w ++ map (fun ctrl => delete_item "controls" (field ctrl "id")) controls)%list /\
  slept (snd run)
  = (slept w ++ countdown_seconds (safety config)
       :: repeat (rate_limit_delay (safety config))
            (Z.to_nat ((n - 1) / pause_every_n (deletion config))))%list.
Proof.
  cbv zeta. intros Hne Hall Hp Hd Hc Hw Hin Habort.
  destruct (delete_controls_bulk_batch controls client config now w typed
              Hne Hall Hp Hd Hc Hw Hin Habort) as (results & w' & -> & Hsent & Hslept).
  cbn [fst snd]. split; [now exists results |]. now split.
Qed.

Lemma batch_pauses_witness :
  let config := {| auditboard := auditboard default_config; safety := safety default_config;
                   deletion := {| batch_size := 10; pause_every_n := 1;
                                  save_results := true; results_dir := "results" |} |} in
  let w := fresh_world (fun _ _ => reply 204 None) [Line "DELETE 3 CONTROLS"] in
  let run := delete_controls_bulk three_controls default_client config false
               "2024-01-01T00:00:00" w in
  (exists results, fst run = Ok results) /\
  sent (snd run) = [ delete_item "controls" (VInt 100); delete_item "controls" (VInt 101);
                     delete_item "controls" (VInt 102) ] /\
  slept (snd run) = [5; 1; 1].
Proof.
  cbv zeta.
  refine (batch_pauses three_controls default_client _ "2024-01-01T00:00:00"
            (fresh_world (fun _ _ => reply 204 None) [Line "DELETE 3 CONTROLS"]) []
            _ _ _ _ _ _ eq_refl eq_refl).
  - discriminate.
  - repeat constructor.
  - cbn; lia.
  - cbn; lia.
  - cbn; lia.
  - intros k r. eexists. split; [reflexivity | cbn; lia].
Defined.

(** ** The two dependency checks of a region agree *)

Lemma log_names_leave_the_world xs w u w' :
  for_each xs log_name w = (Ok u, w') -> w' = w.
Proof.
  intros H.
  assert (Hs : stays eq (for_each xs log_name)).
  { apply stays_for_each; [typeclasses eauto |]. intros x. unfold log_name.
    repeat stays_step. }
  specialize (Hs w). rewrite H in Hs. cbn in Hs. now symmetry.
Qed.

(** The dependency check that [find_dependencies.py] reports for a region
    and the one that guards [delete_region] agree: whenever the discovery
    check returns a report, the guard, run against the same answers of
    the remote API, returns [safe = not has_dependencies] with the same
    blocking entities and processes, after the same two fetches.  So a
    region that the discovery script reports as free of dependencies is
    not blocked by the deletion script, and the other way round. *)
Theorem region_checks_agree (region_id : Z) (client : AuditBoardClient) (w w' : world)
    (report : RegionDependencyReport) :
  FindDependencies.check_region_dependencies region_id client w = (Ok report, w') ->
  DeleteRegion.check_region_dependencies region_id client w
  = (Ok (negb (region_has_dependencies report), (dep_entities report, dep_processes report)),
     w').
Proof.
  intros H. unfold FindDependencies.check_region_dependencies in H.
  stepped H all_entities w1 He.
  lifted H region_entities Hsel.
  stepped H all_processes w2 Hp.
  lifted H region_processes Hsel2.
  cbv zeta in H.
  stepped H u w3 Hlog1. apply log_names_leave_the_world in Hlog1. subst w3.
  stepped H u' w4 Hlog2. apply log_names_leave_the_world in Hlog2. subst w4.
  unfold ret in H. injection H as <- <-.
  unfold DeleteRegion.check_region_dependencies, bind, lift.
  rewrite He, Hsel, Hp, Hsel2. cbn [region_has_dependencies dep_entities dep_processes].
  destruct ((0 <? Z.of_nat (List.length region_entities))
            || (0 <? Z.of_nat (List.length region_processes))); reflexivity.
Qed.

Lemma region_checks_agree_witness :
  let w := fresh_world (scripted [ reply 200 (Some (VDict [("entities",
                                                           VList entities_of_15_and_16)]));
                                   reply 200 (Some (VDict [("processes", VList [])])) ]) [] in
  exists w',
    DeleteRegion.check_region_dependencies 15 default_client w
    = (Ok (false, ([ VDict [("id", VInt 25); ("name", VStr "Paris"); ("region_id", VInt 15)];
                     VDict [("id", VInt 26); ("name", VStr "Berlin"); ("region_id", VInt 15)] ],
                   [])), w').
Proof.
  cbv zeta. eexists.
  refine (region_checks_agree 15 default_client _ _
            {| checked_region_id := 15; region_has_dependencies := true;
               dep_entities := _; entities_count := 2;
               dep_processes := []; processes_count := 0 |} _).
  reflexivity.
Defined.

(** ** Nothing restored (verification/check_restoration.py) *)

Lemma expected_name_reported names id :
  Forall (fun id => hashable id = true) [id] ->
  Forall (fun kv => sliceable (snd kv) = true) names ->
  expected_name_of names id = Ok (reported_name names id) /\
  sliceable (reported_name names id) = true.
Proof.
  intros Hid Hnames. apply Forall_inv in Hid. unfold expected_name_of, reported_name.
  split.
  - destruct names; [reflexivity |]. unfold require_hashable. now rewrite Hid.
  - destruct (find _ names) as [kv |] eqn:Hf; [| reflexivity].
    apply find_some in Hf. destruct Hf as [Hin _].
    rewrite Forall_forall in Hnames. now apply Hnames.
Qed.

Lemma check_loop_nothing_restored resource client names ids :
  Forall (fun id => hashable id = true) ids ->
  Forall (fun kv => sliceable (snd kv) = true) names ->
  forall results w,
    (forall n r, is_4xx (remote w n r) = true) ->
    exists w',
      check_loop (get_by_id resource client) names ids results w
      = (Ok {| chk_entity_type := chk_entity_type results;
               restored := restored results;
               still_missing :=
                 still_missing results ++
                 map (fun id => {| mi_id := id; mi_expected_name := reported_name names id |})
                     ids |}, w') /\
      sent w' = (sent w ++ map (get_item resource) ids)%list.
Proof.
  intros Hids Hnames.
  induction Hids as [| id rest Hid _ IH]; intros results w Hw; cbn [check_loop map].
  - exists w. unfold ret. rewrite !app_nil_r. now destruct results.
  - destruct (expected_name_reported names id ltac:(now constructor) Hnames) as [Hname Hsl].
    unfold bind at 1. unfold check_one. unfold bind at 1. unfold lift at 1. rewrite Hname.
    unfold bind at 1.
    assert (Hlog : (if negb (py_eq (reported_name names id) (VStr "Unknown"))
                    then lift (py_slice (reported_name names id)) else ret tt) w = (Ok tt, w)).
    { unfold py_slice. rewrite Hsl. now destruct (negb _). }
    rewrite Hlog. unfold bind at 1.
    rewrite (get_by_id_4xx resource client id w (Hw _ _)). cbn [truthy]. unfold ret at 1.
    match goal with
    | |- context [check_loop _ names rest ?r ?w0] =>
        destruct (IH r w0 Hw) as (w' & Hrun & Hsent)
    end.
    exists w'. rewrite Hrun, Hsent. cbn. rewrite <- !app_assoc. now split.
Qed.

(** When nothing was restored (the remote API answers every look-up with
    a 4xx), the check returns every id in [still_missing], in the order
    given, each with its expected name, or with ["Unknown"] when no name
    was given for it; [restored] is empty, one GET was sent per id, and
    the process ends with exit code 1, unless there was no id to check.
    (The ids are numbers and the expected names are text.) *)
Theorem nothing_restored_all_missing (entity_type : string) (entity_ids : list value)
    (expected_names : list (value * value)) (client : AuditBoardClient) (w : world) :
  getter_map entity_type <> None ->
  Forall (fun id => hashable id = true) entity_ids ->
  Forall (fun kv => sliceable (snd kv) = true) expected_names ->
  (forall n r, is_4xx (remote w n r) = true) ->
  fst (check_restoration entity_type entity_ids expected_names client w)
  = Ok {| chk_entity_type := entity_type; restored := [];
          still_missing :=
            map (fun id => {| mi_id := id;
                              mi_expected_name := reported_name expected_names id |})
                entity_ids |} /\
  List.length (sent (snd (check_restoration entity_type entity_ids expected_names client w)))
  = (List.length (sent w) + List.length entity_ids)%nat /\
  exit_code (fst (check_main entity_type entity_ids expected_names client w))
  = (match entity_ids with [] => 0 | _ => 1 end).
Proof.
  intros Hknown Hids Hnames Hw.
  destruct (getter_map entity_type) as [getter |] eqn:Hmap; [| now contradiction Hknown].
  destruct (getter_map_get_by_id _ _ Hmap) as [resource ->].
  destruct (check_loop_nothing_restored resource client expected_names entity_ids Hids Hnames
              {| chk_entity_type := entity_type; restored := []; still_missing := [] |} w Hw)
    as (w' & Hrun & Hsent).
  assert (Hcheck : check_restoration entity_type entity_ids expected_names client w
                   = (Ok {| chk_entity_type := entity_type; restored := [];
                            still_missing :=
                              map (fun id => {| mi_id := id;
                                                mi_expected_name :=
                                                  reported_name expected_names id |})
                                  entity_ids |}, w')).
  { unfold check_restoration. rewrite Hmap. exact Hrun. }
  unfold check_main, bind. rewrite Hcheck. cbn [fst snd still_missing].
  split; [reflexivity |].
  split; [rewrite Hsent, length_app, length_map; reflexivity |].
  now destruct entity_ids.
Qed.

Lemma nothing_restored_all_missing_witness :
  let w := fresh_world knows_nothing [] in
  let names := [(VInt 100, VStr "Access review")] in
  fst (check_restoration "controls" [VInt 100; VInt 101] names default_client w)
  = Ok {| chk_entity_type := "controls"; restored := [];
          still_missing := [ {| mi_id := VInt 100; mi_expected_name := VStr "Access review" |};
                             {| mi_id := VInt 101; mi_expected_name := VStr "Unknown" |} ] |} /\
  exit_code (fst (check_main "controls" [VInt 100; VInt 101] names default_client w)) = 1.
Proof.
  cbv zeta.
  destruct (nothing_restored_all_missing "controls" [VInt 100; VInt 101]
              [(VInt 100, VStr "Access review")] default_client (fresh_world knows_nothing [])
              ltac:(discriminate) ltac:(repeat constructor) ltac:(repeat constructor)
              ltac:(intros n r; reflexivity)) as (Hrun & _ & Hexit).
  split; [exact Hrun | exact Hexit].
Defined.

(** ** The list accessors do not swallow errors (core/api_client.py) *)

(** The list accessors ([get_controls], [get_processes], ...) hand an
    HTTP error on where the per-id accessors turn it into [None]: for a
    4xx answer to the fetch of a collection they raise [HTTPError] with
    that status, after the one GET.  For an answer below 400 they return
    what the JSON object holds under the resource's key, the empty list
    when the key is missing, and they raise a JSON decoding error when
    the body is no JSON. *)
Theorem list_accessors_raise_http_errors (resource : string) (c : AuditBoardClient)
    (w : world) (resp : response) :
  remote w (List.length (sent w))
    {| rq_method := GET; rq_endpoint := Collection resource |} = Replies resp ->
  status_code resp < 500 ->
  get_all resource c w
  = (if 400 <=? status_code resp then Raise (HTTPError (status_code resp))
     else match body resp with
          | None => Raise JSONDecodeError
          | Some data => py_get data resource (VList [])
          end,
     record_request {| rq_method := GET; rq_endpoint := Collection resource |} w).
Proof.
  intros Hr Hs. unfold get_all, get, bind.
  rewrite (make_request_answer c GET (Collection resource) 0 w resp Hr Hs).
  unfold raise_for_status.
  destruct (Z.leb_spec 400 (status_code resp)).
  - replace (status_code resp <? 600) with true by (symmetry; apply Z.ltb_lt; lia).
    reflexivity.
  - cbn. unfold json. destruct (body resp); reflexivity.
Qed.

Lemma list_accessors_raise_http_errors_witness :
  let w := fresh_world knows_nothing [] in
  get_controls default_client w
  = (Raise (HTTPError 404),
     record_request {| rq_method := GET; rq_endpoint := Collection "controls" |} w) /\
  get_control default_client (VInt 100) w
  = (Ok VNone, record_request (get_item "controls" (VInt 100)) w).
Proof.
  cbv zeta. split.
  - exact (list_accessors_raise_http_errors "controls" default_client
             (fresh_world knows_nothing []) {| status_code := 404; body := None |}
             eq_refl eq_refl).
  - reflexivity.
Defined.
